(** * Landing-Page-Gen: canonical data model and resolution engine

    A shallow embedding of [core/schemas.py], [core/errors.py],
    [core/renderer.py], [core/llm.py], [agents/landing.py],
    [orchestrator.py] and the rendering command of [main.py], and the
    properties of the variant-resolution rules, the schema validators, the
    bulk renderer, the answer clean-up of the LLM client, the pipeline
    driver and the files they write.

    Conventions of the embedding.
    - A Python [str] is a [string]; a character is read as a code point
      below 256.  [len], [str.strip], [str.lower] and [str.split(".")] are
      written out on that range in [PyStr].
    - A Python [int] is a [Z]; a [float] is a [spec_float]; a [list] is a
      [list]; [None | T] is an [option]; a [frozenset] is a [gset]; a
      [dict] built at run time is a [gmap]; a constant [dict] whose key
      order is iterated is an association list.
    - A function that may raise returns a sum: [inl] carries the exception.
    - The Jinja2 environment (which templates load, and what rendering one
      returns or raises), the clock and the LLM are parameters.
    - pydantic validates in lax mode; the conversions of strings and floats
      to [int] and [bool] are pydantic-core's and are parameters ([Lax]).
    - Logging and printing are left out: they do not change what a function
      returns or raises. *)

From Stdlib Require Import ZArith String Ascii List Bool Lia.
From Stdlib Require Import Floats.SpecFloat.
From stdpp Require Import base decidable option list gmap strings pretty.

Open Scope string_scope.
Open Scope list_scope.
Open Scope Z_scope.

(** ** Exceptions as values *)

Definition Exc (E A : Type) : Type := (E + A)%type.
Definition ok {E A : Type} (a : A) : Exc E A := inr a.
Definition raise {E A : Type} (e : E) : Exc E A := inl e.

Definition exc_bind {E A B : Type} (m : Exc E A) (k : A -> Exc E B) : Exc E B :=
  match m with
  | inl e => inl e
  | inr a => k a
  end.

Notation "'do' x <- m ; k" := (exc_bind m (fun x => k))
  (at level 10, x name, m at level 100, k at level 200).

Definition is_raise {E A : Type} (m : Exc E A) : bool :=
  match m with inl _ => true | inr _ => false end.

(** ** Python string primitives *)

Module PyStr.

Definition code (a : ascii) : N := N_of_ascii a.

(** [str.isspace] on one code point below 256. *)
Definition isspace (a : ascii) : bool :=
  let c := code a in
  (((9 <=? c) && (c <=? 13)) || ((28 <=? c) && (c <=? 32))
   || (c =? 133) || (c =? 160))%N.

(** Unicode [White_Space] on one code point below 256: what pydantic's
    [str_strip_whitespace] removes. *)
Definition is_white_space (a : ascii) : bool :=
  let c := code a in
  (((9 <=? c) && (c <=? 13)) || (c =? 32) || (c =? 133) || (c =? 160))%N.

(** [str.lower] on one code point below 256. *)
Definition lower_char (a : ascii) : ascii :=
  let c := code a in
  if (((65 <=? c) && (c <=? 90))
      || ((192 <=? c) && (c <=? 214))
      || ((216 <=? c) && (c <=? 222)))%N
  then ascii_of_N (c + 32) else a.

Fixpoint lower (s : string) : string :=
  match s with
  | EmptyString => EmptyString
  | String a s' => String (lower_char a) (lower s')
  end.

Fixpoint lstrip_with (ws : ascii -> bool) (s : string) : string :=
  match s with
  | EmptyString => EmptyString
  | String a s' => if ws a then lstrip_with ws s' else s
  end.

Fixpoint rstrip_with (ws : ascii -> bool) (s : string) : string :=
  match s with
  | EmptyString => EmptyString
  | String a s' =>
      match rstrip_with ws s' with
      | EmptyString => if ws a then EmptyString else String a EmptyString
      | r => String a r
      end
  end.

Definition strip_with (ws : ascii -> bool) (s : string) : string :=
  rstrip_with ws (lstrip_with ws s).

(** [s.strip()] *)
Definition strip (s : string) : string := strip_with isspace s.

(** The trimming applied by [ConfigDict(str_strip_whitespace=True)]. *)
Definition trim (s : string) : string := strip_with is_white_space s.

(** [len(s)] *)
Definition len (s : string) : Z := Z.of_nat (String.length s).

(** Truthiness of a string: [bool(s)]. *)
Definition truthy (s : string) : bool :=
  match s with EmptyString => false | _ => true end.

(** [s.split(".")] *)
Fixpoint split_dot (s : string) : list string :=
  match s with
  | EmptyString => [EmptyString]
  | String a s' =>
      if Ascii.eqb a "."%char then EmptyString :: split_dot s'
      else match split_dot s' with
           | [] => [String a EmptyString]
           | h :: t => String a h :: t
           end
  end.

(** [sep.join(l)] *)
Fixpoint join (sep : string) (l : list string) : string :=
  match l with
  | [] => ""
  | [x] => x
  | x :: rest => x +:+ sep +:+ join sep rest
  end.

(** [needle in s] for strings, as a proposition. *)
Definition contains (needle s : string) : Prop :=
  exists pre post, s = pre +:+ needle +:+ post.

Fixpoint insert_sorted (x : string) (l : list string) : list string :=
  match l with
  | [] => [x]
  | y :: l' => if String.leb x y then x :: l else y :: insert_sorted x l'
  end.

(** [sorted(xs)] on strings: code-point lexicographic order. *)
Definition sorted (l : list string) : list string :=
  fold_right insert_sorted [] l.

(** [repr] of a list of strings none of which needs escaping. *)
Definition repr_list (l : list string) : string :=
  "[" +:+ join ", " (map (fun s => "'" +:+ s +:+ "'") l) +:+ "]".

(** [bool(s.strip())]: the test of the validators that drop blank
    entries. *)
Definition nonblank (s : string) : bool := truthy (strip s).

(** [s[:n]] for [n >= 0] *)
Fixpoint slice_to (n : nat) (s : string) : string :=
  match n, s with
  | O, _ => EmptyString
  | S _, EmptyString => EmptyString
  | S n', String a s' => String a (slice_to n' s')
  end.

End PyStr.

(** ** core/llm.py *)

Module LLM.

Import PyStr.

(** [needle in s] for strings, as a test. *)
Fixpoint in_str (needle s : string) : bool :=
  String.prefix needle s
  || match s with
     | EmptyString => false
     | String _ s' => in_str needle s'
     end.

(** [s.find(c)] for a one-character [c]: the first index, or -1. *)
Fixpoint find (c : ascii) (s : string) : Z :=
  match s with
  | EmptyString => -1
  | String a s' =>
      if Ascii.eqb a c then 0
      else let i := find c s' in if i =? -1 then -1 else i + 1
  end.

(** [s.rfind(c)] for a one-character [c]: the last index, or -1. *)
Fixpoint rfind (c : ascii) (s : string) : Z :=
  match s with
  | EmptyString => -1
  | String a s' =>
      let i := rfind c s' in
      if i =? -1 then (if Ascii.eqb a c then 0 else -1) else i + 1
  end.

(** [s[start:stop]] for [0 <= start <= stop]. *)
Definition slice (start stop : Z) (s : string) : string :=
  String.substring (Z.to_nat start) (Z.to_nat (stop - start)) s.

(** [s[n:]] for [n >= 0] *)
Fixpoint drop (n : nat) (s : string) : string :=
  match n, s with
  | O, _ => s
  | S _, EmptyString => EmptyString
  | S n', String _ s' => drop n' s'
  end.

Definition FENCE : string := "```".

  (** The pattern [```(?:json)?\s*([\s\S]*?)```], matched by backtracking
      as [re] does; each function is the rest of the pattern from one of
      its positions and returns the text of group 1. *)

(** [([\s\S]*?)```]: the lazy group takes the fewest characters that
    leave a fence next. *)
Fixpoint group_then_fence (s : string) : option string :=
  if String.prefix FENCE s then Some EmptyString
  else match s with
       | EmptyString => None
       | String a s' =>
           match group_then_fence s' with
           | Some g => Some (String a g)
           | None => None
           end
       end.

(** [\s*([\s\S]*?)```]: the greedy star takes every white space first
    and gives them back one at a time while the rest fails. *)
Fixpoint spaces_then_group (s : string) : option string :=
  match s with
  | String a s' =>
      if isspace a
      then match spaces_then_group s' with
           | Some g => Some g
           | None => group_then_fence s
           end
      else group_then_fence s
  | EmptyString => group_then_fence s
  end.

(** [(?:json)?\s*([\s\S]*?)```]: the optional word is tried first. *)
Definition json_then_group (s : string) : option string :=
  if String.prefix "json" s
  then match spaces_then_group (drop 4 s) with
       | Some g => Some g
       | None => spaces_then_group s
       end
  else spaces_then_group s.

(** [re.search(pattern, s)]: the match at the leftmost position that has
    one; [Some g] holds [match.group(1)]. *)
Fixpoint search (s : string) : option string :=
  match (if String.prefix FENCE s then json_then_group (drop 3 s) else None) with
  | Some g => Some g
  | None =>
      match s with
      | EmptyString => None
      | String _ s' => search s'
      end
  end.

(** [LLMClient._extract_json] *)
Definition _extract_json (text : string) : string :=
  let text := strip text in
  match (if in_str FENCE text then search text else None) with
  | Some g => strip g
  | None =>
      let start := find "{" text in
      let end_ := rfind "}" text in
      if negb (start =? -1) && negb (end_ =? -1) && (end_ >? start)
      then slice start (end_ + 1) text
      else
        let start := find "[" text in
        let end_ := rfind "]" text in
        if negb (start =? -1) && negb (end_ =? -1) && (end_ >? start)
        then slice start (end_ + 1) text
        else text
  end.

End LLM.

(** ** core/errors.py *)

Module Errors.

Inductive ErrorCode : Type :=
| SCHEMA_VALIDATION | INVALID_TONE | INVALID_VARIANT_ID
| INVALID_TEMPLATE_TYPE | INVALID_HEX_COLOR | MISSING_REQUIRED_FIELD
| ONBOARDING_FAILED | BRAND_FAILED | LANDING_FAILED | LLM_GENERATION_FAILED
| TEMPLATE_NOT_FOUND | RENDER_FAILED | MISSING_CONTENT
| FILE_NOT_FOUND | FILE_WRITE_FAILED | JSON_PARSE_FAILED.

Definition ErrorCode_value (c : ErrorCode) : string :=
  match c with
  | SCHEMA_VALIDATION => "E101" | INVALID_TONE => "E102"
  | INVALID_VARIANT_ID => "E103" | INVALID_TEMPLATE_TYPE => "E104"
  | INVALID_HEX_COLOR => "E105" | MISSING_REQUIRED_FIELD => "E106"
  | ONBOARDING_FAILED => "E201" | BRAND_FAILED => "E202"
  | LANDING_FAILED => "E203" | LLM_GENERATION_FAILED => "E204"
  | TEMPLATE_NOT_FOUND => "E301" | RENDER_FAILED => "E302"
  | MISSING_CONTENT => "E303"
  | FILE_NOT_FOUND => "E401" | FILE_WRITE_FAILED => "E402"
  | JSON_PARSE_FAILED => "E403"
  end.

(** [PipelineError]: code, message, details and step. *)
Record PipelineError : Type := mkPipelineError {
  code : ErrorCode;
  message : string;
  details : list (string * string);
  step : option string;
}.

(** [PipelineError._format_message]: the text of [str(e)]. *)
Definition _format_message (self : PipelineError) : string :=
  let parts := ["[" +:+ ErrorCode_value (code self) +:+ "]"] in
  let parts :=
    match step self with
    | Some s => if PyStr.truthy s then parts ++ ["[" +:+ s +:+ "]"] else parts
    | None => parts
    end in
  PyStr.join " " (parts ++ [message self]).

(** [RenderError(message, template=None, code=RENDER_FAILED)] *)
Definition RenderError (message : string) (template : option string)
    (code : ErrorCode) : PipelineError :=
  let details :=
    match template with
    | Some t => if PyStr.truthy t then [("template", t)] else []
    | None => []
    end in
  mkPipelineError code message details (Some "render").

(** [ValidationError(message, field=None, value=None,
    code=SCHEMA_VALIDATION)].  [value] is any object: what the error
    keeps of it is [str(value)], given here when the value is not
    [None]. *)
Definition ValidationError (message : string) (field : option string)
    (value : option string) (code : ErrorCode) : PipelineError :=
  let details : list (string * string) := [] in
  let details :=
    match field with
    | Some f => if PyStr.truthy f then details ++ [("field", f)] else details
    | None => details
    end in
  let details :=
    match value with
    | Some v => details ++ [("value", PyStr.slice_to 100 v)]
    | None => details
    end in
  mkPipelineError code message details (Some "validation").

(** [AgentError(agent_name, message, code, cause=None)]; [cause] is given
    by its [str(cause)].  An exception is truthy. *)
Definition AgentError (agent_name message : string) (code : ErrorCode)
    (cause : option string) : PipelineError :=
  let details := [("agent", agent_name)] in
  let details :=
    match cause with
    | Some c => details ++ [("cause", c)]
    | None => details
    end in
  mkPipelineError code message details (Some agent_name).

End Errors.

(** ** Validation results

    A pydantic [ValidationError] carries one entry per failing field: its
    location and what failed.  [value_error] is a [ValueError] raised by a
    [field_validator] of the schema, with its message. *)

Module Validation.

Inductive ErrorKind : Type :=
| missing | model_type | string_type | int_type | int_parsing
| int_parsing_size | int_from_float | finite_number
| bool_type | bool_parsing | list_type | dict_type
| string_too_short | string_too_long | string_pattern_mismatch
| too_short | too_long
| literal_error | greater_than_equal | less_than_equal
| value_error (msg : string).

Record ErrorDetail : Type := mkErrorDetail {
  loc : list string;
  kind : ErrorKind;
}.

Definition ValidationError : Type := list ErrorDetail.

Definition V (A : Type) : Type := Exc ValidationError A.

Definition fail {A : Type} (k : ErrorKind) : V A :=
  raise [mkErrorDetail [] k].

(** Errors of several fields are collected. *)
Definition vap {A B : Type} (f : V (A -> B)) (x : V A) : V B :=
  match f, x with
  | inr f, inr x => inr (f x)
  | inl e1, inl e2 => inl (e1 ++ e2)
  | inl e1, inr _ => inl e1
  | inr _, inl e2 => inl e2
  end.

(** Errors of a field are located under the field's name. *)
Definition at_loc {A : Type} (name : string) (v : V A) : V A :=
  match v with
  | inl es => inl (map (fun e => mkErrorDetail (name :: loc e) (kind e)) es)
  | inr a => inr a
  end.

(** The message of a [ValueError], if the entry is one. *)
Definition value_error_msg (e : ErrorDetail) : option string :=
  match kind e with
  | value_error m => Some m
  | _ => None
  end.

(** [Field(min_length=.., max_length=..)] on a [str], after the optional
    trimming of [str_strip_whitespace]. *)
Definition str_field (strip_whitespace : bool) (min_length max_length : option Z)
    (s : string) : V string :=
  let s := if strip_whitespace then PyStr.trim s else s in
  if match min_length with Some m => PyStr.len s <? m | None => false end
  then fail string_too_short
  else if match max_length with Some m => m <? PyStr.len s | None => false end
  then fail string_too_long
  else ok s.

(** [Field(min_length=.., max_length=..)] on a [list]. *)
Definition list_len_field {A : Type} (min_length max_length : option Z)
    (l : list A) : V (list A) :=
  if match min_length with Some m => Z.of_nat (length l) <? m | None => false end
  then fail too_short
  else if match max_length with Some m => m <? Z.of_nat (length l) | None => false end
  then fail too_long
  else ok l.

(** A [Literal[...]] of strings. *)
Definition literal_field (allowed : list string) (s : string) : V string :=
  if existsb (String.eqb s) allowed then ok s else fail literal_error.

Definition int_range_field (ge le : Z) (n : Z) : V Z :=
  if n <? ge then fail greater_than_equal
  else if le <? n then fail less_than_equal
  else ok n.

Definition opt_field {A : Type} (f : A -> V A) (o : option A) : V (option A) :=
  match o with
  | None => ok None
  | Some a => do a' <- f a; ok (Some a')
  end.

End Validation.

Notation "f <*> x" := (Validation.vap f x) (at level 61, left associativity).

(** ** Documents

    The value tree that [model_dump_json] writes and [model_validate_json]
    reads.  An object is a Python [dict]: its keys are distinct, and a key is
    looked up by name.  A number written without fraction and exponent is an
    integer, any other number a float. *)

Module Json.

  #[local] Unset Elimination Schemes.

Inductive t : Type :=
| JNull
| JBool (b : bool)
| JInt (n : Z)
| JFloat (f : spec_float)
| JStr (s : string)
| JList (l : list t)
| JObj (o : list (string * t)).

  #[local] Set Elimination Schemes.

Fixpoint field (o : list (string * t)) (k : string) : option t :=
  match o with
  | [] => None
  | (k', v) :: rest => if String.eqb k k' then Some v else field rest k
  end.

End Json.

Import Validation.
Import Json.

(** ** Lax mode

    pydantic validates in lax mode.  A field declared [int] takes an
    integer, a bool ([True] is 1), and the floats and strings that
    pydantic-core reads as an integer; a field declared [bool] takes a bool,
    the integers 0 and 1, and the floats and strings that pydantic-core
    reads as a bool.  Which floats and strings these are is the library's:
    the four conversions are parameters, named as pydantic-core names them.
    A refused float or string is an error of the kind the conversion gives
    for an [int], and a [bool_parsing] error for a [bool].  A field declared
    [str] takes a string only. *)

Class Lax : Type := mkLax {
  float_as_int : spec_float -> Exc Validation.ErrorKind Z;
  str_as_int : string -> Exc Validation.ErrorKind Z;
  float_as_bool : spec_float -> option bool;
  str_as_bool : string -> option bool;
}.

(** Reading typed values out of a document. *)

Module Decode.

Definition as_str (j : Json.t) : V string :=
  match j with JStr s => ok s | _ => fail string_type end.

Definition as_int {lax : Lax} (j : Json.t) : V Z :=
  match j with
  | JInt n => ok n
  | JBool b => ok (if b then 1 else 0)
  | JFloat f =>
      match float_as_int f with
      | inr n => ok n
      | inl k => fail k
      end
  | JStr s =>
      match str_as_int s with
      | inr n => ok n
      | inl k => fail k
      end
  | _ => fail int_type
  end.

Definition as_bool {lax : Lax} (j : Json.t) : V bool :=
  match j with
  | JBool b => ok b
  | JInt n =>
      if n =? 0 then ok false
      else if n =? 1 then ok true
      else if (- 2 ^ 63 <=? n) && (n <? 2 ^ 63) then fail bool_parsing
      else fail bool_type
  | JFloat f =>
      match float_as_bool f with
      | Some b => ok b
      | None => fail bool_parsing
      end
  | JStr s =>
      match str_as_bool s with
      | Some b => ok b
      | None => fail bool_parsing
      end
  | _ => fail bool_type
  end.

(** Every item is read; the errors of all items are collected. *)
Fixpoint items {A : Type} (f : Json.t -> V A) (l : list Json.t) (i : Z)
    : V (list A) :=
  match l with
  | [] => ok []
  | j :: rest => ok cons <*> at_loc (pretty i) (f j) <*> items f rest (i + 1)
  end.

Definition as_list {A : Type} (f : Json.t -> V A) (j : Json.t) : V (list A) :=
  match j with JList l => items f l 0 | _ => fail list_type end.

(** A list under [Field(max_length=m)]: an input of more than [m] items is
    refused as too long, whatever its items are; the items of a shorter
    one are read as above. *)
Definition as_list_max {A : Type} (max_length : Z) (f : Json.t -> V A)
    (j : Json.t) : V (list A) :=
  match j with
  | JList l =>
      if max_length <? Z.of_nat (length l) then fail too_long
      else items f l 0
  | _ => fail list_type
  end.

Fixpoint entries {A : Type} (f : Json.t -> V A) (o : list (string * Json.t))
    : V (list (string * A)) :=
  match o with
  | [] => ok []
  | (k, j) :: rest =>
      ok (fun a r => (k, a) :: r) <*> at_loc k (f j) <*> entries f rest
  end.

Definition as_dict {A : Type} (f : Json.t -> V A) (j : Json.t)
    : V (list (string * A)) :=
  match j with JObj o => entries f o | _ => fail dict_type end.

(** [T | None]: [null] is [None]. *)
Definition nullable {A : Type} (f : Json.t -> V A) (j : Json.t) : V (option A) :=
  match j with
  | JNull => ok None
  | _ => do a <- f j; ok (Some a)
  end.

(** A field declared with [...]: it must be present. *)
Definition required {A : Type} (o : list (string * Json.t)) (k : string)
    (f : Json.t -> V A) : V A :=
  match Json.field o k with
  | Some j => at_loc k (f j)
  | None => at_loc k (fail missing)
  end.

(** A field with a default: an absent key takes the default, which is not
    validated. *)
Definition defaulted {A : Type} (o : list (string * Json.t)) (k : string)
    (f : Json.t -> V A) (default : A) : V A :=
  match Json.field o k with
  | Some j => at_loc k (f j)
  | None => ok default
  end.

Definition str_json (strip_whitespace : bool) (min_length max_length : option Z)
    (j : Json.t) : V string :=
  do s <- as_str j; str_field strip_whitespace min_length max_length s.

End Decode.

(** ** Values typed [Any]

    What a field typed [Any] may hold, as far as a plan of [pricing_plans]
    is concerned: the values JSON has, and tuples.  Other Python objects
    (dates, sets, dictionaries keyed by something else than strings) are
    left out.  Validation keeps such a value as it is; serialization writes
    a tuple as an array and a float that is not finite as [null]. *)

Module PyValue.

  #[local] Unset Elimination Schemes.

Inductive t : Type :=
| PyNone
| PyBool (b : bool)
| PyInt (n : Z)
| PyFloat (f : spec_float)
| PyStr (s : string)
| PyList (l : list t)
| PyTuple (l : list t)
| PyDict (d : list (string * t)).

  #[local] Set Elimination Schemes.

(** [math.isfinite] *)
Definition isfinite (f : spec_float) : bool :=
  match f with
  | S754_zero _ | S754_finite _ _ _ => true
  | S754_infinity _ | S754_nan => false
  end.

(** What [model_dump_json] writes for a value. *)
Fixpoint to_json (v : t) : Json.t :=
  match v with
  | PyNone => JNull
  | PyBool b => JBool b
  | PyInt n => JInt n
  | PyFloat f => if isfinite f then JFloat f else JNull
  | PyStr s => JStr s
  | PyList l => JList (map to_json l)
  | PyTuple l => JList (map to_json l)
  | PyDict d => JObj (map (fun kv => (fst kv, to_json (snd kv))) d)
  end.

(** What [model_validate_json] reads into a field typed [Any]. *)
Fixpoint of_json (j : Json.t) : t :=
  match j with
  | JNull => PyNone
  | JBool b => PyBool b
  | JInt n => PyInt n
  | JFloat f => PyFloat f
  | JStr s => PyStr s
  | JList l => PyList (map of_json l)
  | JObj o => PyDict (map (fun kv => (fst kv, of_json (snd kv))) o)
  end.


End PyValue.

Module Encode.

Definition opt {A : Type} (f : A -> Json.t) (o : option A) : Json.t :=
  match o with Some a => f a | None => JNull end.

Definition strs (l : list string) : Json.t := JList (map JStr l).

Definition dict {A : Type} (f : A -> Json.t) (d : list (string * A)) : Json.t :=
  JObj (map (fun kv => (fst kv, f (snd kv))) d).

End Encode.

(** ** core/schemas.py *)

Module Schemas.

  (** *** Constants and reusable types *)

Definition SCHEMA_VERSION : string := "1.2.1".

Definition ToneType : list string :=
  ["professional"; "friendly"; "bold"; "minimal"].

Definition TemplateType : list string := ["saas"; "app"; "agency"].

Definition is_hex_digit (a : ascii) : bool :=
  let c := PyStr.code a in
  (((48 <=? c) && (c <=? 57)) || ((65 <=? c) && (c <=? 70))
   || ((97 <=? c) && (c <=? 102)))%N.

Fixpoint all_chars (p : ascii -> bool) (s : string) : bool :=
  match s with
  | EmptyString => true
  | String a s' => p a && all_chars p s'
  end.

(** [HEX_COLOR_PATTERN = r"^#[0-9A-Fa-f]{6}$"] *)
Definition matches_HEX_COLOR_PATTERN (s : string) : bool :=
  match s with
  | String "#" digits => (String.length digits =? 6)%nat && all_chars is_hex_digit digits
  | _ => false
  end.

Definition ALLOWED_FONTS : gset string :=
  list_to_set
    ["Inter"; "Roboto"; "Open Sans"; "Lato"; "Montserrat"; "Poppins";
     "Source Sans Pro"; "Nunito"; "Raleway"; "Work Sans"; "DM Sans";
     "Plus Jakarta Sans"; "Space Grotesk"; "Outfit"; "Sora";
     "Playfair Display"; "Merriweather"; "Lora"; "Crimson Text"].

Definition ALLOWED_ICONS : gset string :=
  list_to_set
    ["rocket"; "shield"; "zap"; "star"; "heart"; "check"; "lightning";
     "chart"; "users"; "clock"; "lock"; "globe"; "mail"; "phone";
     "settings"; "layers"; "target"; "trending"; "award"; "briefcase"].

(** The keys of [TONE_PRESETS]; its values are prompt fragments read only
    by the content stage. *)
Definition TONE_PRESETS_keys : list string :=
  ["professional"; "friendly"; "bold"; "minimal"].

Definition in_keys (k : string) (keys : list string) : bool :=
  existsb (String.eqb k) keys.

Record TonePreset : Type := mkTonePreset {
  style : string;
  copy_rules : string;
  cta_style : string;
}.

Definition TONE_PRESETS : list (string * TonePreset) :=
  [("professional",
    mkTonePreset "Clear, authoritative, trust-building"
      "Use formal language, focus on ROI and business outcomes, include data when possible"
      "Action-oriented but measured (e.g., 'Get Started', 'Request Demo')");
   ("friendly",
    mkTonePreset "Warm, conversational, approachable"
      "Use casual language, contractions allowed, speak directly to the reader"
      "Inviting and low-pressure (e.g., 'Try it free', 'See how it works')");
   ("bold",
    mkTonePreset "Direct, punchy, high-impact"
      "Short sentences. Strong verbs. No fluff. Create urgency."
      "Commanding and urgent (e.g., 'Start Now', 'Claim Your Spot')");
   ("minimal",
    mkTonePreset "Elegant, understated, sophisticated"
      "Less is more. Remove unnecessary words. Let whitespace breathe."
      "Subtle and refined (e.g., 'Explore', 'Learn more', 'Begin')")].

(** [d[k]] on a constant [dict]: [None] is [KeyError]. *)
Fixpoint dict_lookup {A : Type} (d : list (string * A)) (k : string) : option A :=
  match d with
  | [] => None
  | (k', v) :: rest => if String.eqb k k' then Some v else dict_lookup rest k
  end.

(** [get_tone_preset(tone)]; the exception is a [KeyError], carried by its
    message. *)
Definition get_tone_preset (tone : string) : Exc string TonePreset :=
  match dict_lookup TONE_PRESETS tone with
  | None =>
      raise ("Tone '" +:+ tone +:+ "' not in TONE_PRESETS. Valid: "
             +:+ PyStr.repr_list (map fst TONE_PRESETS))
  | Some preset => ok preset
  end.

Definition pattern_field (s : string) : V string :=
  if matches_HEX_COLOR_PATTERN s then ok s else fail string_pattern_mismatch.

  (** *** UserInput *)

Module UserInput.
Record t : Type := mk {
  product_name : string;
  target_audience : string;
  value_proposition : string;
  tone : string;
  additional_context : string;
  template_type : string;
}.

Definition validate_not_empty_after_strip (v : string) : V string :=
  if negb (PyStr.truthy (PyStr.strip v))
  then fail (value_error "Field cannot be empty or whitespace only")
  else ok (PyStr.strip v).

Definition new (product_name target_audience value_proposition tone
    additional_context template_type : string) : V t :=
  ok mk
  <*> at_loc "product_name"
        (do v <- str_field true (Some 1) (Some 100) product_name;
         validate_not_empty_after_strip v)
  <*> at_loc "target_audience"
        (do v <- str_field true (Some 1) (Some 500) target_audience;
         validate_not_empty_after_strip v)
  <*> at_loc "value_proposition"
        (do v <- str_field true (Some 1) (Some 500) value_proposition;
         validate_not_empty_after_strip v)
  <*> at_loc "tone" (literal_field ToneType tone)
  <*> at_loc "additional_context"
        (str_field true None (Some 1000) additional_context)
  <*> at_loc "template_type" (literal_field TemplateType template_type).
End UserInput.

  (** *** ProjectInfo *)

Module ProjectInfo.
Record t : Type := mk {
  product_name : string;
  tagline : string;
  description : string;
  target_audience : string;
  value_proposition : string;
  tone : string;
  keywords : list string;
}.

Definition validate_keywords (v : list string) : V (list string) :=
  let normalized :=
    map (fun kw => PyStr.lower (PyStr.strip kw))
        (List.filter (fun kw => PyStr.truthy (PyStr.strip kw)) v) in
  if Z.of_nat (length normalized) <? 3
  then fail (value_error ("At least 3 keywords required, got "
                          +:+ pretty (Z.of_nat (length normalized))))
  else ok normalized.

Definition validate_tone_exists (v : string) : V string :=
  if negb (in_keys v TONE_PRESETS_keys)
  then fail (value_error ("Tone '" +:+ v +:+ "' not in TONE_PRESETS"))
  else ok v.

Definition tone_field (v : string) : V string :=
  do v <- literal_field ToneType v; validate_tone_exists v.

Definition keywords_field (v : list string) : V (list string) :=
  do v <- list_len_field (Some 3) (Some 7) (map PyStr.trim v);
  validate_keywords v.

Definition new (product_name tagline description target_audience
    value_proposition tone : string) (keywords : list string) : V t :=
  ok mk
  <*> at_loc "product_name" (str_field true (Some 1) (Some 100) product_name)
  <*> at_loc "tagline" (str_field true (Some 1) (Some 80) tagline)
  <*> at_loc "description" (str_field true (Some 10) (Some 500) description)
  <*> at_loc "target_audience" (str_field true (Some 1) None target_audience)
  <*> at_loc "value_proposition" (str_field true (Some 1) None value_proposition)
  <*> at_loc "tone" (tone_field tone)
  <*> at_loc "keywords" (keywords_field keywords).

Definition to_json (x : t) : Json.t :=
  JObj [("product_name", JStr (product_name x));
        ("tagline", JStr (tagline x));
        ("description", JStr (description x));
        ("target_audience", JStr (target_audience x));
        ("value_proposition", JStr (value_proposition x));
        ("tone", JStr (tone x));
        ("keywords", Encode.strs (keywords x))].

Definition from_json (j : Json.t) : V t :=
  match j with
  | JObj o =>
      ok mk
      <*> Decode.required o "product_name" (Decode.str_json true (Some 1) (Some 100))
      <*> Decode.required o "tagline" (Decode.str_json true (Some 1) (Some 80))
      <*> Decode.required o "description" (Decode.str_json true (Some 10) (Some 500))
      <*> Decode.required o "target_audience" (Decode.str_json true (Some 1) None)
      <*> Decode.required o "value_proposition" (Decode.str_json true (Some 1) None)
      <*> Decode.required o "tone"
            (fun j => do s <- Decode.as_str j; tone_field s)
      <*> Decode.defaulted o "keywords"
            (fun j => do l <- Decode.as_list_max 7 Decode.as_str j;
                      keywords_field l) []
  | _ => fail model_type
  end.
End ProjectInfo.

  (** *** Brand identity *)

Module ColorPalette.
Record t : Type := mk {
  primary : string;
  secondary : string;
  accent : string;
  background : string;
  text : string;
}.

Definition new (primary secondary accent background text : string) : V t :=
  ok mk
  <*> at_loc "primary" (pattern_field primary)
  <*> at_loc "secondary" (pattern_field secondary)
  <*> at_loc "accent" (pattern_field accent)
  <*> at_loc "background" (pattern_field background)
  <*> at_loc "text" (pattern_field text).

Definition to_json (x : t) : Json.t :=
  JObj [("primary", JStr (primary x)); ("secondary", JStr (secondary x));
        ("accent", JStr (accent x)); ("background", JStr (background x));
        ("text", JStr (text x))].

Definition color_json (j : Json.t) : V string :=
  do s <- Decode.as_str j; pattern_field s.

Definition from_json (j : Json.t) : V t :=
  match j with
  | JObj o =>
      ok mk
      <*> Decode.required o "primary" color_json
      <*> Decode.required o "secondary" color_json
      <*> Decode.required o "accent" color_json
      <*> Decode.required o "background" color_json
      <*> Decode.required o "text" color_json
  | _ => fail model_type
  end.
End ColorPalette.

Module Typography.
Record t : Type := mk {
  heading : string;
  body : string;
}.

Definition validate_font (v : string) : V string :=
  if negb (bool_decide (v ∈ ALLOWED_FONTS))
  then fail (value_error
               ("Font '" +:+ v +:+ "' not in ALLOWED_FONTS. "
                +:+ "Valid fonts: "
                +:+ PyStr.repr_list (PyStr.sorted (elements ALLOWED_FONTS))))
  else ok v.

Definition new (heading body : string) : V t :=
  ok mk
  <*> at_loc "heading" (validate_font heading)
  <*> at_loc "body" (validate_font body).

Definition to_json (x : t) : Json.t :=
  JObj [("heading", JStr (heading x)); ("body", JStr (body x))].

Definition font_json (j : Json.t) : V string :=
  do s <- Decode.as_str j; validate_font s.

Definition from_json (j : Json.t) : V t :=
  match j with
  | JObj o =>
      ok mk
      <*> Decode.required o "heading" font_json
      <*> Decode.required o "body" font_json
  | _ => fail model_type
  end.
End Typography.

Module BrandIdentity.
Record t : Type := mk {
  colors : ColorPalette.t;
  fonts : Typography.t;
  tone_rules : list string;
}.

Definition validate_tone_rules_not_empty (v : list string) : V (list string) :=
  let validated :=
    map PyStr.strip (List.filter (fun rule => PyStr.truthy (PyStr.strip rule)) v) in
  if Z.of_nat (length validated) <? 2
  then fail (value_error "At least 2 non-empty tone_rules required")
  else ok validated.

Definition tone_rules_field (v : list string) : V (list string) :=
  do v <- list_len_field (Some 2) (Some 5) v;
  validate_tone_rules_not_empty v.

(** [colors] and [fonts] are instances: they are taken as they are. *)
Definition new (colors : ColorPalette.t) (fonts : Typography.t)
    (tone_rules : list string) : V t :=
  ok (mk colors fonts) <*> at_loc "tone_rules" (tone_rules_field tone_rules).

Definition to_json (x : t) : Json.t :=
  JObj [("colors", ColorPalette.to_json (colors x));
        ("fonts", Typography.to_json (fonts x));
        ("tone_rules", Encode.strs (tone_rules x))].

Definition from_json (j : Json.t) : V t :=
  match j with
  | JObj o =>
      ok mk
      <*> Decode.required o "colors" ColorPalette.from_json
      <*> Decode.required o "fonts" Typography.from_json
      <*> Decode.required o "tone_rules"
            (fun j => do l <- Decode.as_list_max 5 Decode.as_str j;
                      tone_rules_field l)
  | _ => fail model_type
  end.
End BrandIdentity.

  (** *** Landing content *)

Module HeroSection.
Record t : Type := mk {
  headline : string;
  subheadline : string;
  cta_text : string;
}.

Definition new (headline subheadline cta_text : string) : V t :=
  ok mk
  <*> at_loc "headline" (str_field true (Some 5) (Some 100) headline)
  <*> at_loc "subheadline" (str_field true (Some 10) (Some 200) subheadline)
  <*> at_loc "cta_text" (str_field true (Some 2) (Some 30) cta_text).

Definition to_json (x : t) : Json.t :=
  JObj [("headline", JStr (headline x));
        ("subheadline", JStr (subheadline x));
        ("cta_text", JStr (cta_text x))].

Definition from_json (j : Json.t) : V t :=
  match j with
  | JObj o =>
      ok mk
      <*> Decode.required o "headline" (Decode.str_json true (Some 5) (Some 100))
      <*> Decode.required o "subheadline" (Decode.str_json true (Some 10) (Some 200))
      <*> Decode.required o "cta_text" (Decode.str_json true (Some 2) (Some 30))
  | _ => fail model_type
  end.

End HeroSection.

Module Feature.
Record t : Type := mk {
  title : string;
  description : string;
  icon : string;
}.

Definition validate_icon (v : string) : V string :=
  let icon := PyStr.strip (PyStr.lower v) in
  if negb (bool_decide (icon ∈ ALLOWED_ICONS))
  then fail (value_error
               ("Icon '" +:+ icon +:+ "' not in ALLOWED_ICONS. "
                +:+ "Valid icons: "
                +:+ PyStr.repr_list (PyStr.sorted (elements ALLOWED_ICONS))))
  else ok icon.

Definition icon_field (v : string) : V string :=
  do v <- str_field true None None v; validate_icon v.

Definition new (title description icon : string) : V t :=
  ok mk
  <*> at_loc "title" (str_field true (Some 2) (Some 50) title)
  <*> at_loc "description" (str_field true (Some 10) (Some 150) description)
  <*> at_loc "icon" (icon_field icon).

Definition to_json (x : t) : Json.t :=
  JObj [("title", JStr (title x));
        ("description", JStr (description x));
        ("icon", JStr (icon x))].

Definition from_json (j : Json.t) : V t :=
  match j with
  | JObj o =>
      ok mk
      <*> Decode.required o "title" (Decode.str_json true (Some 2) (Some 50))
      <*> Decode.required o "description" (Decode.str_json true (Some 10) (Some 150))
      <*> Decode.required o "icon"
            (fun j => do s <- Decode.as_str j; icon_field s)
  | _ => fail model_type
  end.
End Feature.

Module Testimonial.
Record t : Type := mk {
  quote : string;
  author : string;
  role : string;
}.

Definition new (quote author role : string) : V t :=
  ok mk
  <*> at_loc "quote" (str_field true (Some 20) (Some 300) quote)
  <*> at_loc "author" (str_field true (Some 2) (Some 50) author)
  <*> at_loc "role" (str_field true (Some 2) (Some 80) role).

Definition to_json (x : t) : Json.t :=
  JObj [("quote", JStr (quote x)); ("author", JStr (author x));
        ("role", JStr (role x))].

Definition from_json (j : Json.t) : V t :=
  match j with
  | JObj o =>
      ok mk
      <*> Decode.required o "quote" (Decode.str_json true (Some 20) (Some 300))
      <*> Decode.required o "author" (Decode.str_json true (Some 2) (Some 50))
      <*> Decode.required o "role" (Decode.str_json true (Some 2) (Some 80))
  | _ => fail model_type
  end.
End Testimonial.

Module ContentVariants.
Record t : Type := mk {
  headlines : list string;
  ctas : list string;
}.

Definition validate_variants_not_empty_strings (v : list string) : list string :=
  map PyStr.strip (List.filter (fun item => PyStr.truthy (PyStr.strip item)) v).

Definition variants_field (v : list string) : V (list string) :=
  do v <- list_len_field None (Some 3) v;
  ok (validate_variants_not_empty_strings v).

Definition new (headlines ctas : list string) : V t :=
  ok mk
  <*> at_loc "headlines" (variants_field headlines)
  <*> at_loc "ctas" (variants_field ctas).

(** [ContentVariants()] *)
Definition default : t := mk [] [].

(** [len(self.headlines) if self.headlines else 0] *)
Definition max_variant_id (self : t) : Z :=
  match headlines self with
  | [] => 0
  | _ => Z.of_nat (length (headlines self))
  end.

Definition to_json (x : t) : Json.t :=
  JObj [("headlines", Encode.strs (headlines x));
        ("ctas", Encode.strs (ctas x))].

Definition variants_json (j : Json.t) : V (list string) :=
  do l <- Decode.as_list_max 3 Decode.as_str j; variants_field l.

Definition from_json (j : Json.t) : V t :=
  match j with
  | JObj o =>
      ok mk
      <*> Decode.defaulted o "headlines" variants_json []
      <*> Decode.defaulted o "ctas" variants_json []
  | _ => fail model_type
  end.
End ContentVariants.

Module SectionsConfig.
Record t : Type := mk {
  pricing : bool;
  faq : bool;
  logos : bool;
  screenshots : bool;
  feature_grid : bool;
  stats : bool;
}.

(** [SectionsConfig()] *)
Definition default : t := mk false false false false true true.

Definition enabled_sections (self : t) : list string :=
  map fst
    (List.filter snd
       [("pricing", pricing self); ("faq", faq self); ("logos", logos self);
        ("screenshots", screenshots self);
        ("feature_grid", feature_grid self); ("stats", stats self)]).

Definition to_json (x : t) : Json.t :=
  JObj [("pricing", JBool (pricing x)); ("faq", JBool (faq x));
        ("logos", JBool (logos x)); ("screenshots", JBool (screenshots x));
        ("feature_grid", JBool (feature_grid x)); ("stats", JBool (stats x))].

Definition from_json {lax : Lax} (j : Json.t) : V t :=
  match j with
  | JObj o =>
      ok mk
      <*> Decode.defaulted o "pricing" Decode.as_bool false
      <*> Decode.defaulted o "faq" Decode.as_bool false
      <*> Decode.defaulted o "logos" Decode.as_bool false
      <*> Decode.defaulted o "screenshots" Decode.as_bool false
      <*> Decode.defaulted o "feature_grid" Decode.as_bool true
      <*> Decode.defaulted o "stats" Decode.as_bool true
  | _ => fail model_type
  end.
End SectionsConfig.

Module LandingContent.
Record t : Type := mk {
  hero : HeroSection.t;
  features : list Feature.t;
  testimonial : Testimonial.t;
  footer_cta : string;
  variants : ContentVariants.t;
  sections : SectionsConfig.t;
  faq_items : list (list (string * string));
  pricing_plans : list (list (string * PyValue.t));
}.

(** Sub-models are instances and are taken as they are. *)
Definition new (hero : HeroSection.t) (features : list Feature.t)
    (testimonial : Testimonial.t) (footer_cta : string)
    (variants : ContentVariants.t) (sections : SectionsConfig.t)
    (faq_items : list (list (string * string)))
    (pricing_plans : list (list (string * PyValue.t))) : V t :=
  ok (mk hero)
  <*> at_loc "features" (list_len_field (Some 3) (Some 6) features)
  <*> ok testimonial
  <*> at_loc "footer_cta" (str_field false (Some 5) (Some 100) footer_cta)
  <*> ok variants
  <*> ok sections
  <*> at_loc "faq_items" (list_len_field None (Some 6) faq_items)
  <*> at_loc "pricing_plans" (list_len_field None (Some 3) pricing_plans).

(** Plain attribute assignment: no [validate_assignment] here. *)
Definition set_sections (x : t) (v : SectionsConfig.t) : t :=
  mk (hero x) (features x) (testimonial x) (footer_cta x) (variants x) v
     (faq_items x) (pricing_plans x).


Definition to_json (x : t) : Json.t :=
  JObj [("hero", HeroSection.to_json (hero x));
        ("features", JList (map Feature.to_json (features x)));
        ("testimonial", Testimonial.to_json (testimonial x));
        ("footer_cta", JStr (footer_cta x));
        ("variants", ContentVariants.to_json (variants x));
        ("sections", SectionsConfig.to_json (sections x));
        ("faq_items", JList (map (Encode.dict JStr) (faq_items x)));
        ("pricing_plans",
         JList (map (Encode.dict PyValue.to_json) (pricing_plans x)))].

Definition from_json {lax : Lax} (j : Json.t) : V t :=
  match j with
  | JObj o =>
      ok mk
      <*> Decode.required o "hero" HeroSection.from_json
      <*> Decode.required o "features"
            (fun j => do l <- Decode.as_list_max 6 Feature.from_json j;
                      list_len_field (Some 3) (Some 6) l)
      <*> Decode.required o "testimonial" Testimonial.from_json
      <*> Decode.required o "footer_cta" (Decode.str_json false (Some 5) (Some 100))
      <*> Decode.defaulted o "variants" ContentVariants.from_json
            ContentVariants.default
      <*> Decode.defaulted o "sections" SectionsConfig.from_json
            SectionsConfig.default
      <*> Decode.defaulted o "faq_items"
            (fun j => do l <- Decode.as_list_max 6
                                (Decode.as_dict Decode.as_str) j;
                      list_len_field None (Some 6) l) []
      <*> Decode.defaulted o "pricing_plans"
            (fun j => do l <- Decode.as_list_max 3
                                (Decode.as_dict
                                   (fun j => ok (PyValue.of_json j))) j;
                      list_len_field None (Some 3) l) []
  | _ => fail model_type
  end.
End LandingContent.

  (** *** Asset slots *)

Module AssetSlots.
Record t : Type := mk {
  hero_image_prompt : option string;
  hero_image_alt : option string;
  og_image_prompt : option string;
  logo_url : option string;
  screenshot_prompts : list string;
}.

Definition opt_str (max_length : Z) (v : option string) : V (option string) :=
  opt_field (str_field false None (Some max_length)) v.

Definition new (hero_image_prompt hero_image_alt og_image_prompt
    logo_url : option string) (screenshot_prompts : list string) : V t :=
  ok mk
  <*> at_loc "hero_image_prompt" (opt_str 500 hero_image_prompt)
  <*> at_loc "hero_image_alt" (opt_str 200 hero_image_alt)
  <*> at_loc "og_image_prompt" (opt_str 500 og_image_prompt)
  <*> at_loc "logo_url" (opt_str 500 logo_url)
  <*> at_loc "screenshot_prompts"
        (list_len_field None (Some 4) screenshot_prompts).

(** [AssetSlots()] *)
Definition default : t := mk None None None None [].

Definition to_json (x : t) : Json.t :=
  JObj [("hero_image_prompt", Encode.opt JStr (hero_image_prompt x));
        ("hero_image_alt", Encode.opt JStr (hero_image_alt x));
        ("og_image_prompt", Encode.opt JStr (og_image_prompt x));
        ("logo_url", Encode.opt JStr (logo_url x));
        ("screenshot_prompts", Encode.strs (screenshot_prompts x))].

Definition opt_str_json (max_length : Z) (j : Json.t) : V (option string) :=
  Decode.nullable (Decode.str_json false None (Some max_length)) j.

Definition from_json (j : Json.t) : V t :=
  match j with
  | JObj o =>
      ok mk
      <*> Decode.defaulted o "hero_image_prompt" (opt_str_json 500) None
      <*> Decode.defaulted o "hero_image_alt" (opt_str_json 200) None
      <*> Decode.defaulted o "og_image_prompt" (opt_str_json 500) None
      <*> Decode.defaulted o "logo_url" (opt_str_json 500) None
      <*> Decode.defaulted o "screenshot_prompts"
            (fun j => do l <- Decode.as_list_max 4 Decode.as_str j;
                      list_len_field None (Some 4) l) []
  | _ => fail model_type
  end.
End AssetSlots.

  (** *** Generation metadata *)

Module RenderConfig.
Record t : Type := mk {
  template_type : string;
  variant_id : Z;
}.

Definition new (template_type : string) (variant_id : Z) : V t :=
  ok mk
  <*> at_loc "template_type" (literal_field TemplateType template_type)
  <*> at_loc "variant_id" (int_range_field 0 10 variant_id).

(** [RenderConfig()] *)
Definition default : t := mk "saas" 0.

(** Plain attribute assignments: no [validate_assignment] here. *)
Definition set_variant_id (x : t) (v : Z) : t := mk (template_type x) v.
Definition set_template_type (x : t) (v : string) : t := mk v (variant_id x).

Definition to_json (x : t) : Json.t :=
  JObj [("template_type", JStr (template_type x));
        ("variant_id", JInt (variant_id x))].

Definition from_json {lax : Lax} (j : Json.t) : V t :=
  match j with
  | JObj o =>
      ok mk
      <*> Decode.defaulted o "template_type"
            (fun j => do s <- Decode.as_str j; literal_field TemplateType s) "saas"
      <*> Decode.defaulted o "variant_id"
            (fun j => do n <- Decode.as_int j; int_range_field 0 10 n) 0
  | _ => fail model_type
  end.
End RenderConfig.

Module GenerationMeta.
Record t : Type := mk {
  schema_version : string;
  generated_at : string;
  pipeline_steps : list string;
}.

Definition validate_schema_version (v : string) : V string :=
  let current_parts := PyStr.split_dot SCHEMA_VERSION in
  let input_parts := PyStr.split_dot v in
  if Z.of_nat (length input_parts) <? 2
  then fail (value_error ("Invalid schema_version format: " +:+ v))
  else
    if negb (bool_decide (input_parts !! 0%nat = current_parts !! 0%nat))
       || negb (bool_decide (input_parts !! 1%nat = current_parts !! 1%nat))
    then fail (value_error
                 ("Schema version mismatch: got " +:+ v +:+ ", expected "
                  +:+ SCHEMA_VERSION +:+ ". " +:+ "Major.minor must match."))
    else ok v.

Definition new (schema_version generated_at : string)
    (pipeline_steps : list string) : V t :=
  ok mk
  <*> at_loc "schema_version" (validate_schema_version schema_version)
  <*> ok generated_at
  <*> ok pipeline_steps.

(** [GenerationMeta()] at the instant whose ISO timestamp is [now]. *)
Definition default (now : string) : t := mk SCHEMA_VERSION now [].

Definition to_json (x : t) : Json.t :=
  JObj [("schema_version", JStr (schema_version x));
        ("generated_at", JStr (generated_at x));
        ("pipeline_steps", Encode.strs (pipeline_steps x))].

Definition from_json (now : string) (j : Json.t) : V t :=
  match j with
  | JObj o =>
      ok mk
      <*> Decode.defaulted o "schema_version"
            (fun j => do s <- Decode.as_str j; validate_schema_version s)
            SCHEMA_VERSION
      <*> Decode.defaulted o "generated_at" Decode.as_str now
      <*> Decode.defaulted o "pipeline_steps" (Decode.as_list Decode.as_str) []
  | _ => fail model_type
  end.
End GenerationMeta.

  (** *** Aggregate root *)

(** The right-hand side of an attribute assignment on a model that sets
    [validate_assignment]: an instance of the field's type, kept as it is,
    or untyped data, validated against the field's schema. *)
Inductive Assigned (A : Type) : Type :=
| Instance (a : A)
| Untyped (j : Json.t).
Arguments Instance {A} a.
Arguments Untyped {A} j.

Definition coerce {A : Type} (from_json : Json.t -> V A) (v : Assigned A) : V A :=
  match v with
  | Instance a => ok a
  | Untyped j => from_json j
  end.

Module CanonicalData.
Record t : Type := mk {
  meta : GenerationMeta.t;
  project : ProjectInfo.t;
  brand : option BrandIdentity.t;
  content : option LandingContent.t;
  assets : AssetSlots.t;
  render : RenderConfig.t;
}.

(** The [model_validator(mode="after")]: both branches end in [pass]. *)
Definition validate_variant_id_bounds (self : t) : t :=
  match content self with
  | Some c =>
      if 0 <? RenderConfig.variant_id (render self)
      then
        let max_variant := ContentVariants.max_variant_id (LandingContent.variants c) in
        if max_variant <? RenderConfig.variant_id (render self)
        then self
        else self
      else self
  | None => self
  end.

(** Construction from instances. *)
Definition new (meta : GenerationMeta.t) (project : ProjectInfo.t)
    (brand : option BrandIdentity.t) (content : option LandingContent.t)
    (assets : AssetSlots.t) (render : RenderConfig.t) : t :=
  validate_variant_id_bounds (mk meta project brand content assets render).

Definition get_effective_variant_id (self : t) : Z :=
  match content self with
  | None => 0
  | Some c =>
      let max_variant := ContentVariants.max_variant_id (LandingContent.variants c) in
      if max_variant <? RenderConfig.variant_id (render self)
      then 0
      else RenderConfig.variant_id (render self)
  end.

Definition add_step (self : t) (step_name : string) : t :=
  mk (GenerationMeta.mk
        (GenerationMeta.schema_version (meta self))
        (GenerationMeta.generated_at (meta self))
        (GenerationMeta.pipeline_steps (meta self) ++ [step_name]))
     (project self) (brand self) (content self) (assets self) (render self).

(** [self.<field> = v] under [validate_assignment=True]: the object after
    the statement and the exception it raised, if any. *)
Definition assign {A : Type} (self : t) (name : string)
    (from_json : Json.t -> V A) (store : A -> t) (v : Assigned A)
    : t * option ValidationError :=
  match at_loc name (coerce from_json v) with
  | inl e => (self, Some e)
  | inr a => (validate_variant_id_bounds (store a), None)
  end.


Definition set_project (self : t) (v : Assigned ProjectInfo.t) :=
  assign self "project" ProjectInfo.from_json
    (fun a => mk (meta self) a (brand self) (content self) (assets self) (render self)) v.

Definition set_brand (self : t) (v : Assigned (option BrandIdentity.t)) :=
  assign self "brand" (Decode.nullable BrandIdentity.from_json)
    (fun a => mk (meta self) (project self) a (content self) (assets self) (render self)) v.

Definition set_content {lax : Lax} (self : t)
    (v : Assigned (option LandingContent.t)) :=
  assign self "content" (Decode.nullable LandingContent.from_json)
    (fun a => mk (meta self) (project self) (brand self) a (assets self) (render self)) v.

Definition set_assets (self : t) (v : Assigned AssetSlots.t) :=
  assign self "assets" AssetSlots.from_json
    (fun a => mk (meta self) (project self) (brand self) (content self) a (render self)) v.


(** [self.render.variant_id = v] and its siblings reach a nested model,
    which does not validate assignments. *)
Definition set_render_variant_id (self : t) (v : Z) : t :=
  mk (meta self) (project self) (brand self) (content self) (assets self)
     (RenderConfig.set_variant_id (render self) v).

Definition set_render_template_type (self : t) (v : string) : t :=
  mk (meta self) (project self) (brand self) (content self) (assets self)
     (RenderConfig.set_template_type (render self) v).


(** [to_json]: the document that [model_dump_json] writes. *)
Definition to_json (self : t) : Json.t :=
  JObj [("meta", GenerationMeta.to_json (meta self));
        ("project", ProjectInfo.to_json (project self));
        ("brand", Encode.opt BrandIdentity.to_json (brand self));
        ("content", Encode.opt LandingContent.to_json (content self));
        ("assets", AssetSlots.to_json (assets self));
        ("render", RenderConfig.to_json (render self))].

(** [from_json]: [model_validate_json] on the document. *)
Definition from_json {lax : Lax} (now : string) (j : Json.t) : V t :=
  match j with
  | JObj o =>
      do d <- (ok mk
               <*> Decode.defaulted o "meta" (GenerationMeta.from_json now)
                     (GenerationMeta.default now)
               <*> Decode.required o "project" ProjectInfo.from_json
               <*> Decode.defaulted o "brand"
                     (Decode.nullable BrandIdentity.from_json) None
               <*> Decode.defaulted o "content"
                     (Decode.nullable LandingContent.from_json) None
               <*> Decode.defaulted o "assets" AssetSlots.from_json
                     AssetSlots.default
               <*> Decode.defaulted o "render" RenderConfig.from_json
                     RenderConfig.default);
      ok (validate_variant_id_bounds d)
  | _ => fail model_type
  end.
End CanonicalData.

  (** *** Fallback values *)

Module DefaultBrand.
Definition COLORS : ColorPalette.t :=
  ColorPalette.mk "#6366F1" "#818CF8" "#F59E0B" "#FAFAFA" "#1F2937".

Definition FONTS : Typography.t := Typography.mk "Inter" "Inter".

Definition IDENTITY : BrandIdentity.t :=
  BrandIdentity.mk COLORS FONTS
    ["Be clear and concise"; "Focus on user benefits"; "Use active voice"].
End DefaultBrand.

End Schemas.

(** ** The invariants of the schema

    What the field declarations and validators of [core/schemas.py] require
    of an instance, entity by entity: a document is valid when every entity
    in it satisfies the constraints of its fields and holds its strings in
    the normal form its validators produce. *)

Module Invariants.

Import Schemas.

Definition Trimmed (s : string) : Prop := PyStr.trim s = s.

(** A [str] field under [Field(min_length, max_length)], trimmed when the
    model sets [str_strip_whitespace]. *)
Definition StrOk (strip_whitespace : bool) (min_length max_length : option Z)
    (s : string) : Prop :=
  (if strip_whitespace then Trimmed s else True)
  /\ match min_length with Some m => m <= PyStr.len s | None => True end
  /\ match max_length with Some m => PyStr.len s <= m | None => True end.

Definition LenOk {A : Type} (min_length max_length : option Z) (l : list A) : Prop :=
  match min_length with Some m => m <= Z.of_nat (length l) | None => True end
  /\ match max_length with Some m => Z.of_nat (length l) <= m | None => True end.

(** A non-empty string with no surrounding whitespace. *)
Definition Stripped (s : string) : Prop := PyStr.strip s = s /\ s <> "".

Definition OptStrOk (max_length : Z) (o : option string) : Prop :=
  match o with
  | Some s => StrOk false None (Some max_length) s
  | None => True
  end.

Definition ProjectInfo_valid (x : ProjectInfo.t) : Prop :=
  StrOk true (Some 1) (Some 100) (ProjectInfo.product_name x)
  /\ StrOk true (Some 1) (Some 80) (ProjectInfo.tagline x)
  /\ StrOk true (Some 10) (Some 500) (ProjectInfo.description x)
  /\ StrOk true (Some 1) None (ProjectInfo.target_audience x)
  /\ StrOk true (Some 1) None (ProjectInfo.value_proposition x)
  /\ In (ProjectInfo.tone x) ToneType
  /\ LenOk (Some 3) (Some 7) (ProjectInfo.keywords x)
  /\ Forall (fun kw => Stripped kw /\ PyStr.lower kw = kw) (ProjectInfo.keywords x).

Definition ColorPalette_valid (x : ColorPalette.t) : Prop :=
  matches_HEX_COLOR_PATTERN (ColorPalette.primary x) = true
  /\ matches_HEX_COLOR_PATTERN (ColorPalette.secondary x) = true
  /\ matches_HEX_COLOR_PATTERN (ColorPalette.accent x) = true
  /\ matches_HEX_COLOR_PATTERN (ColorPalette.background x) = true
  /\ matches_HEX_COLOR_PATTERN (ColorPalette.text x) = true.

Definition Typography_valid (x : Typography.t) : Prop :=
  Typography.heading x ∈ ALLOWED_FONTS /\ Typography.body x ∈ ALLOWED_FONTS.

Definition BrandIdentity_valid (x : BrandIdentity.t) : Prop :=
  ColorPalette_valid (BrandIdentity.colors x)
  /\ Typography_valid (BrandIdentity.fonts x)
  /\ LenOk (Some 2) (Some 5) (BrandIdentity.tone_rules x)
  /\ Forall Stripped (BrandIdentity.tone_rules x).

Definition HeroSection_valid (x : HeroSection.t) : Prop :=
  StrOk true (Some 5) (Some 100) (HeroSection.headline x)
  /\ StrOk true (Some 10) (Some 200) (HeroSection.subheadline x)
  /\ StrOk true (Some 2) (Some 30) (HeroSection.cta_text x).

Definition Feature_valid (x : Feature.t) : Prop :=
  StrOk true (Some 2) (Some 50) (Feature.title x)
  /\ StrOk true (Some 10) (Some 150) (Feature.description x)
  /\ Feature.icon x ∈ ALLOWED_ICONS.

Definition Testimonial_valid (x : Testimonial.t) : Prop :=
  StrOk true (Some 20) (Some 300) (Testimonial.quote x)
  /\ StrOk true (Some 2) (Some 50) (Testimonial.author x)
  /\ StrOk true (Some 2) (Some 80) (Testimonial.role x).

Definition ContentVariants_valid (x : ContentVariants.t) : Prop :=
  LenOk None (Some 3) (ContentVariants.headlines x)
  /\ Forall Stripped (ContentVariants.headlines x)
  /\ LenOk None (Some 3) (ContentVariants.ctas x)
  /\ Forall Stripped (ContentVariants.ctas x).

Definition LandingContent_valid (x : LandingContent.t) : Prop :=
  HeroSection_valid (LandingContent.hero x)
  /\ LenOk (Some 3) (Some 6) (LandingContent.features x)
  /\ Forall Feature_valid (LandingContent.features x)
  /\ Testimonial_valid (LandingContent.testimonial x)
  /\ StrOk false (Some 5) (Some 100) (LandingContent.footer_cta x)
  /\ ContentVariants_valid (LandingContent.variants x)
  /\ LenOk None (Some 6) (LandingContent.faq_items x)
  /\ LenOk None (Some 3) (LandingContent.pricing_plans x).

Definition AssetSlots_valid (x : AssetSlots.t) : Prop :=
  OptStrOk 500 (AssetSlots.hero_image_prompt x)
  /\ OptStrOk 200 (AssetSlots.hero_image_alt x)
  /\ OptStrOk 500 (AssetSlots.og_image_prompt x)
  /\ OptStrOk 500 (AssetSlots.logo_url x)
  /\ LenOk None (Some 4) (AssetSlots.screenshot_prompts x).

Definition RenderConfig_valid (x : RenderConfig.t) : Prop :=
  In (RenderConfig.template_type x) TemplateType
  /\ 0 <= RenderConfig.variant_id x <= 10.

(** The version has at least two dot-separated components, the first two
    those of [SCHEMA_VERSION]. *)
Definition GenerationMeta_valid (x : GenerationMeta.t) : Prop :=
  let parts := PyStr.split_dot (GenerationMeta.schema_version x) in
  let current := PyStr.split_dot SCHEMA_VERSION in
  (2 <= length parts)%nat
  /\ parts !! 0%nat = current !! 0%nat
  /\ parts !! 1%nat = current !! 1%nat.

Definition opt_valid {A : Type} (P : A -> Prop) (o : option A) : Prop :=
  match o with Some a => P a | None => True end.


Definition CanonicalData_valid (x : CanonicalData.t) : Prop :=
  GenerationMeta_valid (CanonicalData.meta x)
  /\ ProjectInfo_valid (CanonicalData.project x)
  /\ opt_valid BrandIdentity_valid (CanonicalData.brand x)
  /\ opt_valid LandingContent_valid (CanonicalData.content x)
  /\ AssetSlots_valid (CanonicalData.assets x)
  /\ RenderConfig_valid (CanonicalData.render x).

End Invariants.

(** ** core/renderer.py *)

Module Renderer.

Import Schemas.
Import Errors.

(** A glyph is a sequence of Unicode code points. *)
Definition Glyph : Type := list N.

(** [d.get(k, default)] on a constant [dict]. *)
Fixpoint dict_get {A : Type} (d : list (string * A)) (k : string) (default : A) : A :=
  match d with
  | [] => default
  | (k', v) :: rest => if String.eqb k k' then v else dict_get rest k default
  end.

(** [d.keys()], in insertion order. *)
Definition keys {A : Type} (d : list (string * A)) : list string := map fst d.

Definition ICON_MAP : list (string * Glyph) :=
  [("rocket", [0x1F680]); ("shield", [0x1F6E1; 0xFE0F]); ("zap", [0x26A1]);
   ("star", [0x2B50]); ("heart", [0x2764; 0xFE0F]); ("check", [0x2713]);
   ("lightning", [0x26A1]); ("chart", [0x1F4CA]); ("users", [0x1F465]);
   ("clock", [0x23F0]); ("lock", [0x1F512]); ("globe", [0x1F310]);
   ("mail", [0x2709; 0xFE0F]); ("phone", [0x1F4F1]);
   ("settings", [0x2699; 0xFE0F]); ("layers", [0x1F4DA]);
   ("target", [0x1F3AF]); ("trending", [0x1F4C8]); ("award", [0x1F3C6]);
   ("briefcase", [0x1F4BC])]%N.

Definition DEFAULT_ICON : Glyph := [0x2726]%N.

Definition TEMPLATE_FILES : list (string * string) :=
  [("saas", "saas.html.j2"); ("app", "app.html.j2"); ("agency", "agency.html.j2")].

Record ToneStyle : Type := mkToneStyle {
  hero_size : string;
  cta_style : string;
}.

Definition TONE_STYLES_professional : ToneStyle :=
  mkToneStyle "text-5xl md:text-6xl" "rounded-lg".

Definition TONE_STYLES : list (string * ToneStyle) :=
  [("professional", TONE_STYLES_professional);
   ("friendly", mkToneStyle "text-4xl md:text-5xl" "rounded-full");
   ("bold", mkToneStyle "text-6xl md:text-7xl font-black"
              "rounded-none uppercase tracking-wider");
   ("minimal", mkToneStyle "text-4xl md:text-5xl font-light" "rounded-sm border")].

(** The keyword arguments of [template.render(...)]: the view context. *)
Record Context : Type := mkContext {
  ctx_project : ProjectInfo.t;
  ctx_brand : BrandIdentity.t;
  ctx_content : LandingContent.t;
  ctx_headline : string;
  ctx_cta_text : string;
  ctx_icons : list (string * Glyph);
  ctx_default_icon : Glyph;
  ctx_current_year : Z;
  ctx_sections : SectionsConfig.t;
  ctx_assets : AssetSlots.t;
  ctx_tone : string;
  ctx_tone_style : ToneStyle;
}.

(** An exception of Jinja2 other than [TemplateNotFound] at loading
    ([TemplateSyntaxError], [UndefinedError], ...), by the name of its
    class and its text [str(e)]. *)
Record EngineError : Type := mkEngineError {
  engine_class : string;
  engine_text : string;
}.

(** A loaded Jinja2 template: [template.render] on the view context returns markup
    or raises. *)
Definition Template : Type := Context -> Exc EngineError string.

(** What [env.get_template(name)] does: it raises [TemplateNotFound],
    raises something else, or returns the template. *)
Inductive Loading : Type :=
| TemplateNotFound
| LoadingFailed (e : EngineError)
| Loaded (template : Template).

(** [TemplateRenderer]: its Jinja2 environment, as the map from a template
    file name to what loading it does. *)
Record TemplateRenderer : Type := mkTemplateRenderer {
  get_template : string -> Loading;
}.

(** What a rendering function raises: a [RenderError] of its own, or an
    exception of the engine, which it does not catch. *)
Inductive RenderException : Type :=
| Raised (e : PipelineError)
| Propagated (e : EngineError).

Definition from_engine {A : Type} (r : Exc EngineError A)
    : Exc RenderException A :=
  match r with
  | inl e => inl (Propagated e)
  | inr a => inr a
  end.

(** [a or b] where [a : str | None]. *)
Definition str_or (a : option string) (b : string) : string :=
  match a with
  | Some s => if PyStr.truthy s then s else b
  | None => b
  end.

Definition _resolve_variant (default : string) (variants : list string)
    (variant_id : Z) : string :=
  if (variant_id =? 0) || match variants with [] => true | _ => false end
  then default
  else
    let idx := variant_id - 1 in
    if (0 <=? idx) && (idx <? Z.of_nat (length variants))
    then match variants !! Z.to_nat idx with
         | Some v => v
         | None => default
         end
    else default.

(** [variants] is a model instance, hence truthy. *)
Definition _clamp_variant_id (variant_id : Z) (variants : ContentVariants.t) : Z :=
  if variant_id =? 0 then 0
  else
    let max_variant := ContentVariants.max_variant_id variants in
    if max_variant <? variant_id then 0
    else variant_id.

Section Rendering.

(** [datetime.now().year] *)
Variable current_year : Z.

Definition TemplateRenderer_render_landing (self : TemplateRenderer)
    (data : CanonicalData.t) (template_override : option string)
    (variant_override : option Z) : Exc RenderException string :=
  match CanonicalData.content data with
  | None =>
      raise (Raised
               (RenderError "CanonicalData.content is required for rendering"
                  None MISSING_CONTENT))
  | Some content =>
      let template_type :=
        str_or template_override
          (RenderConfig.template_type (CanonicalData.render data)) in
      let template_file := dict_get TEMPLATE_FILES template_type "saas.html.j2" in
      match get_template self template_file with
      | TemplateNotFound =>
          raise (Raised
                   (RenderError ("Template '" +:+ template_file +:+ "' not found")
                      (Some template_file) TEMPLATE_NOT_FOUND))
      | LoadingFailed e => raise (Propagated e)
      | Loaded template =>
          let variant_id :=
            match variant_override with
            | Some v => v
            | None => RenderConfig.variant_id (CanonicalData.render data)
            end in
          let effective_variant_id :=
            _clamp_variant_id variant_id (LandingContent.variants content) in
          let headline :=
            _resolve_variant
              (HeroSection.headline (LandingContent.hero content))
              (ContentVariants.headlines (LandingContent.variants content))
              effective_variant_id in
          let cta_text :=
            _resolve_variant
              (HeroSection.cta_text (LandingContent.hero content))
              (ContentVariants.ctas (LandingContent.variants content))
              effective_variant_id in
          let brand :=
            match CanonicalData.brand data with
            | Some b => b
            | None => DefaultBrand.IDENTITY
            end in
          (* [content.sections or SectionsConfig()] and
             [data.assets or AssetSlots()]: a model instance is truthy. *)
          let sections := LandingContent.sections content in
          let assets := CanonicalData.assets data in
          let tone_style :=
            dict_get TONE_STYLES (ProjectInfo.tone (CanonicalData.project data))
              TONE_STYLES_professional in
          from_engine
            (template
               (mkContext (CanonicalData.project data) brand content
                  headline cta_text ICON_MAP DEFAULT_ICON current_year
                  sections assets
                  (ProjectInfo.tone (CanonicalData.project data))
                  tone_style))
      end
  end.

(** The singleton returned by [get_renderer()]. *)
Variable _renderer : TemplateRenderer.

Definition render_landing (data : CanonicalData.t)
    (template_override : option string) (variant_override : option Z)
    : Exc RenderException string :=
  TemplateRenderer_render_landing _renderer data template_override
    variant_override.

Fixpoint for_each {E A B : Type} (l : list A) (body : B -> A -> Exc E B)
    (acc : B) : Exc E B :=
  match l with
  | [] => ok acc
  | a :: rest => do acc' <- body acc a; for_each rest body acc'
  end.

(** [range(1, n + 1)] *)
Definition range_from_1 (n : nat) : list Z := map Z.of_nat (seq 1 n).

Definition variant_key (template_type : string) (i : Z) : string :=
  template_type +:+ "_v" +:+ pretty i.

Definition render_all_variants (data : CanonicalData.t)
    : Exc RenderException (gmap string string) :=
  let num_variants :=
    match CanonicalData.content data with
    | Some c =>
        match ContentVariants.headlines (LandingContent.variants c) with
        | [] => 0%nat
        | hs => length hs
        end
    | None => 0%nat
    end in
  for_each (keys TEMPLATE_FILES)
    (fun results template_type =>
       do html <- TemplateRenderer_render_landing _renderer data
                    (Some template_type) (Some 0);
       let results := <[variant_key template_type 0 := html]> results in
       for_each (range_from_1 num_variants)
         (fun results i =>
            do html <- TemplateRenderer_render_landing _renderer data
                         (Some template_type) (Some i);
            ok (<[variant_key template_type i := html]> results))
         results)
    ∅.

End Rendering.

(** Two readings of a call [render_landing(data, template_override,
    variant_override)], named for the statements below: the variant id the
    call asks for and the template file it selects. *)
Definition requested_variant (data : CanonicalData.t)
    (variant_override : option Z) : Z :=
  match variant_override with
  | Some v => v
  | None => RenderConfig.variant_id (CanonicalData.render data)
  end.

Definition selected_file (data : CanonicalData.t)
    (template_override : option string) : string :=
  dict_get TEMPLATE_FILES
    (str_or template_override
       (RenderConfig.template_type (CanonicalData.render data)))
    "saas.html.j2".

(** Names for the statements about bulk resolution: the markup of one
    call, or the empty string when the call raises; the variant ids
    [0..k]; the entry of one (template, variant) pair; and all entries, in
    the order the loops visit them. *)
Definition rendered (current_year : Z) (renderer : TemplateRenderer)
    (data : CanonicalData.t) (template_override : option string)
    (variant_override : option Z) : string :=
  match TemplateRenderer_render_landing current_year renderer data
          template_override variant_override with
  | inr html => html
  | inl _ => ""
  end.

Definition variant_ids (k : nat) : list Z := 0 :: range_from_1 k.

Definition variant_entry (current_year : Z) (renderer : TemplateRenderer)
    (data : CanonicalData.t) (template_type : string) (i : Z) : string * string :=
  (variant_key template_type i,
   rendered current_year renderer data (Some template_type) (Some i)).

Definition all_entries (current_year : Z) (renderer : TemplateRenderer)
    (data : CanonicalData.t) (k : nat) : list (string * string) :=
  keys TEMPLATE_FILES ≫= fun template_type =>
    variant_entry current_year renderer data template_type <$> variant_ids k.

End Renderer.

(** ** Exceptions crossing the pipeline

    What an [except Exception as e] of the driver can catch: a failure of the
    LLM call (its message), a pydantic [ValidationError], a [PipelineError],
    or an exception of the templating engine. *)

Module Exceptions.

Inductive PyException : Type :=
| LLMFailure (msg : string)
| SchemaFailure (e : Validation.ValidationError)
| RenderFailure (e : Errors.PipelineError)
| EngineFailure (e : Renderer.EngineError).

Section Str.
(** The text pydantic prints for a [ValidationError]. *)
Variable str_ValidationError : Validation.ValidationError -> string.

(** [str(e)] *)
Definition str (e : PyException) : string :=
  match e with
  | LLMFailure msg => msg
  | SchemaFailure e => str_ValidationError e
  | RenderFailure e => Errors._format_message e
  | EngineFailure e => Renderer.engine_text e
  end.
End Str.

Definition lift_schema {A : Type} (v : Validation.V A) : Exc PyException A :=
  match v with inl e => inl (SchemaFailure e) | inr a => inr a end.

Definition of_render (e : Renderer.RenderException) : PyException :=
  match e with
  | Renderer.Raised e => RenderFailure e
  | Renderer.Propagated e => EngineFailure e
  end.

Definition lift_render {A : Type} (v : Exc Renderer.RenderException A)
    : Exc PyException A :=
  match v with inl e => inl (of_render e) | inr a => inr a end.

End Exceptions.

(** ** agents/landing.py *)

Module LandingAgent.

Import Schemas Exceptions.

(** [TONE_PRESETS.get(tone, TONE_PRESETS["professional"])]; the default is
    evaluated first and is there. *)
Definition _get_tone_preset (tone : string) : Exc string TonePreset :=
  match dict_lookup TONE_PRESETS "professional" with
  | None => raise "professional"
  | Some default => ok (Renderer.dict_get TONE_PRESETS tone default)
  end.

Definition _get_default_sections (template_type : string) : SectionsConfig.t :=
  Renderer.dict_get
    [("saas", SectionsConfig.mk false true true false true false);
     ("app", SectionsConfig.mk false false false true true true);
     ("agency", SectionsConfig.mk false false false false true false)]
    template_type SectionsConfig.default.

Definition _generate_asset_prompts (data : CanonicalData.t) : V AssetSlots.t :=
  let product := ProjectInfo.product_name (CanonicalData.project data) in
  let tone := ProjectInfo.tone (CanonicalData.project data) in
  let visual_style :=
    Renderer.dict_get
      [("professional", "clean, corporate, trustworthy, blue tones");
       ("friendly", "warm, colorful, welcoming, soft gradients");
       ("bold", "high contrast, dynamic, striking, vibrant colors");
       ("minimal", "simple, elegant, lots of whitespace, monochrome accents")]
      tone "modern and clean" in
  AssetSlots.new
    (Some ("Modern " +:+ product +:+ " dashboard interface, " +:+ visual_style
           +:+ ", UI mockup, 16:9 aspect ratio"))
    (Some (product +:+ " application interface preview"))
    (Some (product +:+ " logo on gradient background, " +:+ visual_style
           +:+ ", social media card, 1200x630"))
    None
    [product +:+ " main dashboard view, " +:+ visual_style;
     product +:+ " feature highlight, " +:+ visual_style].

Section Agent.

    Context {lax : Lax}.
Variable current_year : Z.
Variable _renderer : Renderer.TemplateRenderer.

(** [self.llm.generate_structured(prompt, LandingContent)], the prompt
    being built from the document. *)
Variable llm_landing_content :
  CanonicalData.t -> Exc PyException LandingContent.t.

Definition _generate_content (data : CanonicalData.t)
    : Exc PyException LandingContent.t :=
  do content <- llm_landing_content data;
  ok (LandingContent.set_sections content
        (_get_default_sections
           (RenderConfig.template_type (CanonicalData.render data)))).

(** [run(data)]: the document as the call leaves it, and what the call
    returns or raises.  [data] is the caller's object: the assignments
    to [data.assets] and [data.content] stay when a later step raises. *)
Definition run (data : CanonicalData.t)
    : CanonicalData.t * Exc PyException (LandingContent.t * string) :=
  match _generate_content data with
  | inl e => (data, inl e)
  | inr content =>
      match _generate_asset_prompts data with
      | inl e => (data, inl (SchemaFailure e))
      | inr assets =>
          match CanonicalData.set_assets data (Instance assets) with
          | (data, Some e) => (data, inl (SchemaFailure e))
          | (data, None) =>
              match CanonicalData.set_content data (Instance (Some content)) with
              | (data, Some e) => (data, inl (SchemaFailure e))
              | (data, None) =>
                  match Renderer.render_landing current_year _renderer
                          data None None with
                  | inl e => (data, inl (of_render e))
                  | inr html => (data, inr (content, html))
                  end
              end
          end
      end
  end.

End Agent.

End LandingAgent.

(** ** Files

    What [Path.write_text] leaves behind.  A path is the list of its
    components and [p / name] appends one.  The file system is the partial
    map from paths to texts; directories are not tracked ([mkdir] with
    [exist_ok=True]), and a write is taken to succeed. *)

Module FileSystem.

Definition Path : Type := list string.

(** [p / name] *)
Definition path_div (p : Path) (name : string) : Path := p ++ [name].

(** [path.write_text(text)] *)
Definition write_text (path : Path) (text : string) (fs : gmap Path string)
    : gmap Path string :=
  <[path := text]> fs.

(** The loop [for key, html in results.items(): (dir / f"{key}.html")
    .write_text(html)].  The files are distinct, one per key, so the files
    after the loop do not depend on the order of the iteration. *)
Definition write_variants (dir : Path) (results : gmap string string)
    (fs : gmap Path string) : gmap Path string :=
  map_fold (fun key html fs => write_text (path_div dir (key +:+ ".html")) html fs)
    fs results.

End FileSystem.

(** ** orchestrator.py *)

Module Orchestrator.

Import Schemas Exceptions.

Record PipelineResult : Type := mkPipelineResult {
  canonical_data : option CanonicalData.t;
  html : string;
  success : bool;
  errors : list string;
}.

Section Pipeline.

    Context {lax : Lax}.
Variable str_ValidationError : Validation.ValidationError -> string.
(** [datetime.utcnow().isoformat()] when the document is created. *)
Variable now : string.
Variable current_year : Z.
Variable _renderer : Renderer.TemplateRenderer.
(** The three stages' LLM calls. *)
Variable OnboardingAgent_run : UserInput.t -> Exc PyException ProjectInfo.t.
Variable BrandAgent_run : ProjectInfo.t -> Exc PyException BrandIdentity.t.
Variable llm_landing_content :
  CanonicalData.t -> Exc PyException LandingContent.t.

Definition str_exc : PyException -> string := Exceptions.str str_ValidationError.

(** The document as created after stage 1, with its first log entry. *)
Definition create_canonical (project_info : ProjectInfo.t)
    (render_config : RenderConfig.t) : CanonicalData.t :=
  CanonicalData.add_step
    (CanonicalData.new (GenerationMeta.default now) project_info None None
       AssetSlots.default render_config)
    "onboarding".

(** Stage 2: the [try] block, and its [except] branch on any exception.
    Returns the document and the error list after the stage; raises what
    the [except] branch itself would raise. *)
Definition brand_stage (canonical : CanonicalData.t)
    (project_info : ProjectInfo.t) (errors : list string)
    : Exc PyException (CanonicalData.t * list string) :=
  let attempt : CanonicalData.t * Exc PyException unit :=
    match BrandAgent_run project_info with
    | inl e => (canonical, inl e)
    | inr brand_identity =>
        match CanonicalData.set_brand canonical (Instance (Some brand_identity)) with
        | (c, Some e) => (c, inl (SchemaFailure e))
        | (c, None) => (CanonicalData.add_step c "brand", inr tt)
        end
    end in
  match attempt with
  | (c, inr _) => ok (c, errors)
  | (c, inl e) =>
      let errors := errors ++ ["BrandAgent failed (using defaults): " +:+ str_exc e] in
      match CanonicalData.set_brand c (Instance (Some DefaultBrand.IDENTITY)) with
      | (_, Some e') => raise (SchemaFailure e')
      | (c, None) => ok (CanonicalData.add_step c "brand:fallback", errors)
      end
  end.

(** [LandingPipeline.run(user_input)] with no output directory.  The
    outer sum carries an exception no [except] catches. *)
Definition run (user_input : UserInput.t) : Exc PyException PipelineResult :=
  let errors : list string := [] in
  match OnboardingAgent_run user_input with
  | inl e =>
      ok (mkPipelineResult None ""
            false (errors ++ ["OnboardingAgent failed: " +:+ str_exc e]))
  | inr project_info =>
      (* [RenderConfig(template_type=...)]: [variant_id] takes its default 0. *)
      do render_config <-
           lift_schema (RenderConfig.new (UserInput.template_type user_input) 0);
      let canonical := create_canonical project_info render_config in
      do stage2 <- brand_stage canonical project_info errors;
      let canonical := fst stage2 in
      let errors := snd stage2 in
      match LandingAgent.run current_year _renderer llm_landing_content canonical with
      | (canonical, inl e) =>
          ok (mkPipelineResult (Some canonical) "" false
                (errors ++ ["LandingAgent failed: " +:+ str_exc e]))
      | (canonical, inr (content, html)) =>
          match CanonicalData.set_content canonical (Instance (Some content)) with
          | (canonical, Some e) =>
              ok (mkPipelineResult (Some canonical) "" false
                    (errors ++ ["LandingAgent failed: "
                                +:+ str_exc (SchemaFailure e)]))
          | (canonical, None) =>
              let canonical := CanonicalData.add_step canonical "landing" in
              ok (mkPipelineResult (Some canonical) html
                    (match errors with [] => true | _ => false end) errors)
          end
      end
  end.

End Pipeline.

Section Saving.

Import FileSystem.

    Context {lax : Lax}.
(** The text [model_dump_json(indent=2)] writes for a document. *)
Variable dumps : Json.t -> string.
Variable current_year : Z.
Variable _renderer : Renderer.TemplateRenderer.

(** [PipelineResult.save(output_dir, save_all_variants)]: the files
    after the call, and the dictionary of paths it returns or the
    exception of [render_all_variants]. *)
Definition save (self : PipelineResult) (output_dir : Path)
    (save_all_variants : bool) (fs : gmap Path string)
    : gmap Path string * Exc Renderer.RenderException (gmap string Path) :=
  let paths : gmap string Path := ∅ in
  let '(fs, paths) :=
    match canonical_data self with
    | Some d =>
        let json_path := path_div output_dir "canonical.json" in
        (write_text json_path (dumps (CanonicalData.to_json d)) fs,
         <["json" := json_path]> paths)
    | None => (fs, paths)
    end in
  let '(fs, paths) :=
    if PyStr.truthy (html self)
    then
      let html_path := path_div output_dir "index.html" in
      (write_text html_path (html self) fs, <["html" := html_path]> paths)
    else (fs, paths) in
  match save_all_variants, canonical_data self with
  | true, Some d =>
      let variants_dir := path_div output_dir "variants" in
      match Renderer.render_all_variants current_year _renderer d with
      | inl e => (fs, raise e)
      | inr all_variants =>
          (write_variants variants_dir all_variants fs,
           ok (map_fold
                 (fun variant_key _ paths =>
                    <["variant_" +:+ variant_key
                      := path_div variants_dir (variant_key +:+ ".html")]> paths)
                 paths all_variants))
      end
  | _, _ => (fs, ok paths)
  end.

Variable str_ValidationError : Validation.ValidationError -> string.
Variable now : string.
Variable OnboardingAgent_run : UserInput.t -> Exc PyException ProjectInfo.t.
Variable BrandAgent_run : ProjectInfo.t -> Exc PyException BrandIdentity.t.
Variable llm_landing_content :
  CanonicalData.t -> Exc PyException LandingContent.t.
(** [Path(output_dir)] *)
Variable to_path : string -> Path.

(** [LandingPipeline.run(user_input, output_dir)]: the same stages as
    [run], then the optional save. *)
Definition run_with_output_dir (user_input : UserInput.t)
    (output_dir : option string) (fs : gmap Path string)
    : gmap Path string * Exc PyException PipelineResult :=
  let errors : list string := [] in
  match OnboardingAgent_run user_input with
  | inl e =>
      (fs, ok (mkPipelineResult None ""
                 false (errors ++ ["OnboardingAgent failed: "
                                   +:+ str_exc str_ValidationError e])))
  | inr project_info =>
      match RenderConfig.new (UserInput.template_type user_input) 0 with
      | inl e => (fs, raise (SchemaFailure e))
      | inr render_config =>
          let canonical := create_canonical now project_info render_config in
          match brand_stage str_ValidationError BrandAgent_run canonical
                  project_info errors with
          | inl e => (fs, raise e)
          | inr (canonical, errors) =>
              match LandingAgent.run current_year _renderer llm_landing_content
                      canonical with
              | (canonical, inl e) =>
                  (fs, ok (mkPipelineResult (Some canonical) "" false
                             (errors ++ ["LandingAgent failed: "
                                         +:+ str_exc str_ValidationError e])))
              | (canonical, inr (content, html)) =>
                  match CanonicalData.set_content canonical
                          (Instance (Some content)) with
                  | (canonical, Some e) =>
                      (fs, ok (mkPipelineResult (Some canonical) "" false
                                 (errors
                                  ++ ["LandingAgent failed: "
                                      +:+ str_exc str_ValidationError
                                            (SchemaFailure e)])))
                  | (canonical, None) =>
                      let canonical := CanonicalData.add_step canonical "landing" in
                      let result :=
                        mkPipelineResult (Some canonical) html
                          (match errors with [] => true | _ => false end)
                          errors in
                      match output_dir with
                      | Some dir =>
                          if PyStr.truthy dir
                          then
                            match save result (to_path dir) false fs with
                            | (fs, inl e) => (fs, raise (of_render e))
                            | (fs, inr _) => (fs, ok result)
                            end
                          else (fs, ok result)
                      | None => (fs, ok result)
                      end
                  end
              end
          end
      end
  end.

End Saving.

(** A name for the statements about the driver: the document that stage 3
    receives, created at [now] for [project_info] and [template_type], with
    the brand [brand] logged under [step]. *)
Definition document_after_brand (now : string) (project_info : ProjectInfo.t)
    (template_type : string) (brand : BrandIdentity.t) (step : string)
    : CanonicalData.t :=
  CanonicalData.mk
    (GenerationMeta.mk SCHEMA_VERSION now ["onboarding"; step])
    project_info (Some brand) None AssetSlots.default
    (RenderConfig.mk template_type 0).

End Orchestrator.

(** ** main.py: rendering a stored document *)

Module Main.

Import Schemas FileSystem.

(** What [CanonicalData.from_file] raises. *)
Inductive LoadError : Type :=
| FileNotFoundError
| InvalidDocument (e : option Validation.ValidationError).

(** What [run_render] lets through to its caller. *)
Inductive Uncaught : Type :=
| PipelineFailure (e : Errors.PipelineError)
| EngineFailure (e : Renderer.EngineError)
| KeyError (key : string).

Definition uncaught (e : Renderer.RenderException) : Uncaught :=
  match e with
  | Renderer.Raised e => PipelineFailure e
  | Renderer.Propagated e => EngineFailure e
  end.

Section Cli.

    Context {lax : Lax}.

Variable now : string.
Variable current_year : Z.
Variable _renderer : Renderer.TemplateRenderer.
(** [Path(path).read_text(encoding="utf-8")]: [None] is
    [FileNotFoundError]. *)
Variable read_text : Path -> option string.
(** The JSON codec of pydantic: the document a text denotes, [None] when
    the text is not JSON, and the text written for a document. *)
Variable loads : string -> option Json.t.
Variable dumps : Json.t -> string.

(** [CanonicalData.from_file(path)] *)
Definition from_file (path : Path) : Exc LoadError CanonicalData.t :=
  match read_text path with
  | None => raise FileNotFoundError
  | Some content =>
      match loads content with
      | None => raise (InvalidDocument None)
      | Some j =>
          match CanonicalData.from_json now j with
          | inl e => raise (InvalidDocument (Some e))
          | inr data => ok data
          end
      end
  end.

(** [run_render(input_path, output_dir, all_variants, template_override,
    variant_override)]: the files after the call, and the exit code it
    returns or the exception it lets through. *)
Definition run_render (input_path output_dir : Path) (all_variants : bool)
    (template_override : option string) (variant_override : option Z)
    (fs : gmap Path string) : gmap Path string * Exc Uncaught Z :=
  match from_file input_path with
  | inl _ => (fs, ok 1)
  | inr data =>
      match CanonicalData.content data with
      | None => (fs, ok 1)
      | Some _ =>
          let canonical_path := path_div output_dir "canonical.json" in
          let fs :=
            write_text canonical_path (dumps (CanonicalData.to_json data)) fs in
          if all_variants
          then
            let variants_dir := path_div output_dir "variants" in
            match Renderer.render_all_variants current_year _renderer data with
            | inl e => (fs, raise (uncaught e))
            | inr results =>
                let fs := write_variants variants_dir results fs in
                let template_type :=
                  RenderConfig.template_type (CanonicalData.render data) in
                let default_key :=
                  Renderer.variant_key template_type
                    (RenderConfig.variant_id (CanonicalData.render data)) in
                let index_path := path_div output_dir "index.html" in
                (* The default of [results.get] is evaluated first. *)
                match results !! Renderer.variant_key template_type 0 with
                | None =>
                    (fs, raise (KeyError (Renderer.variant_key template_type 0)))
                | Some v0 =>
                    (write_text index_path
                       (match results !! default_key with
                        | Some html => html
                        | None => v0
                        end) fs,
                     ok 0)
                end
            end
          else
            (* [except PipelineError]: nothing else is caught. *)
            match Renderer.render_landing current_year _renderer data
                    template_override variant_override with
            | inl (Renderer.Raised e) => (fs, ok 1)
            | inl (Renderer.Propagated e) => (fs, raise (EngineFailure e))
            | inr html =>
                (write_text (path_div output_dir "index.html") html fs, ok 0)
            end
      end
  end.

End Cli.

End Main.

(** ** tests/conftest.py: the fixtures *)

Module Fixtures.

Import Schemas.

Definition valid_project_info : ProjectInfo.t :=
  ProjectInfo.mk "TestProduct" "Test tagline here"
    "This is a test product description that is long enough."
    "Developers and testers" "Make testing easier" "professional"
    ["test"; "fixture"; "pytest"].

Definition valid_brand_identity : BrandIdentity.t :=
  BrandIdentity.mk
    (ColorPalette.mk "#6366F1" "#818CF8" "#F59E0B" "#FAFAFA" "#1F2937")
    (Typography.mk "Inter" "Inter")
    ["Be clear"; "Be concise"; "Focus on benefits"].

Definition valid_landing_content : LandingContent.t :=
  LandingContent.mk
    (HeroSection.mk "Welcome to TestProduct"
       "This is the subheadline that explains what we do in detail."
       "Get Started")
    [Feature.mk "Feature One" "This is the first feature description." "rocket";
     Feature.mk "Feature Two" "This is the second feature description." "shield";
     Feature.mk "Feature Three" "This is the third feature description." "zap"]
    (Testimonial.mk "This product changed everything for our team!"
       "Jane Doe" "CTO, TechCorp")
    "Ready to get started?"
    (ContentVariants.mk
       ["Alternative Headline One"; "Alternative Headline Two"]
       ["Try It Free"; "Start Now"])
    (SectionsConfig.mk false true true false true true)
    [] [].

Definition valid_canonical_data : CanonicalData.t :=
  CanonicalData.mk
    (GenerationMeta.mk SCHEMA_VERSION "2024-01-01T00:00:00"
       ["onboarding"; "brand"; "landing"])
    valid_project_info
    (Some valid_brand_identity)
    (Some valid_landing_content)
    (AssetSlots.mk (Some "Test hero image prompt") (Some "Test hero alt text")
       None None [])
    (RenderConfig.mk "saas" 0).

(** The document of the end-to-end example: the fixture with the alternate
    headlines "Alt One" and "Alt Two" and a single alternate CTA. *)
Definition example_content : LandingContent.t :=
  LandingContent.mk
    (LandingContent.hero valid_landing_content)
    (LandingContent.features valid_landing_content)
    (LandingContent.testimonial valid_landing_content)
    (LandingContent.footer_cta valid_landing_content)
    (ContentVariants.mk ["Alt One"; "Alt Two"] ["Try It Free"])
    (LandingContent.sections valid_landing_content)
    [] [].

Definition example_data : CanonicalData.t :=
  CanonicalData.mk
    (CanonicalData.meta valid_canonical_data)
    valid_project_info (Some valid_brand_identity) (Some example_content)
    (CanonicalData.assets valid_canonical_data)
    (RenderConfig.mk "saas" 0).



(** A document whose content stage has not run. *)
Definition minimal_data : CanonicalData.t :=
  CanonicalData.mk (CanonicalData.meta valid_canonical_data)
    valid_project_info None None AssetSlots.default RenderConfig.default.

(** A template that prints the resolved headline and call to action. *)
Definition echo_template : Renderer.Template :=
  fun ctx => ok (Renderer.ctx_headline ctx +:+ "|" +:+ Renderer.ctx_cta_text ctx).

(** A renderer whose template directory holds the three known templates. *)
Definition full_renderer : Renderer.TemplateRenderer :=
  Renderer.mkTemplateRenderer
    (fun file =>
       if existsb (String.eqb file) (map snd Renderer.TEMPLATE_FILES)
       then Renderer.Loaded echo_template else Renderer.TemplateNotFound).

Definition example_user_input : UserInput.t :=
  UserInput.mk "TestProduct" "Developers and testers" "Make testing easier"
    "professional" "" "saas".

(** Stage stubs: an onboarding stage and a content stage that answer with
    the fixtures, and a brand stage whose LLM call fails. *)
Definition onboarding_stub (_ : UserInput.t)
    : Exc Exceptions.PyException ProjectInfo.t :=
  ok valid_project_info.

Definition failing_brand_stub (_ : ProjectInfo.t)
    : Exc Exceptions.PyException BrandIdentity.t :=
  raise (Exceptions.LLMFailure "no JSON in response").

Definition brand_stub (_ : ProjectInfo.t)
    : Exc Exceptions.PyException BrandIdentity.t :=
  ok valid_brand_identity.

Definition content_stub (_ : CanonicalData.t)
    : Exc Exceptions.PyException LandingContent.t :=
  ok valid_landing_content.

Definition str_stub (_ : Validation.ValidationError) : string :=
  "validation error".

(** Lax conversions for the examples.  A float is read as the integer it
    equals, when it has no fraction and fits 64 bits, and as a bool when
    that integer is 0 or 1; of the strings, the unsigned decimal numerals
    are read as integers and the words "true" and "false" as bools. *)
Definition float_integer (f : spec_float) : Exc Validation.ErrorKind Z :=
  match f with
  | S754_zero _ => ok 0
  | S754_finite s m e =>
      let sign (n : Z) := if s then - n else n in
      match e with
      | Zneg p =>
          if Z.pos m mod 2 ^ Z.pos p =? 0
          then ok (sign (Z.pos m / 2 ^ Z.pos p))
          else raise Validation.int_from_float
      | _ =>
          if Z.pos m * 2 ^ e <? 2 ^ 63
          then ok (sign (Z.pos m * 2 ^ e))
          else raise Validation.int_parsing_size
      end
  | _ => raise Validation.finite_number
  end.

Fixpoint numeral (s : string) (acc : Z) : option Z :=
  match s with
  | "" => Some acc
  | String c rest =>
      let d := Z.of_N (N_of_ascii c) - 48 in
      if (0 <=? d) && (d <=? 9) then numeral rest (10 * acc + d) else None
  end.

Definition lax_example : Lax :=
  mkLax float_integer
        (fun s =>
           match s, numeral s 0 with
           | String _ _, Some n => ok n
           | _, _ => raise Validation.int_parsing
           end)
        (fun f =>
           match float_integer f with
           | inr 0 => Some false
           | inr 1 => Some true
           | _ => None
           end)
        (fun s =>
           if String.eqb s "true" then Some true
           else if String.eqb s "false" then Some false
           else None).

(** A project object as an LLM may answer it: every required key, no
    "keywords". *)
Definition project_without_keywords : list (string * Json.t) :=
  [("product_name", JStr "MinimalTest"); ("tagline", JStr "A tagline");
   ("description", JStr "A description long enough.");
   ("target_audience", JStr "Testers");
   ("value_proposition", JStr "Testing"); ("tone", JStr "minimal")].

(** A stored document: the one file of the input directory, and a codec
    that knows its text. *)
Definition stored_input : FileSystem.Path := ["input"; "canonical.json"].

Definition read_stub (path : FileSystem.Path) : option string :=
  if bool_decide (path = stored_input) then Some "{example}" else None.

Definition loads_stub (text : string) : option Json.t :=
  if String.eqb text "{example}"
  then Some (CanonicalData.to_json example_data) else None.

Definition dumps_stub (_ : Json.t) : string := "{example}".

(** A renderer over an empty template directory. *)
Definition empty_renderer : Renderer.TemplateRenderer :=
  Renderer.mkTemplateRenderer (fun _ => Renderer.TemplateNotFound).

End Fixtures.

(** * Properties *)

(** ** Python string primitives *)

Module PyStrFacts.

Import PyStr.

Ltac each_char a := destruct a as [[] [] [] [] [] [] [] []].

Lemma isspace_lower_char a : isspace (lower_char a) = isspace a.
Proof. each_char a; reflexivity. Qed.

Lemma is_white_space_lower_char a : is_white_space (lower_char a) = is_white_space a.
Proof. each_char a; reflexivity. Qed.

Lemma lower_char_idem a : lower_char (lower_char a) = lower_char a.
Proof. each_char a; reflexivity. Qed.

Lemma is_white_space_isspace a : is_white_space a = true -> isspace a = true.
Proof. each_char a; cbv; congruence. Qed.

Lemma lower_idem s : lower (lower s) = lower s.
Proof. induction s as [|a s IH]; simpl; [|rewrite lower_char_idem, IH]; reflexivity. Qed.

Lemma lower_length s : String.length (lower s) = String.length s.
Proof. induction s as [|a s IH]; simpl; [|rewrite IH]; reflexivity. Qed.

Lemma truthy_lower s : truthy (lower s) = truthy s.
Proof. destruct s; reflexivity. Qed.

Section Strip.

Variables ws ws' : ascii -> bool.
(** [ws'] removes no more than [ws]. *)
Hypothesis sub : forall a, ws' a = true -> ws a = true.

Lemma rstrip_cons_keep (w : ascii -> bool) a s :
  w a = false -> rstrip_with w (String a s) = String a (rstrip_with w s).
Proof.
  intros Ha. simpl. rewrite Ha. destruct (rstrip_with w s); reflexivity.
Qed.

Lemma lstrip_lstrip s :
  lstrip_with ws (lstrip_with ws' s) = lstrip_with ws s.
Proof.
  induction s as [|a s IH]; [reflexivity|]. simpl.
  destruct (ws' a) eqn:Ha'.
  - rewrite (sub a Ha'). exact IH.
  - reflexivity.
Qed.

Lemma rstrip_rstrip s :
  rstrip_with ws (rstrip_with ws' s) = rstrip_with ws s.
Proof.
  induction s as [|a s IH]; [reflexivity|].
  cbn [rstrip_with].
  destruct (rstrip_with ws' s) as [|b r] eqn:Hr.
  - simpl in IH. rewrite <- IH.
    destruct (ws' a) eqn:Ha'.
    + rewrite (sub a Ha'). reflexivity.
    + reflexivity.
  - cbn [rstrip_with] in IH |- *. rewrite IH. reflexivity.
Qed.

Lemma lstrip_rstrip s :
  lstrip_with ws (rstrip_with ws' s) = rstrip_with ws' (lstrip_with ws s).
Proof.
  induction s as [|a s IH]; [reflexivity|].
  destruct (ws a) eqn:Ha.
  - cbn [lstrip_with]. rewrite Ha, <- IH. cbn [rstrip_with].
    destruct (rstrip_with ws' s) as [|b r].
    + destruct (ws' a); simpl; rewrite ?Ha; reflexivity.
    + cbn [lstrip_with]. rewrite Ha. reflexivity.
  - assert (Ha' : ws' a = false).
    { destruct (ws' a) eqn:E; [|reflexivity]. rewrite (sub a E) in Ha. discriminate. }
    cbn [lstrip_with]. rewrite Ha.
    rewrite (rstrip_cons_keep ws' a s Ha'). cbn [lstrip_with]. rewrite Ha.
    reflexivity.
Qed.

(** Stripping with the larger set absorbs a stripping with the smaller. *)
Lemma strip_strip s : strip_with ws (strip_with ws' s) = strip_with ws s.
Proof.
  unfold strip_with. rewrite lstrip_rstrip, rstrip_rstrip, lstrip_lstrip.
  reflexivity.
Qed.

End Strip.

Lemma strip_with_idem ws s : strip_with ws (strip_with ws s) = strip_with ws s.
Proof. apply strip_strip. auto. Qed.

Section Weaker.

Variables ws ws' : ascii -> bool.
Hypothesis sub : forall a, ws' a = true -> ws a = true.

Lemma not_ws_not_ws' a : ws a = false -> ws' a = false.
Proof.
  intros Ha. destruct (ws' a) eqn:E; [|reflexivity].
  rewrite (sub a E) in Ha. discriminate.
Qed.

Lemma lstrip'_lstrip s :
  lstrip_with ws' (lstrip_with ws s) = lstrip_with ws s.
Proof.
  induction s as [|a s IH]; [reflexivity|]. cbn [lstrip_with].
  destruct (ws a) eqn:Ha; [exact IH|].
  cbn [lstrip_with]. rewrite (not_ws_not_ws' a Ha). reflexivity.
Qed.

Lemma rstrip'_rstrip s :
  rstrip_with ws' (rstrip_with ws s) = rstrip_with ws s.
Proof.
  induction s as [|a s IH]; [reflexivity|]. cbn [rstrip_with].
  destruct (rstrip_with ws s) as [|b r] eqn:Hr.
  - destruct (ws a) eqn:Ha; [reflexivity|].
    cbn [rstrip_with]. rewrite (not_ws_not_ws' a Ha). reflexivity.
  - cbn [rstrip_with] in IH |- *. rewrite IH. reflexivity.
Qed.

(** A string stripped with the larger set is left alone by the smaller. *)
Lemma strip'_strip s : strip_with ws' (strip_with ws s) = strip_with ws s.
Proof.
  unfold strip_with at 1.
  replace (lstrip_with ws' (strip_with ws s)) with (strip_with ws s).
  - unfold strip_with. apply rstrip'_rstrip.
  - unfold strip_with. rewrite <- (lstrip_rstrip ws ws) by auto.
    symmetry. apply lstrip'_lstrip.
Qed.

End Weaker.

Section Lower.

Variable ws : ascii -> bool.
Hypothesis ws_lower : forall a, ws (lower_char a) = ws a.

Lemma lstrip_lower s : lstrip_with ws (lower s) = lower (lstrip_with ws s).
Proof.
  induction s as [|a s IH]; [reflexivity|]. simpl.
  rewrite ws_lower. destruct (ws a); [exact IH|reflexivity].
Qed.

Lemma rstrip_lower s : rstrip_with ws (lower s) = lower (rstrip_with ws s).
Proof.
  induction s as [|a s IH]; [reflexivity|]. simpl.
  rewrite IH, ws_lower.
  destruct (rstrip_with ws s); simpl; [destruct (ws a)|]; reflexivity.
Qed.

Lemma strip_with_lower s : strip_with ws (lower s) = lower (strip_with ws s).
Proof. unfold strip_with. rewrite lstrip_lower, rstrip_lower. reflexivity. Qed.

End Lower.

Lemma strip_idem s : strip (strip s) = strip s.
Proof. apply strip_with_idem. Qed.

Lemma trim_idem s : trim (trim s) = trim s.
Proof. apply strip_with_idem. Qed.

Lemma strip_trim s : strip (trim s) = strip s.
Proof. apply strip_strip, is_white_space_isspace. Qed.

Lemma trim_strip s : trim (strip s) = strip s.
Proof. apply strip'_strip, is_white_space_isspace. Qed.

Lemma strip_lower s : strip (lower s) = lower (strip s).
Proof. apply strip_with_lower, isspace_lower_char. Qed.

Lemma trim_lower s : trim (lower s) = lower (trim s).
Proof. apply strip_with_lower, is_white_space_lower_char. Qed.


Lemma append_assoc (a b c : string) : (a +:+ b) +:+ c = a +:+ b +:+ c.
Proof.
  induction a as [|x a IH]; [reflexivity|].
  change (String x ((a +:+ b) +:+ c) = String x (a +:+ b +:+ c)).
  rewrite IH. reflexivity.
Qed.

Lemma contains_intro needle pre post : contains needle (pre +:+ needle +:+ post).
Proof. exists pre, post. reflexivity. Qed.

End PyStrFacts.

(** ** Variant resolution *)

Module RendererFacts.

Import Schemas Errors Renderer.

Lemma resolve_variant_zero default variants :
  _resolve_variant default variants 0 = default.
Proof. reflexivity. Qed.

Lemma resolve_variant_in_range default (variants : list string) v :
  1 <= v <= Z.of_nat (length variants) ->
  variants !! Z.to_nat (v - 1) = Some (_resolve_variant default variants v).
Proof.
  intros [Hlo Hhi]. unfold _resolve_variant.
  destruct (Z.eqb_spec v 0) as [->|_]; [lia|].
  destruct variants as [|x xs]; [simpl in Hhi; lia|].
  cbn [orb].
  destruct (Z.leb_spec 0 (v - 1)); [|lia].
  destruct (Z.ltb_spec (v - 1) (Z.of_nat (length (x :: xs)))); [|lia].
  cbn [andb].
  destruct ((x :: xs) !! Z.to_nat (v - 1)) eqn:E; [reflexivity|].
  apply lookup_ge_None in E. lia.
Qed.

Lemma resolve_variant_out_of_range default (variants : list string) v :
  Z.of_nat (length variants) < v ->
  _resolve_variant default variants v = default.
Proof.
  intros Hv. unfold _resolve_variant.
  destruct ((v =? 0) || _); [reflexivity|].
  destruct (Z.ltb_spec (v - 1) (Z.of_nat (length variants))); [lia|].
  rewrite andb_false_r. reflexivity.
Qed.

Lemma max_variant_id_length (variants : ContentVariants.t) :
  ContentVariants.max_variant_id variants
  = Z.of_nat (length (ContentVariants.headlines variants)).
Proof.
  unfold ContentVariants.max_variant_id.
  destruct (ContentVariants.headlines variants); reflexivity.
Qed.

Lemma clamp_spec v variants :
  _clamp_variant_id v variants
  = if Z.of_nat (length (ContentVariants.headlines variants)) <? v then 0 else v.
Proof.
  unfold _clamp_variant_id. rewrite max_variant_id_length.
  destruct (Z.eqb_spec v 0) as [->|_]; [|reflexivity].
  destruct (Z.ltb_spec (Z.of_nat (length (ContentVariants.headlines variants))) 0);
    reflexivity.
Qed.

(** What [render_landing] hands to the template once the content is there
    and the selected template loads; the call returns or raises what
    rendering the template does. *)
Lemma render_landing_context year self data c template_override variant_override tpl :
  CanonicalData.content data = Some c ->
  get_template self (selected_file data template_override) = Loaded tpl ->
  exists ctx,
    TemplateRenderer_render_landing year self data template_override variant_override
    = from_engine (tpl ctx)
    /\ ctx_headline ctx
       = _resolve_variant (HeroSection.headline (LandingContent.hero c))
           (ContentVariants.headlines (LandingContent.variants c))
           (_clamp_variant_id (requested_variant data variant_override)
              (LandingContent.variants c))
    /\ ctx_cta_text ctx
       = _resolve_variant (HeroSection.cta_text (LandingContent.hero c))
           (ContentVariants.ctas (LandingContent.variants c))
           (_clamp_variant_id (requested_variant data variant_override)
              (LandingContent.variants c)).
Proof.
  intros Hc Ht. unfold TemplateRenderer_render_landing.
  rewrite Hc. unfold selected_file in Ht. rewrite Ht.
  eexists. split; [reflexivity|]. split; reflexivity.
Qed.

Lemma selected_file_known data template_override :
  In (selected_file data template_override) (map snd TEMPLATE_FILES).
Proof.
  unfold selected_file, TEMPLATE_FILES, dict_get.
  repeat match goal with |- context [String.eqb ?a ?b] => destruct (String.eqb a b) end;
    simpl; auto.
Qed.

(** C1. With the content present and the selected template loaded,
    [render_landing] hands the template the headline of the requested
    variant id [v]: the hero headline for [v = 0], the alternate headline
    [headlines[v-1]] for [1 <= v <= len(headlines)], and the hero headline
    again, with no error of its own, for any [v] beyond the alternates.
    What the call returns is what rendering the template on that context
    returns. *)
Theorem headline_resolution year self data c template_override variant_override tpl :
  CanonicalData.content data = Some c ->
  get_template self (selected_file data template_override) = Loaded tpl ->
  let v := requested_variant data variant_override in
  let headlines := ContentVariants.headlines (LandingContent.variants c) in
  exists ctx,
    TemplateRenderer_render_landing year self data template_override variant_override
    = from_engine (tpl ctx)
    /\ (v = 0 -> ctx_headline ctx = HeroSection.headline (LandingContent.hero c))
    /\ (1 <= v <= Z.of_nat (length headlines) ->
        headlines !! Z.to_nat (v - 1) = Some (ctx_headline ctx))
    /\ (Z.of_nat (length headlines) < v ->
        ctx_headline ctx = HeroSection.headline (LandingContent.hero c)).
Proof.
  intros Hc Ht v headlines.
  destruct (render_landing_context year self data c template_override
              variant_override tpl Hc Ht) as (ctx & Hr & Hh & _).
  exists ctx. split; [exact Hr|]. rewrite Hh, clamp_spec. fold v headlines.
  repeat split.
  - intros ->. destruct (_ <? 0); apply resolve_variant_zero.
  - intros Hv. destruct (Z.ltb_spec (Z.of_nat (length headlines)) v); [lia|].
    apply resolve_variant_in_range. exact Hv.
  - intros Hv. destruct (Z.ltb_spec (Z.of_nat (length headlines)) v); [|lia].
    apply resolve_variant_zero.
Qed.

(** The end-to-end example of C1: with hero headline "Welcome to
    TestProduct" and alternates "Alt One", "Alt Two", variant 1 shows
    "Alt One", variant 2 "Alt Two", variant 99 the hero headline. *)
Lemma headline_resolution_example :
  (exists ctx,
      TemplateRenderer_render_landing 2024 Fixtures.full_renderer
        Fixtures.example_data None (Some 1)
      = from_engine (Fixtures.echo_template ctx)
      /\ Some "Alt One" = Some (ctx_headline ctx))
  /\ (exists ctx,
      TemplateRenderer_render_landing 2024 Fixtures.full_renderer
        Fixtures.example_data None (Some 2)
      = from_engine (Fixtures.echo_template ctx)
      /\ Some "Alt Two" = Some (ctx_headline ctx))
  /\ (exists ctx,
      TemplateRenderer_render_landing 2024 Fixtures.full_renderer
        Fixtures.example_data None (Some 99)
      = from_engine (Fixtures.echo_template ctx)
      /\ ctx_headline ctx = "Welcome to TestProduct").
Proof.
  split; [|split].
  - destruct (headline_resolution 2024 Fixtures.full_renderer Fixtures.example_data
                Fixtures.example_content None (Some 1) Fixtures.echo_template
                eq_refl eq_refl) as (ctx & Hr & _ & H1 & _).
    exists ctx. split; [exact Hr|]. apply H1. simpl. lia.
  - destruct (headline_resolution 2024 Fixtures.full_renderer Fixtures.example_data
                Fixtures.example_content None (Some 2) Fixtures.echo_template
                eq_refl eq_refl) as (ctx & Hr & _ & H1 & _).
    exists ctx. split; [exact Hr|]. apply H1. simpl. lia.
  - destruct (headline_resolution 2024 Fixtures.full_renderer Fixtures.example_data
                Fixtures.example_content None (Some 99) Fixtures.echo_template
                eq_refl eq_refl) as (ctx & Hr & _ & _ & H2).
    exists ctx. split; [exact Hr|]. apply H2. simpl. lia.
Defined.

(** C2.  The clamp against the resolution, id by id, [n] being the number
    of alternate headlines.  For the id 0 and for an id above [n] the
    clamp reports 0 and the resolved headline is the hero headline; for an
    id in [1..n] the clamp reports the id and the resolved headline is
    [headlines[id-1]].  For a negative id the two part: the resolution
    falls back to the hero headline, and the clamp reports the negative
    id itself, neither 0 nor an id of a headline.
    [get_effective_variant_id] reports what the clamp reports on the
    document's own variant id, the negative ids included. *)
Theorem clamp_and_resolution (default : string) (variants : ContentVariants.t)
    (v : Z) :
  let headlines := ContentVariants.headlines variants in
  let n := Z.of_nat (length headlines) in
  let e := _clamp_variant_id v variants in
  let resolved := _resolve_variant default headlines e in
  (v = 0 \/ n < v -> e = 0 /\ resolved = default)
  /\ (1 <= v <= n -> e = v /\ headlines !! Z.to_nat (v - 1) = Some resolved)
  /\ (v < 0 -> e = v /\ e <> 0 /\ resolved = default)
  /\ (forall data c,
        CanonicalData.content data = Some c ->
        LandingContent.variants c = variants ->
        RenderConfig.variant_id (CanonicalData.render data) = v ->
        CanonicalData.get_effective_variant_id data = e).
Proof.
  intros headlines n e resolved.
  assert (He : e = if n <? v then 0 else v) by apply clamp_spec.
  split; [|split; [|split]].
  - intros Hv. assert (e = 0) as H0.
    { rewrite He. destruct (Z.ltb_spec n v); [reflexivity|]. lia. }
    split; [exact H0|]. subst resolved. rewrite H0.
    apply resolve_variant_zero.
  - intros Hv. assert (e = v) as Hev.
    { rewrite He. destruct (Z.ltb_spec n v); [lia|reflexivity]. }
    split; [exact Hev|]. subst resolved. rewrite Hev.
    apply resolve_variant_in_range. exact Hv.
  - intros Hv. assert (e = v) as Hev.
    { rewrite He. destruct (Z.ltb_spec n v); [lia|reflexivity]. }
    split; [exact Hev|]. split; [lia|]. subst resolved. rewrite Hev.
    unfold _resolve_variant.
    destruct ((v =? 0) || _); [reflexivity|].
    destruct (Z.leb_spec 0 (v - 1)); [lia|reflexivity].
  - intros data c Hc Hvar Hid.
    unfold CanonicalData.get_effective_variant_id. rewrite Hc, Hvar, Hid.
    rewrite max_variant_id_length. exact (eq_sym He).
Qed.

(** The id -1 on the fixture with two alternate headlines: the clamp and
    [get_effective_variant_id] report -1, the headline is the hero's. *)
Lemma clamp_and_resolution_at_minus_one :
  _clamp_variant_id (-1) (LandingContent.variants Fixtures.example_content) = -1
  /\ _resolve_variant "Welcome to TestProduct" ["Alt One"; "Alt Two"]
       (_clamp_variant_id (-1) (LandingContent.variants Fixtures.example_content))
     = "Welcome to TestProduct"
  /\ CanonicalData.get_effective_variant_id
       (CanonicalData.set_render_variant_id Fixtures.example_data (-1))
     = -1.
Proof.
  destruct (clamp_and_resolution "Welcome to TestProduct"
              (LandingContent.variants Fixtures.example_content) (-1))
    as (_ & _ & Hneg & Heff).
  destruct (Hneg ltac:(lia)) as (He & _ & Hr).
  split; [exact He|]. split; [exact Hr|].
  rewrite (Heff (CanonicalData.set_render_variant_id Fixtures.example_data (-1))
             Fixtures.example_content eq_refl eq_refl eq_refl).
  exact He.
Defined.

(** C10. Headline and call to action fall back one by one.  For a variant
    id within the alternate headlines but beyond the alternate CTAs, the
    template receives the alternate headline [headlines[v-1]] together with
    the hero's [cta_text]; the call raises nothing of its own and returns
    what rendering the template returns, and the clamp leaves the id as it
    is, for the clamp reads the headline count alone. *)
Theorem headline_and_cta_fall_back_independently
    year self data c template_override variant_override tpl :
  CanonicalData.content data = Some c ->
  get_template self (selected_file data template_override) = Loaded tpl ->
  let v := requested_variant data variant_override in
  let variants := LandingContent.variants c in
  1 <= v <= Z.of_nat (length (ContentVariants.headlines variants)) ->
  Z.of_nat (length (ContentVariants.ctas variants)) < v ->
  exists ctx,
    TemplateRenderer_render_landing year self data template_override variant_override
    = from_engine (tpl ctx)
    /\ ContentVariants.headlines variants !! Z.to_nat (v - 1)
       = Some (ctx_headline ctx)
    /\ ctx_cta_text ctx = HeroSection.cta_text (LandingContent.hero c)
    /\ _clamp_variant_id v variants = v.
Proof.
  intros Hc Ht v variants Hh Hcta.
  destruct (render_landing_context year self data c template_override
              variant_override tpl Hc Ht) as (ctx & Hr & Hhead & Hct).
  fold v variants in Hhead, Hct.
  assert (He : _clamp_variant_id v variants = v).
  { rewrite clamp_spec.
    destruct (Z.ltb_spec (Z.of_nat (length (ContentVariants.headlines variants))) v);
      [lia|reflexivity]. }
  rewrite He in Hhead, Hct.
  exists ctx. split; [exact Hr|]. split; [|split].
  - rewrite Hhead. apply resolve_variant_in_range. exact Hh.
  - rewrite Hct. apply resolve_variant_out_of_range. exact Hcta.
  - exact He.
Qed.

Lemma headline_and_cta_fall_back_independently_example :
  exists ctx,
    TemplateRenderer_render_landing 2024 Fixtures.full_renderer
      Fixtures.example_data None (Some 2)
    = from_engine (Fixtures.echo_template ctx)
    /\ Some "Alt Two" = Some (ctx_headline ctx)
    /\ ctx_cta_text ctx = "Get Started"
    /\ _clamp_variant_id 2 (LandingContent.variants Fixtures.example_content) = 2.
Proof.
  apply (headline_and_cta_fall_back_independently 2024 Fixtures.full_renderer
           Fixtures.example_data Fixtures.example_content None (Some 2)
           Fixtures.echo_template eq_refl eq_refl); simpl; lia.
Defined.

  (** *** Failure semantics *)



End RendererFacts.

(** ** Bulk resolution *)

Module BulkFacts.

Import Schemas Errors Renderer RendererFacts.

Lemma variant_key_inj t1 i1 t2 i2 :
  t1 ∈ keys TEMPLATE_FILES -> t2 ∈ keys TEMPLATE_FILES ->
  variant_key t1 i1 = variant_key t2 i2 -> t1 = t2 /\ i1 = i2.
Proof.
  unfold keys, TEMPLATE_FILES. cbn [map fst].
  rewrite !elem_of_cons, !elem_of_nil.
  intros [->|[->|[->|[]]]] [->|[->|[->|[]]]] H;
    unfold variant_key in H; cbn in H; try discriminate H;
    (split; [reflexivity|]); injection H as H;
    apply (inj pretty); exact H.
Qed.

Lemma variant_ids_elem k i : i ∈ variant_ids k <-> 0 <= i <= Z.of_nat k.
Proof.
  unfold variant_ids, range_from_1. rewrite elem_of_cons.
  change (map Z.of_nat (seq 1 k)) with (Z.of_nat <$> seq 1 k).
  rewrite list_elem_of_fmap. split.
  - intros [->|(n & -> & Hn%elem_of_seq)]; lia.
  - intros Hi. destruct (Z.eq_dec i 0) as [->|Hne]; [left; reflexivity|].
    right. exists (Z.to_nat i). split; [lia|]. apply elem_of_seq. lia.
Qed.

Lemma variant_ids_NoDup k : NoDup (variant_ids k).
Proof.
  change (variant_ids k) with (Z.of_nat <$> seq 0 (S k)).
  apply (NoDup_fmap_2 Z.of_nat), NoDup_seq.
Qed.

Lemma variant_ids_length k : length (variant_ids k) = S k.
Proof. unfold variant_ids, range_from_1. simpl. rewrite length_map, length_seq. reflexivity. Qed.

Lemma fmap_bind_list {A B C : Type} (f : B -> C) (g : A -> list B) (l : list A) :
  f <$> (l ≫= g) = l ≫= (fun x => f <$> g x).
Proof.
  induction l as [|x l IH]; [reflexivity|].
  rewrite !bind_cons, fmap_app, IH. reflexivity.
Qed.

Section Bulk.

Variables (year : Z) (renderer : TemplateRenderer) (data : CanonicalData.t)
          (c : LandingContent.t).
Hypothesis Hc : CanonicalData.content data = Some c.
(** Each single resolution the loops perform returns. *)
Hypothesis Hok :
  forall t i,
    t ∈ keys TEMPLATE_FILES ->
    0 <= i <= Z.of_nat (length (ContentVariants.headlines
                                  (LandingContent.variants c))) ->
    is_raise (TemplateRenderer_render_landing year renderer data
                (Some t) (Some i)) = false.

Lemma render_total t i :
  t ∈ keys TEMPLATE_FILES ->
  0 <= i <= Z.of_nat (length (ContentVariants.headlines
                                (LandingContent.variants c))) ->
  TemplateRenderer_render_landing year renderer data (Some t) (Some i)
  = ok (rendered year renderer data (Some t) (Some i)).
Proof.
  intros Ht Hi. pose proof (Hok t i Ht Hi) as H. unfold rendered.
  destruct (TemplateRenderer_render_landing year renderer data (Some t) (Some i));
    [discriminate H|reflexivity].
Qed.

Lemma inner_loop t (ids : list Z) (l0 : list (string * string)) :
  t ∈ keys TEMPLATE_FILES ->
  Forall (fun i => 0 <= i <= Z.of_nat (length (ContentVariants.headlines
                                                (LandingContent.variants c))))
    ids ->
  for_each ids
    (fun results i =>
       do html <- TemplateRenderer_render_landing year renderer data
                    (Some t) (Some i);
       ok (<[variant_key t i := html]> results))
    (list_to_map l0 : gmap string string)
  = ok (E := RenderException)
      (list_to_map (reverse (variant_entry year renderer data t <$> ids) ++ l0)).
Proof.
  intros Ht Hids. revert l0.
  induction Hids as [|i ids Hi Hids IH]; intros l0; [reflexivity|].
  cbn [for_each]. rewrite (render_total t i Ht Hi). cbn [exc_bind ok].
  change (<[variant_key t i := rendered year renderer data (Some t) (Some i)]>
            (list_to_map l0 : gmap string string))
    with (list_to_map (variant_entry year renderer data t i :: l0)
          : gmap string string).
  rewrite IH, fmap_cons, reverse_cons, <- app_assoc. reflexivity.
Qed.

Lemma range_in_bounds k :
  (k <= length (ContentVariants.headlines (LandingContent.variants c)))%nat ->
  Forall (fun i => 0 <= i <= Z.of_nat (length (ContentVariants.headlines
                                                (LandingContent.variants c))))
    (range_from_1 k).
Proof.
  intros Hk. apply Forall_forall. intros i Hi.
  assert (0 <= i <= Z.of_nat k); [|lia].
  apply variant_ids_elem. unfold variant_ids. apply elem_of_cons.
  right. exact Hi.
Qed.

Lemma outer_loop k (ts : list string) (l0 : list (string * string)) :
  (k <= length (ContentVariants.headlines (LandingContent.variants c)))%nat ->
  Forall (fun t => t ∈ keys TEMPLATE_FILES) ts ->
  for_each ts
    (fun results template_type =>
       do html <- TemplateRenderer_render_landing year renderer data
                    (Some template_type) (Some 0);
       let results := <[variant_key template_type 0 := html]> results in
       for_each (range_from_1 k)
         (fun results i =>
            do html <- TemplateRenderer_render_landing year renderer data
                         (Some template_type) (Some i);
            ok (<[variant_key template_type i := html]> results))
         results)
    (list_to_map l0 : gmap string string)
  = ok (E := RenderException)
      (list_to_map
         (reverse (ts ≫= fun t => variant_entry year renderer data t <$> variant_ids k)
          ++ l0)).
Proof.
  intros Hk Hts. revert l0.
  induction Hts as [|t ts Ht Hts IH]; intros l0; [reflexivity|].
  cbn [for_each]. rewrite (render_total t 0 Ht ltac:(lia)). cbn [exc_bind ok].
  change (<[variant_key t 0 := rendered year renderer data (Some t) (Some 0)]>
            (list_to_map l0 : gmap string string))
    with (list_to_map (variant_entry year renderer data t 0 :: l0)
          : gmap string string).
  rewrite (inner_loop t _ _ Ht (range_in_bounds k Hk)).
  cbn [exc_bind ok]. rewrite IH. f_equal. f_equal.
  rewrite bind_cons, reverse_app, <- app_assoc. f_equal.
  unfold variant_ids. rewrite fmap_cons, reverse_cons, <- app_assoc.
  reflexivity.
Qed.

Lemma render_all_variants_entries :
  render_all_variants year renderer data
  = ok (list_to_map
          (reverse (all_entries year renderer data
                      (length (ContentVariants.headlines
                                 (LandingContent.variants c)))))).
Proof.
  unfold render_all_variants. rewrite Hc.
  change (∅ : gmap string string) with (list_to_map [] : gmap string string).
  rewrite outer_loop, app_nil_r.
  - destruct (ContentVariants.headlines (LandingContent.variants c));
      reflexivity.
  - destruct (ContentVariants.headlines (LandingContent.variants c));
      cbn [length]; lia.
  - apply Forall_forall. intros t Ht. exact Ht.
Qed.

Lemma all_entries_keys_NoDup k :
  NoDup (all_entries year renderer data k).*1.
Proof.
  unfold all_entries. rewrite fmap_bind_list.
  apply NoDup_bind.
  - intros t1 t2 key H1 H2.
    rewrite <- !list_fmap_compose, !list_elem_of_fmap.
    intros (i1 & -> & _) (i2 & Heq & _).
    apply (variant_key_inj t1 i1 t2 i2 H1 H2 Heq).
  - intros t Ht. rewrite <- list_fmap_compose.
    apply NoDup_fmap_2_strong; [|apply variant_ids_NoDup].
    intros i1 i2 _ _ Heq.
    apply (variant_key_inj t i1 t i2 Ht Ht Heq).
  - apply (bool_decide_unpack _). vm_compute. exact I.
Qed.

Lemma all_entries_length k :
  length (all_entries year renderer data k) = (3 * (k + 1))%nat.
Proof.
  unfold all_entries.
  change (keys TEMPLATE_FILES) with ["saas"; "app"; "agency"].
  rewrite !bind_cons.
  change ([] ≫= _) with (@nil (string * string)).
  rewrite !length_app, !length_fmap, variant_ids_length. simpl. lia.
Qed.

Lemma all_entries_elem k key html :
  (key, html) ∈ all_entries year renderer data k
  <-> exists t i, t ∈ keys TEMPLATE_FILES /\ 0 <= i <= Z.of_nat k
                  /\ key = variant_key t i
                  /\ html = rendered year renderer data (Some t) (Some i).
Proof.
  unfold all_entries. rewrite list_elem_of_bind. split.
  - intros (t & Hin & Ht). apply list_elem_of_fmap in Hin as (i & Heq & Hi).
    injection Heq as -> ->. exists t, i.
    apply variant_ids_elem in Hi. auto.
  - intros (t & i & Ht & Hi & -> & ->). exists t. split; [|exact Ht].
    apply list_elem_of_fmap. exists i. split; [reflexivity|].
    apply variant_ids_elem. exact Hi.
Qed.

(** C7. With the content present and each single resolution of the
    three known templates returning, [render_all_variants] returns a
    mapping of exactly
    [3 * (k + 1)] entries, [k] being the number of alternate headlines.
    Its keys are exactly the strings ["{template_type}_v{variant_id}"]
    for the templates saas, app, agency and the variant ids [0..k]; the
    key determines the pair; and the entry under each key is what the
    single-resolution path [render_landing(data, template_type,
    variant_id)] returns for that pair. *)
Theorem render_all_variants_spec :
  let k := length (ContentVariants.headlines (LandingContent.variants c)) in
  exists m : gmap string string,
    render_all_variants year renderer data = ok m
    /\ size m = (3 * (k + 1))%nat
    /\ (forall key, is_Some (m !! key) <->
         exists t i, t ∈ keys TEMPLATE_FILES /\ 0 <= i <= Z.of_nat k
                     /\ key = variant_key t i)
    /\ (forall t i, t ∈ keys TEMPLATE_FILES -> 0 <= i <= Z.of_nat k ->
         exists html, m !! variant_key t i = Some html
                      /\ render_landing year renderer data (Some t) (Some i)
                         = ok html)
    /\ (forall t1 i1 t2 i2,
         t1 ∈ keys TEMPLATE_FILES -> t2 ∈ keys TEMPLATE_FILES ->
         variant_key t1 i1 = variant_key t2 i2 -> t1 = t2 /\ i1 = i2)
    /\ keys TEMPLATE_FILES = ["saas"; "app"; "agency"]
    /\ (forall t i, variant_key t i = t +:+ "_v" +:+ pretty i).
Proof.
  intros k.
  set (E := all_entries year renderer data k).
  assert (HND : NoDup (reverse E).*1).
  { rewrite fmap_reverse, reverse_Permutation. apply all_entries_keys_NoDup. }
  exists (list_to_map (reverse E)).
  split; [apply render_all_variants_entries|].
  split.
  { rewrite map_size_list_to_map by exact HND.
    rewrite length_reverse. apply all_entries_length. }
  split.
  { intros key. split.
    - intros [html Hl].
      apply elem_of_list_to_map in Hl; [|exact HND].
      apply elem_of_reverse, all_entries_elem in Hl
        as (t & i & Ht & Hi & Hk & _).
      exists t, i. auto.
    - intros (t & i & Ht & Hi & ->).
      exists (rendered year renderer data (Some t) (Some i)).
      apply elem_of_list_to_map; [exact HND|].
      apply elem_of_reverse, all_entries_elem. exists t, i. auto. }
  split.
  { intros t i Ht Hi.
    exists (rendered year renderer data (Some t) (Some i)). split.
    - apply elem_of_list_to_map; [exact HND|].
      apply elem_of_reverse, all_entries_elem. exists t, i. auto.
    - apply render_total; assumption. }
  split; [exact variant_key_inj|].
  split; reflexivity.
Qed.

End Bulk.

Lemma full_renderer_renders data i t :
  CanonicalData.content data <> None ->
  t ∈ keys TEMPLATE_FILES ->
  is_raise (TemplateRenderer_render_landing 2024 Fixtures.full_renderer data
              (Some t) (Some i)) = false.
Proof.
  intros Hc Ht. unfold TemplateRenderer_render_landing.
  destruct (CanonicalData.content data); [|contradiction].
  unfold keys, TEMPLATE_FILES in Ht. cbn [map fst] in Ht.
  rewrite !elem_of_cons, elem_of_nil in Ht.
  destruct Ht as [->|[->|[->|[]]]]; reflexivity.
Qed.

(** For 3 templates and 2 alternate headlines: exactly 9 entries. *)
Lemma render_all_variants_nine :
  exists m : gmap string string,
    render_all_variants 2024 Fixtures.full_renderer Fixtures.example_data = ok m
    /\ size m = 9%nat
    /\ variant_key "saas" 1 = "saas_v1".
Proof.
  destruct (render_all_variants_spec 2024 Fixtures.full_renderer
              Fixtures.example_data Fixtures.example_content eq_refl
              (fun t i Ht _ =>
                 full_renderer_renders Fixtures.example_data i t
                   ltac:(discriminate) Ht))
    as (m & Hm & Hs & _).
  exists m. split; [exact Hm|]. split; [exact Hs|reflexivity].
Defined.

End BulkFacts.

(** ** Validation results *)

Module ValidationFacts.

Import Validation.

Lemma vap_inr_inv {A B : Type} (f : V (A -> B)) (x : V A) (b : B) :
  f <*> x = inr b -> exists f' x', f = inr f' /\ x = inr x' /\ b = f' x'.
Proof.
  destruct f as [e|f'], x as [e'|x']; simpl; intros H; try discriminate H.
  injection H as <-. eauto.
Qed.

Lemma vap_raise_r {A B : Type} (f : V (A -> B)) (e : ValidationError) :
  exists es, f <*> (inl e : V A) = inl (es ++ e).
Proof. destruct f as [e1|f']; [exists e1|exists []]; reflexivity. Qed.

Lemma vap_raise_l {A B : Type} (e : ValidationError) (x : V A) :
  exists es, (inl e : V (A -> B)) <*> x = inl (e ++ es).
Proof.
  destruct x as [e2|x']; [exists e2|exists []]; simpl;
    rewrite ?app_nil_r; reflexivity.
Qed.

Lemma is_raise_vap_l {A B : Type} (f : V (A -> B)) (x : V A) :
  is_raise f = true -> is_raise (f <*> x) = true.
Proof. destruct f, x; simpl; congruence. Qed.

Lemma is_raise_vap_r {A B : Type} (f : V (A -> B)) (x : V A) :
  is_raise x = true -> is_raise (f <*> x) = true.
Proof. destruct f, x; simpl; congruence. Qed.

Lemma is_raise_at_loc {A : Type} (name : string) (v : V A) :
  is_raise (at_loc name v) = is_raise v.
Proof. destruct v; reflexivity. Qed.

Lemma at_loc_inr_inv {A : Type} (name : string) (v : V A) (a : A) :
  at_loc name v = inr a -> v = inr a.
Proof. destruct v; simpl; congruence. Qed.


Lemma str_field_unbounded strip_whitespace s :
  str_field strip_whitespace None None s
  = ok (if strip_whitespace then PyStr.trim s else s).
Proof. reflexivity. Qed.

End ValidationFacts.

(** ** Schema version gate *)

Module SchemaVersionFacts.

Import Validation ValidationFacts Schemas PyStr.

Lemma current_parts : split_dot SCHEMA_VERSION = ["1"; "2"; "1"].
Proof. reflexivity. Qed.





End SchemaVersionFacts.

(** ** Closed-world fonts and icons *)

Module AllowListFacts.

Import Validation ValidationFacts Schemas PyStr PyStrFacts.

Lemma validate_font_allowed v :
  v ∈ ALLOWED_FONTS -> Typography.validate_font v = ok v.
Proof.
  intros Hv. unfold Typography.validate_font.
  rewrite (bool_decide_eq_true_2 _ Hv). reflexivity.
Qed.

Lemma validate_font_refused v :
  v ∉ ALLOWED_FONTS ->
  exists msg, Typography.validate_font v = fail (value_error msg)
              /\ contains "ALLOWED_FONTS" msg.
Proof.
  intros Hv. unfold Typography.validate_font.
  rewrite (bool_decide_eq_false_2 _ Hv). cbn [negb].
  eexists. split; [reflexivity|].
  exists ("Font '" +:+ v +:+ "' not in "),
         (". " +:+ "Valid fonts: "
          +:+ repr_list (sorted (elements ALLOWED_FONTS))).
  rewrite !append_assoc. reflexivity.
Qed.

Lemma validate_icon_result v :
  Feature.validate_icon v
  = if bool_decide (strip (lower v) ∈ ALLOWED_ICONS)
    then ok (strip (lower v))
    else fail (value_error
                 ("Icon '" +:+ strip (lower v) +:+ "' not in ALLOWED_ICONS. "
                  +:+ "Valid icons: "
                  +:+ repr_list (sorted (elements ALLOWED_ICONS)))).
Proof.
  unfold Feature.validate_icon.
  destruct (bool_decide (strip (lower v) ∈ ALLOWED_ICONS)); reflexivity.
Qed.

(** The trimming of [str_strip_whitespace] before the validator does not
    show in the result. *)
Lemma icon_field_validate_icon v :
  Feature.icon_field v = Feature.validate_icon v.
Proof.
  unfold Feature.icon_field. rewrite str_field_unbounded. cbn [exc_bind ok].
  rewrite !validate_icon_result, <- trim_lower, strip_trim. reflexivity.
Qed.

Lemma icon_message_contains icon :
  contains "ALLOWED_ICONS"
    ("Icon '" +:+ icon +:+ "' not in ALLOWED_ICONS. " +:+ "Valid icons: "
     +:+ repr_list (sorted (elements ALLOWED_ICONS))).
Proof.
  exists ("Icon '" +:+ icon +:+ "' not in "),
         (". " +:+ "Valid icons: "
          +:+ repr_list (sorted (elements ALLOWED_ICONS))).
  rewrite !append_assoc. reflexivity.
Qed.

(** Every allow-listed icon is already lowercase and trimmed. *)
Lemma allowed_icon_normal icon :
  icon ∈ ALLOWED_ICONS -> strip (lower icon) = icon /\ trim icon = icon.
Proof.
  unfold ALLOWED_ICONS. rewrite elem_of_list_to_set, !elem_of_cons, elem_of_nil.
  intros H. repeat (destruct H as [->|H]; [split; vm_compute; reflexivity|]).
  contradiction.
Qed.

Lemma allowed_font_trimmed font :
  font ∈ ALLOWED_FONTS -> trim font = font.
Proof.
  unfold ALLOWED_FONTS. rewrite elem_of_list_to_set, !elem_of_cons, elem_of_nil.
  intros H. repeat (destruct H as [->|H]; [vm_compute; reflexivity|]).
  contradiction.
Qed.

(** C5. [Typography] refuses any heading or body outside
    [ALLOWED_FONTS], every error naming the allow-list, and accepts every
    member.  [Feature] refuses an icon whose lowercased, trimmed form is
    outside [ALLOWED_ICONS] with an error on [icon] naming the allow-list,
    accepts every member, and stores the lowercased, trimmed form of the
    icon it was given. *)
Theorem allow_list_enforcement :
  (forall heading body,
      heading ∉ ALLOWED_FONTS \/ body ∉ ALLOWED_FONTS ->
      exists errs,
        Typography.new heading body = raise errs /\ errs <> []
        /\ Forall (fun e => exists msg, kind e = value_error msg
                                        /\ contains "ALLOWED_FONTS" msg) errs)
  /\ (forall heading body,
        heading ∈ ALLOWED_FONTS -> body ∈ ALLOWED_FONTS ->
        Typography.new heading body = ok (Typography.mk heading body))
  /\ (forall title description icon,
        strip (lower icon) ∉ ALLOWED_ICONS ->
        exists errs e msg,
          Feature.new title description icon = raise errs
          /\ e ∈ errs /\ loc e = ["icon"] /\ kind e = value_error msg
          /\ contains "ALLOWED_ICONS" msg)
  /\ (forall title description icon,
        icon ∈ ALLOWED_ICONS ->
        2 <= len (trim title) <= 50 -> 10 <= len (trim description) <= 150 ->
        Feature.new title description icon
        = ok (Feature.mk (trim title) (trim description) icon))
  /\ (forall title description icon f,
        Feature.new title description icon = ok f ->
        Feature.icon f = strip (lower icon) /\ Feature.icon f ∈ ALLOWED_ICONS).
Proof.
  split; [|split; [|split; [|split]]].
  - intros heading body Hout. unfold Typography.new.
    destruct (decide (heading ∈ ALLOWED_FONTS)) as [Hh|Hh];
      destruct (decide (body ∈ ALLOWED_FONTS)) as [Hb|Hb].
    + destruct Hout; contradiction.
    + rewrite (validate_font_allowed _ Hh).
      destruct (validate_font_refused _ Hb) as (msg & -> & Hmsg).
      eexists. split; [reflexivity|]. split; [discriminate|].
      repeat constructor. exists msg. split; [reflexivity|exact Hmsg].
    + rewrite (validate_font_allowed _ Hb).
      destruct (validate_font_refused _ Hh) as (msg & -> & Hmsg).
      eexists. split; [reflexivity|]. split; [discriminate|].
      repeat constructor. exists msg. split; [reflexivity|exact Hmsg].
    + destruct (validate_font_refused _ Hh) as (msg & -> & Hmsg).
      destruct (validate_font_refused _ Hb) as (msg' & -> & Hmsg').
      eexists. split; [reflexivity|]. split; [discriminate|].
      repeat constructor; eexists; (split; [reflexivity|assumption]).
  - intros heading body Hh Hb. unfold Typography.new.
    rewrite (validate_font_allowed _ Hh), (validate_font_allowed _ Hb).
    reflexivity.
  - intros title description icon Hout. unfold Feature.new.
    rewrite icon_field_validate_icon, validate_icon_result.
    rewrite (bool_decide_eq_false_2 _ Hout).
    cbn [at_loc fail raise map loc kind].
    match goal with
    | |- context [?f <*> inl ?e] =>
        destruct (vap_raise_r f e) as (es & Hes)
    end.
    eexists _, _, _. split; [exact Hes|].
    split; [apply elem_of_app; right; apply list_elem_of_here|].
    split; [reflexivity|]. split; [reflexivity|].
    apply icon_message_contains.
  - intros title description icon Hicon Ht Hd. unfold Feature.new.
    rewrite icon_field_validate_icon, validate_icon_result.
    destruct (allowed_icon_normal icon Hicon) as [-> _].
    rewrite (bool_decide_eq_true_2 _ Hicon).
    unfold str_field.
    destruct (Z.ltb_spec (len (trim title)) 2); [lia|].
    destruct (Z.ltb_spec 50 (len (trim title))); [lia|].
    destruct (Z.ltb_spec (len (trim description)) 10); [lia|].
    destruct (Z.ltb_spec 150 (len (trim description))); [lia|].
    reflexivity.
  - intros title description icon f Hnew. unfold Feature.new in Hnew.
    apply vap_inr_inv in Hnew as (g & i & Hg & Hi & ->).
    apply vap_inr_inv in Hg as (g' & d & Hg' & _ & ->).
    apply vap_inr_inv in Hg' as (mk' & t & Hmk & _ & ->).
    injection Hmk as <-.
    apply at_loc_inr_inv in Hi.
    rewrite icon_field_validate_icon, validate_icon_result in Hi.
    destruct (bool_decide (strip (lower icon) ∈ ALLOWED_ICONS)) eqn:Hb;
      [|discriminate Hi].
    injection Hi as <-. apply bool_decide_eq_true_1 in Hb.
    split; [reflexivity|exact Hb].
Qed.

Ltac by_decide := apply (bool_decide_unpack _); vm_compute; exact I.

(** The values of the tests: "Comic Sans" is refused, "Inter" and
    "Roboto" are accepted, and the icon "ROCKET" is stored as "rocket". *)
Lemma allow_list_examples :
  (exists errs, Typography.new "Comic Sans" "Inter" = raise errs /\ errs <> [])
  /\ Typography.new "Inter" "Roboto" = ok (Typography.mk "Inter" "Roboto")
  /\ (exists f, Feature.new "Test Feature" "This is a test feature description."
                  "ROCKET" = ok f /\ Feature.icon f = "rocket")
  /\ is_raise (Feature.new "Test Feature" "This is a test feature description."
                 "invalid_icon") = true.
Proof.
  destruct allow_list_enforcement as (Hfont_out & Hfont_in & Hicon_out & _ & Hicon).
  split; [|split; [|split]].
  - destruct (Hfont_out "Comic Sans" "Inter") as (errs & H & Hne & _);
      [left; by_decide|]. exists errs. split; assumption.
  - apply Hfont_in; by_decide.
  - eexists. split; [reflexivity|].
    apply (Hicon "Test Feature" "This is a test feature description." "ROCKET").
    reflexivity.
  - destruct (Hicon_out "Test Feature" "This is a test feature description."
                "invalid_icon") as (errs & e & msg & -> & _);
      [by_decide|reflexivity].
Defined.

End AllowListFacts.

(** ** The pipeline driver *)

Module PipelineFacts.

Import Validation Schemas Exceptions Orchestrator.

Lemma validate_variant_id_bounds_id self :
  CanonicalData.validate_variant_id_bounds self = self.
Proof.
  unfold CanonicalData.validate_variant_id_bounds.
  destruct (CanonicalData.content self); [|reflexivity].
  destruct (0 <? _); [|reflexivity]. destruct (_ <? _); reflexivity.
Qed.

Lemma assign_instance {A : Type} self name (from_json : Json.t -> V A)
    (store : A -> CanonicalData.t) (a : A) :
  CanonicalData.assign self name from_json store (Instance a) = (store a, None).
Proof.
  unfold CanonicalData.assign. cbn. rewrite validate_variant_id_bounds_id.
  reflexivity.
Qed.

Lemma literal_field_member allowed s :
  In s allowed -> literal_field allowed s = ok s.
Proof.
  intros Hin. unfold literal_field.
  replace (existsb (String.eqb s) allowed) with true; [reflexivity|].
  symmetry. apply existsb_exists. exists s. split; [exact Hin|].
  apply String.eqb_refl.
Qed.

Lemma RenderConfig_new_member template_type :
  In template_type TemplateType ->
  RenderConfig.new template_type 0 = ok (RenderConfig.mk template_type 0).
Proof.
  intros Hin. unfold RenderConfig.new.
  rewrite (literal_field_member _ _ Hin). reflexivity.
Qed.

Section Landing.

    Context {lax : Lax}.
Variables (year : Z) (renderer : Renderer.TemplateRenderer)
          (llm : CanonicalData.t -> Exc PyException LandingContent.t).

(** Stage 3 writes [assets] and [content] only. *)
Lemma landing_run_frame data data' r :
  LandingAgent.run year renderer llm data = (data', r) ->
  CanonicalData.meta data' = CanonicalData.meta data
  /\ CanonicalData.project data' = CanonicalData.project data
  /\ CanonicalData.brand data' = CanonicalData.brand data
  /\ CanonicalData.render data' = CanonicalData.render data.
Proof.
  unfold LandingAgent.run.
  destruct (LandingAgent._generate_content llm data) as [e|content];
    [intros [= <- _]; auto|].
  destruct (LandingAgent._generate_asset_prompts data) as [e|assets];
    [intros [= <- _]; auto|].
  unfold CanonicalData.set_assets, CanonicalData.set_content.
  rewrite !assign_instance. cbn [CanonicalData.meta CanonicalData.project
    CanonicalData.brand CanonicalData.content CanonicalData.assets
    CanonicalData.render].
  destruct (Renderer.render_landing _ _ _ _ _); intros [= <- _]; auto.
Qed.

Lemma landing_run_content data data' content html :
  LandingAgent.run year renderer llm data = (data', inr (content, html)) ->
  CanonicalData.content data' = Some content.
Proof.
  unfold LandingAgent.run.
  destruct (LandingAgent._generate_content llm data) as [e|content0];
    [intros H; inversion H|].
  destruct (LandingAgent._generate_asset_prompts data) as [e|assets];
    [intros H; inversion H|].
  unfold CanonicalData.set_assets, CanonicalData.set_content.
  rewrite !assign_instance.
  destruct (Renderer.render_landing _ _ _ _ _); intros H; inversion H.
  reflexivity.
Qed.

End Landing.

Section Driver.

    Context {lax : Lax}.
Variables (str_ValidationError : ValidationError -> string) (now : string)
          (year : Z) (renderer : Renderer.TemplateRenderer)
          (OnboardingAgent_run : UserInput.t -> Exc PyException ProjectInfo.t)
          (BrandAgent_run : ProjectInfo.t -> Exc PyException BrandIdentity.t)
          (llm : CanonicalData.t -> Exc PyException LandingContent.t).

(** C8. When stage 1 succeeds and stage 2 fails, the driver hands stage 3
    a document whose brand is [DefaultBrand.IDENTITY], whose stage log
    records the substitution ("brand:fallback") and whose error list
    holds the warning.  When stage 3 then succeeds, [run] returns that
    stage's markup with a document that keeps the default brand, holds
    the content and logs the three stages; the warning is the only
    entry of [errors]. *)
Theorem brand_failure_recovery user_input project_info e :
  In (UserInput.template_type user_input) TemplateType ->
  OnboardingAgent_run user_input = ok project_info ->
  BrandAgent_run project_info = raise e ->
  let warning :=
    "BrandAgent failed (using defaults): " +:+ Exceptions.str str_ValidationError e in
  let created :=
    create_canonical now project_info
      (RenderConfig.mk (UserInput.template_type user_input) 0) in
  exists c2,
    brand_stage str_ValidationError BrandAgent_run created project_info []
    = ok (c2, [warning])
    /\ CanonicalData.brand c2 = Some DefaultBrand.IDENTITY
    /\ GenerationMeta.pipeline_steps (CanonicalData.meta c2)
       = ["onboarding"; "brand:fallback"]
    /\ forall c3 content html,
        LandingAgent.run year renderer llm c2 = (c3, ok (content, html)) ->
        exists d,
          run str_ValidationError now year renderer OnboardingAgent_run
            BrandAgent_run llm user_input
          = ok (mkPipelineResult (Some d) html false [warning])
          /\ CanonicalData.brand d = Some DefaultBrand.IDENTITY
          /\ CanonicalData.content d = Some content
          /\ GenerationMeta.pipeline_steps (CanonicalData.meta d)
             = ["onboarding"; "brand:fallback"; "landing"].
Proof.
  intros Htt H1 H2 warning created.
  assert (Hstage : brand_stage str_ValidationError BrandAgent_run created
                     project_info []
                   = ok (CanonicalData.add_step
                           (CanonicalData.mk (CanonicalData.meta created)
                              (CanonicalData.project created)
                              (Some DefaultBrand.IDENTITY)
                              (CanonicalData.content created)
                              (CanonicalData.assets created)
                              (CanonicalData.render created))
                           "brand:fallback", [warning])).
  { unfold brand_stage. rewrite H2. unfold raise.
    unfold CanonicalData.set_brand. rewrite assign_instance. reflexivity. }
  eexists. split; [exact Hstage|]. split; [reflexivity|].
  split.
  { subst created. unfold create_canonical, CanonicalData.new.
    rewrite validate_variant_id_bounds_id. reflexivity. }
  intros c3 content html H3.
  pose proof (landing_run_frame _ _ _ _ _ _ H3) as (Hmeta & _ & Hbrand & _).
  unfold run. rewrite H1.
  rewrite (RenderConfig_new_member _ Htt). unfold ok.
  cbn [lift_schema exc_bind].
  fold created. rewrite Hstage. unfold ok. cbn [exc_bind fst snd].
  unfold ok in H3. rewrite H3.
  unfold CanonicalData.set_content. rewrite assign_instance.
  eexists. split; [reflexivity|].
  cbn [CanonicalData.add_step CanonicalData.brand CanonicalData.content
       CanonicalData.meta GenerationMeta.pipeline_steps].
  rewrite Hbrand, Hmeta. split; [reflexivity|]. split; [reflexivity|].
  subst created. unfold create_canonical, CanonicalData.new.
  rewrite validate_variant_id_bounds_id. reflexivity.
Qed.

End Driver.

(** A run on the fixtures with a failing brand stage. *)
Lemma brand_failure_recovery_example :
  exists d,
    run (lax := Fixtures.lax_example) Fixtures.str_stub "2024-01-01T00:00:00"
      2024 Fixtures.full_renderer
      Fixtures.onboarding_stub Fixtures.failing_brand_stub Fixtures.content_stub
      Fixtures.example_user_input
    = ok (mkPipelineResult (Some d) "Welcome to TestProduct|Get Started" false
            ["BrandAgent failed (using defaults): no JSON in response"])
    /\ CanonicalData.brand d = Some DefaultBrand.IDENTITY
    /\ GenerationMeta.pipeline_steps (CanonicalData.meta d)
       = ["onboarding"; "brand:fallback"; "landing"].
Proof.
  destruct (brand_failure_recovery (lax := Fixtures.lax_example)
              Fixtures.str_stub "2024-01-01T00:00:00" 2024
              Fixtures.full_renderer Fixtures.onboarding_stub
              Fixtures.failing_brand_stub Fixtures.content_stub
              Fixtures.example_user_input Fixtures.valid_project_info
              (LLMFailure "no JSON in response")
              (or_introl eq_refl) eq_refl eq_refl)
    as (c2 & Hc2 & _ & _ & H3).
  injection Hc2 as <-.
  destruct (H3 _ _ _ eq_refl) as (d & Hrun & Hb & _ & Hs).
  exists d. split; [exact Hrun|]. split; [exact Hb|exact Hs].
Defined.

End PipelineFacts.

(** ** Serialization round trip *)

Module RoundTripFacts.

Import Validation ValidationFacts Schemas Invariants PyStr PyStrFacts.
Import AllowListFacts PipelineFacts.

  (** *** Fields *)

Lemma str_field_ok strip_whitespace min_length max_length s :
  StrOk strip_whitespace min_length max_length s ->
  str_field strip_whitespace min_length max_length s = ok s.
Proof.
  intros (Htrim & Hmin & Hmax). unfold str_field.
  assert (Hs : (if strip_whitespace then trim s else s) = s)
    by (destruct strip_whitespace; [exact Htrim|reflexivity]).
  rewrite Hs.
  destruct min_length as [m|];
    [destruct (Z.ltb_spec (len s) m); [lia|]|];
    (destruct max_length as [m'|];
     [destruct (Z.ltb_spec m' (len s)); [lia|]|]); reflexivity.
Qed.

Lemma str_json_ok strip_whitespace min_length max_length s :
  StrOk strip_whitespace min_length max_length s ->
  Decode.str_json strip_whitespace min_length max_length (JStr s) = ok s.
Proof. intros H. unfold Decode.str_json. cbn. apply str_field_ok, H. Qed.

Lemma list_len_field_ok {A : Type} min_length max_length (l : list A) :
  LenOk min_length max_length l ->
  list_len_field min_length max_length l = ok l.
Proof.
  intros (Hmin & Hmax). unfold list_len_field.
  destruct min_length as [m|];
    [destruct (Z.ltb_spec (Z.of_nat (length l)) m); [lia|]|];
    (destruct max_length as [m'|];
     [destruct (Z.ltb_spec m' (Z.of_nat (length l))); [lia|]|]); reflexivity.
Qed.

Lemma items_ok {A : Type} (f : Json.t -> V A) (g : A -> Json.t) (l : list A) :
  Forall (fun x => f (g x) = ok x) l ->
  forall i, Decode.items f (map g l) i = ok l.
Proof.
  induction 1 as [|x l Hx _ IH]; intros i; [reflexivity|].
  cbn [map Decode.items]. rewrite Hx, IH. reflexivity.
Qed.


Lemma items_max_ok {A : Type} max_length (f : Json.t -> V A) (g : A -> Json.t)
    (l : list A) :
  Z.of_nat (length l) <= max_length ->
  Forall (fun x => f (g x) = ok x) l ->
  Decode.as_list_max max_length f (JList (map g l)) = ok l.
Proof.
  intros Hlen Hl. cbn [Decode.as_list_max]. rewrite length_map.
  destruct (Z.ltb_spec max_length (Z.of_nat (length l))); [lia|].
  apply items_ok, Hl.
Qed.

Lemma strs_max_ok max_length (l : list string) :
  Z.of_nat (length l) <= max_length ->
  Decode.as_list_max max_length Decode.as_str (Encode.strs l) = ok l.
Proof.
  intros Hlen. unfold Encode.strs. apply items_max_ok; [exact Hlen|].
  apply Forall_forall. reflexivity.
Qed.




(** Looking a literal key up in the object an encoder builds. *)
Ltac lookup_fields :=
  unfold Decode.required, Decode.defaulted; cbn [Json.field];
  repeat match goal with
         | |- context [String.eqb ?a ?b] =>
             let r := eval vm_compute in (String.eqb a b) in
             change (String.eqb a b) with r; cbv beta iota
         end.

Ltac vap_done x := destruct x; unfold ok; cbn [vap at_loc exc_bind]; reflexivity.

  (** *** Entities *)





Lemma Stripped_Trimmed s : Stripped s -> Trimmed s.
Proof. intros [Hs _]. unfold Trimmed. rewrite <- Hs. apply trim_strip. Qed.

Lemma Stripped_truthy s : Stripped s -> truthy (strip s) = true.
Proof. intros [Hs Hne]. rewrite Hs. destruct s; [contradiction|reflexivity]. Qed.

Lemma filter_all {A : Type} (p : A -> bool) (l : list A) :
  Forall (fun x => p x = true) l -> List.filter p l = l.
Proof.
  induction 1 as [|x l Hx _ IH]; [reflexivity|].
  cbn [List.filter]. rewrite Hx, IH. reflexivity.
Qed.

Lemma map_fixed {A : Type} (f : A -> A) (l : list A) :
  Forall (fun x => f x = x) l -> map f l = l.
Proof.
  induction 1 as [|x l Hx _ IH]; [reflexivity|].
  cbn [map]. rewrite Hx, IH. reflexivity.
Qed.

(** A list of stripped, non-empty strings passes the filters of the
    list validators unchanged. *)
Lemma strip_filter_fixed (l : list string) :
  Forall Stripped l ->
  map strip (List.filter (fun s => truthy (strip s)) l) = l.
Proof.
  intros H. rewrite filter_all.
  - apply map_fixed. eapply Forall_impl; [exact H|]. intros s [Hs _]. exact Hs.
  - eapply Forall_impl; [exact H|]. apply Stripped_truthy.
Qed.

Lemma keywords_field_ok (l : list string) :
  LenOk (Some 3) (Some 7) l ->
  Forall (fun kw => Stripped kw /\ lower kw = kw) l ->
  ProjectInfo.keywords_field l = ok l.
Proof.
  intros Hlen H. unfold ProjectInfo.keywords_field.
  rewrite (map_fixed trim).
  2:{ eapply Forall_impl; [exact H|]. intros s [Hs _]. apply Stripped_Trimmed, Hs. }
  rewrite (list_len_field_ok _ _ _ Hlen). cbn [exc_bind ok].
  unfold ProjectInfo.validate_keywords.
  rewrite filter_all.
  2:{ eapply Forall_impl; [exact H|]. intros s [Hs _]. apply Stripped_truthy, Hs. }
  rewrite (map_fixed (fun kw => lower (strip kw))).
  2:{ eapply Forall_impl; [exact H|]. intros s [[Hs _] Hl]. rewrite Hs. exact Hl. }
  destruct Hlen as [Hmin _].
  destruct (Z.ltb_spec (Z.of_nat (length l)) 3); [lia|reflexivity].
Qed.

Lemma tone_field_ok tone :
  In tone ToneType -> ProjectInfo.tone_field tone = ok tone.
Proof.
  intros Hin. unfold ProjectInfo.tone_field.
  rewrite (literal_field_member _ _ Hin). cbn [exc_bind ok].
  unfold ProjectInfo.validate_tone_exists, in_keys.
  replace (existsb (String.eqb tone) TONE_PRESETS_keys) with true; [reflexivity|].
  symmetry. apply existsb_exists. exists tone. split; [exact Hin|].
  apply String.eqb_refl.
Qed.

Lemma ProjectInfo_roundtrip x :
  ProjectInfo_valid x -> ProjectInfo.from_json (ProjectInfo.to_json x) = ok x.
Proof.
  intros (H1 & H2 & H3 & H4 & H5 & H6 & H7 & H8).
  unfold ProjectInfo.from_json, ProjectInfo.to_json. lookup_fields.
  rewrite !str_json_ok by assumption.
  cbn [Decode.as_str exc_bind ok]. rewrite (tone_field_ok _ H6).
  rewrite (strs_max_ok 7) by (destruct H7 as [_ H7]; exact H7).
  cbn [exc_bind ok]. rewrite (keywords_field_ok _ H7 H8).
  vap_done x.
Qed.
















Ltac valid_by_computation :=
  repeat match goal with
         | |- _ /\ _ => split
         | |- Forall _ _ => constructor
         | |- True => exact I
         | |- In _ _ => cbn; tauto
         | |- _ ∈ _ => by_decide
         | |- _ <> _ => discriminate
         | |- (_ <= _)%nat => apply Nat.leb_le; vm_compute; reflexivity
         | |- _ <= _ => apply Z.leb_le; vm_compute; reflexivity
         | |- _ = _ => vm_compute; reflexivity
         end.

Lemma valid_canonical_data_valid :
  CanonicalData_valid Fixtures.valid_canonical_data.
Proof.
  unfold CanonicalData_valid, GenerationMeta_valid, ProjectInfo_valid,
    opt_valid, BrandIdentity_valid, ColorPalette_valid, Typography_valid,
    LandingContent_valid, HeroSection_valid, Feature_valid, Testimonial_valid,
    ContentVariants_valid, AssetSlots_valid, OptStrOk, RenderConfig_valid,
    StrOk, LenOk, Stripped, Trimmed.
  cbn -[trim strip lower len split_dot matches_HEX_COLOR_PATTERN ALLOWED_FONTS
        ALLOWED_ICONS Z.le In].
  valid_by_computation.
Qed.




End RoundTripFacts.

(** ** Construction establishes the invariants *)

Module ConstructionFacts.

Import Validation ValidationFacts Schemas Invariants PyStr PyStrFacts.
Import AllowListFacts.

(** Reading a successful construction back into its fields. *)
Ltac vap_inv H :=
  unfold ok in H;
  lazymatch type of H with
  | _ <*> _ = inr _ =>
      let f := fresh "f" in
      let a := fresh "a" in
      let Ha := fresh "Ha" in
      apply vap_inr_inv in H as (f & a & H & Ha & ->);
      first [apply at_loc_inr_inv in Ha | idtac];
      vap_inv H
  | _ => injection H as <-
  end.

Lemma str_field_valid strip_whitespace min_length max_length s s' :
  str_field strip_whitespace min_length max_length s = inr s' ->
  StrOk strip_whitespace min_length max_length s'.
Proof.
  unfold str_field, StrOk.
  set (s0 := if strip_whitespace then trim s else s).
  assert (Ht : if strip_whitespace then Trimmed s0 else True).
  { subst s0. destruct strip_whitespace; [apply trim_idem|exact I]. }
  destruct min_length as [m|];
    [destruct (Z.ltb_spec (len s0) m); [unfold fail, raise; discriminate|]|];
    (destruct max_length as [m'|];
     [destruct (Z.ltb_spec m' (len s0)); [unfold fail, raise; discriminate|]|]);
    unfold ok; intros [= <-]; auto.
Qed.

Lemma list_len_field_valid {A : Type} min_length max_length (l l' : list A) :
  list_len_field min_length max_length l = inr l' ->
  l' = l /\ LenOk min_length max_length l.
Proof.
  unfold list_len_field, LenOk.
  destruct min_length as [m|];
    [destruct (Z.ltb_spec (Z.of_nat (length l)) m); [unfold fail, raise; discriminate|]|];
    (destruct max_length as [m'|];
     [destruct (Z.ltb_spec m' (Z.of_nat (length l))); [unfold fail, raise; discriminate|]|]);
    unfold ok; intros [= <-]; auto.
Qed.

Lemma literal_field_valid allowed s s' :
  literal_field allowed s = inr s' -> s' = s /\ In s allowed.
Proof.
  unfold literal_field. destruct (existsb (String.eqb s) allowed) eqn:E;
    [|discriminate].
  unfold ok; intros [= <-]. split; [reflexivity|].
  apply existsb_exists in E as (x & Hx & Heq).
  apply String.eqb_eq in Heq as ->. exact Hx.
Qed.

Lemma Forall_map_filter {A B : Type} (Q : B -> Prop) (f : A -> B)
    (p : A -> bool) (l : list A) :
  (forall x, p x = true -> Q (f x)) -> Forall Q (map f (List.filter p l)).
Proof.
  intros H. induction l as [|x l IH]; cbn [List.filter map]; [constructor|].
  destruct (p x) eqn:E; [|exact IH]. cbn [map]. constructor; [apply H, E|exact IH].
Qed.

Lemma filter_length_le {A : Type} (p : A -> bool) (l : list A) :
  (length (List.filter p l) <= length l)%nat.
Proof.
  induction l as [|x l IH]; cbn [List.filter]; [lia|].
  destruct (p x); cbn [length]; lia.
Qed.

Lemma Stripped_strip s : truthy (strip s) = true -> Stripped (strip s).
Proof.
  intros H. split; [apply strip_idem|]. intros E. rewrite E in H. discriminate.
Qed.

Lemma strip_filter_valid (l : list string) :
  Forall Stripped (map strip (List.filter (fun s => truthy (strip s)) l)).
Proof. apply Forall_map_filter. intros s. apply Stripped_strip. Qed.

Lemma keywords_field_valid (l l' : list string) :
  ProjectInfo.keywords_field l = inr l' ->
  LenOk (Some 3) (Some 7) l'
  /\ Forall (fun kw => Stripped kw /\ lower kw = kw) l'.
Proof.
  unfold ProjectInfo.keywords_field.
  destruct (list_len_field (Some 3) (Some 7) (map trim l)) as [e|v] eqn:E;
    [unfold fail, raise; discriminate|].
  apply list_len_field_valid in E as (-> & _ & Hmax).
  cbn [exc_bind]. unfold ProjectInfo.validate_keywords.
  destruct (Z.ltb_spec
              (Z.of_nat (length (map (fun kw => lower (strip kw))
                                   (List.filter (fun kw => truthy (strip kw))
                                      (map trim l))))) 3) as [|Hmin];
    [unfold fail, raise; discriminate|].
  unfold ok; intros [= <-]. split; [split|].
  - exact Hmin.
  - rewrite length_map.
    pose proof (filter_length_le (fun kw => truthy (strip kw)) (map trim l)).
    lia.
  - apply Forall_map_filter. intros kw Hkw. split; [split|].
    + rewrite strip_lower, strip_idem. reflexivity.
    + intros E. rewrite <- truthy_lower, E in Hkw. discriminate.
    + apply lower_idem.
Qed.

Lemma tone_field_valid tone tone' :
  ProjectInfo.tone_field tone = inr tone' -> In tone' ToneType.
Proof.
  unfold ProjectInfo.tone_field.
  destruct (literal_field ToneType tone) as [e|v] eqn:E; [unfold fail, raise; discriminate|].
  apply literal_field_valid in E as (-> & Hin).
  cbn [exc_bind]. unfold ProjectInfo.validate_tone_exists.
  destruct (negb _); [unfold fail, raise; discriminate|]. unfold ok; intros [= <-]. exact Hin.
Qed.

Lemma ProjectInfo_new_valid product_name tagline description target_audience
    value_proposition tone keywords x :
  ProjectInfo.new product_name tagline description target_audience
    value_proposition tone keywords = ok x ->
  ProjectInfo_valid x.
Proof.
  unfold ProjectInfo.new. intros H. vap_inv H.
  cbn [ProjectInfo_valid ProjectInfo.product_name ProjectInfo.tagline
       ProjectInfo.description ProjectInfo.target_audience
       ProjectInfo.value_proposition ProjectInfo.tone ProjectInfo.keywords].
  unfold ProjectInfo_valid; cbn.
  repeat match goal with
         | Hs : str_field _ _ _ _ = inr _ |- _ => apply str_field_valid in Hs
         end.
  match goal with Hk : ProjectInfo.keywords_field _ = inr _ |- _ =>
    apply keywords_field_valid in Hk as (? & ?) end.
  match goal with Ht : ProjectInfo.tone_field _ = inr _ |- _ =>
    apply tone_field_valid in Ht end.
  auto 10.
Qed.

Lemma HeroSection_new_valid headline subheadline cta_text x :
  HeroSection.new headline subheadline cta_text = ok x -> HeroSection_valid x.
Proof.
  unfold HeroSection.new. intros H. vap_inv H.
  unfold HeroSection_valid; cbn.
  repeat match goal with
         | Hs : str_field _ _ _ _ = inr _ |- _ => apply str_field_valid in Hs
         end.
  auto.
Qed.

Lemma Testimonial_new_valid quote author role x :
  Testimonial.new quote author role = ok x -> Testimonial_valid x.
Proof.
  unfold Testimonial.new. intros H. vap_inv H.
  unfold Testimonial_valid; cbn.
  repeat match goal with
         | Hs : str_field _ _ _ _ = inr _ |- _ => apply str_field_valid in Hs
         end.
  auto.
Qed.

Lemma Feature_new_valid title description icon x :
  Feature.new title description icon = ok x -> Feature_valid x.
Proof.
  unfold Feature.new. intros H. vap_inv H.
  unfold Feature_valid; cbn.
  repeat match goal with
         | Hs : str_field _ _ _ _ = inr _ |- _ => apply str_field_valid in Hs
         end.
  match goal with Hi : Feature.icon_field _ = inr _ |- _ =>
    rewrite icon_field_validate_icon, validate_icon_result in Hi;
    destruct (bool_decide _) eqn:Hb in Hi; [|discriminate Hi];
    injection Hi as <-; apply bool_decide_eq_true_1 in Hb
  end.
  auto.
Qed.

Lemma ColorPalette_new_valid primary secondary accent background text x :
  ColorPalette.new primary secondary accent background text = ok x ->
  ColorPalette_valid x.
Proof.
  unfold ColorPalette.new. intros H. vap_inv H.
  unfold ColorPalette_valid; cbn. unfold pattern_field, ok, fail, raise in *.
  repeat match goal with
         | Hp : (if ?b then _ else _) = inr _ |- _ =>
             destruct b eqn:?; [injection Hp as <-|discriminate Hp]
         end.
  auto.
Qed.

Lemma Typography_new_valid heading body x :
  Typography.new heading body = ok x -> Typography_valid x.
Proof.
  unfold Typography.new. intros H. vap_inv H.
  unfold Typography_valid; cbn -[ALLOWED_FONTS].
  unfold Typography.validate_font, ok, fail, raise in *.
  repeat match goal with
         | Hp : (if negb (bool_decide ?P) then _ else _) = inr _ |- _ =>
             let Hb := fresh "Hb" in
             destruct (bool_decide P) eqn:Hb;
             [injection Hp as <-; apply bool_decide_eq_true_1 in Hb
             |discriminate Hp]
         end.
  auto.
Qed.

Lemma tone_rules_field_valid (l l' : list string) :
  BrandIdentity.tone_rules_field l = inr l' ->
  LenOk (Some 2) (Some 5) l' /\ Forall Stripped l'.
Proof.
  unfold BrandIdentity.tone_rules_field.
  destruct (list_len_field (Some 2) (Some 5) l) as [e|v] eqn:E;
    [unfold fail, raise; discriminate|].
  apply list_len_field_valid in E as (-> & _ & Hmax).
  cbn [exc_bind]. unfold BrandIdentity.validate_tone_rules_not_empty.
  destruct (Z.ltb_spec
              (Z.of_nat (length (map strip
                                   (List.filter (fun rule => truthy (strip rule)) l))))
              2) as [|Hmin];
    [unfold fail, raise; discriminate|].
  unfold ok; intros [= <-].
  split; [split; [exact Hmin|]|apply strip_filter_valid].
  rewrite length_map.
  pose proof (filter_length_le (fun s => truthy (strip s)) l). lia.
Qed.

Lemma BrandIdentity_new_valid colors fonts tone_rules x :
  ColorPalette_valid colors -> Typography_valid fonts ->
  BrandIdentity.new colors fonts tone_rules = ok x -> BrandIdentity_valid x.
Proof.
  intros Hc Hf. unfold BrandIdentity.new. intros H. vap_inv H.
  unfold BrandIdentity_valid.
  cbn [BrandIdentity.colors BrandIdentity.fonts BrandIdentity.tone_rules].
  match goal with Hr : BrandIdentity.tone_rules_field _ = inr _ |- _ =>
    apply tone_rules_field_valid in Hr as (? & ?) end.
  auto.
Qed.

Lemma variants_field_valid (l l' : list string) :
  ContentVariants.variants_field l = inr l' ->
  LenOk None (Some 3) l' /\ Forall Stripped l'.
Proof.
  unfold ContentVariants.variants_field.
  destruct (list_len_field None (Some 3) l) as [e|v] eqn:E; [unfold fail, raise; discriminate|].
  apply list_len_field_valid in E as (-> & _ & Hmax).
  cbn [exc_bind]. unfold ok; intros [= <-].
  unfold ContentVariants.validate_variants_not_empty_strings.
  split; [split; [exact I|]|apply strip_filter_valid].
  rewrite length_map.
  pose proof (filter_length_le (fun s => truthy (strip s)) l). lia.
Qed.

Lemma ContentVariants_new_valid headlines ctas x :
  ContentVariants.new headlines ctas = ok x -> ContentVariants_valid x.
Proof.
  unfold ContentVariants.new. intros H. vap_inv H.
  unfold ContentVariants_valid; cbn.
  repeat match goal with
         | Hv : ContentVariants.variants_field _ = inr _ |- _ =>
             apply variants_field_valid in Hv as (? & ?)
         end.
  auto.
Qed.

Lemma RenderConfig_new_valid template_type variant_id x :
  RenderConfig.new template_type variant_id = ok x -> RenderConfig_valid x.
Proof.
  unfold RenderConfig.new. intros H. vap_inv H.
  unfold RenderConfig_valid; cbn.
  match goal with Hl : literal_field _ _ = inr _ |- _ =>
    apply literal_field_valid in Hl as (-> & ?) end.
  match goal with Hi : int_range_field _ _ _ = inr _ |- _ =>
    unfold int_range_field in Hi;
    destruct (Z.ltb_spec variant_id 0) in Hi; [discriminate Hi|];
    destruct (Z.ltb_spec 10 variant_id) in Hi; [discriminate Hi|];
    injection Hi as <-
  end.
  split; [assumption|lia].
Qed.

Lemma GenerationMeta_new_valid schema_version generated_at pipeline_steps x :
  GenerationMeta.new schema_version generated_at pipeline_steps = ok x ->
  GenerationMeta_valid x.
Proof.
  unfold GenerationMeta.new. intros H. vap_inv H.
  unfold GenerationMeta_valid; cbn.
  match goal with Hv : GenerationMeta.validate_schema_version _ = inr _ |- _ =>
    unfold GenerationMeta.validate_schema_version in Hv;
    destruct (Z.ltb_spec (Z.of_nat (length (split_dot schema_version))) 2) in Hv;
      [discriminate Hv|];
    destruct (bool_decide (split_dot schema_version !! 0%nat = _)) eqn:H0 in Hv;
      [|discriminate Hv];
    destruct (bool_decide (split_dot schema_version !! 1%nat = _)) eqn:H1 in Hv;
      [|discriminate Hv];
    injection Hv as <-;
    apply bool_decide_eq_true_1 in H0; apply bool_decide_eq_true_1 in H1
  end.
  split; [lia|]. split; assumption.
Qed.

(** The defaults and the fallback brand are valid. *)
Lemma defaults_valid now :
  GenerationMeta_valid (GenerationMeta.default now)
  /\ AssetSlots_valid AssetSlots.default
  /\ RenderConfig_valid RenderConfig.default
  /\ ContentVariants_valid ContentVariants.default
  /\ BrandIdentity_valid DefaultBrand.IDENTITY.
Proof.
  unfold GenerationMeta_valid, AssetSlots_valid, RenderConfig_valid,
    ContentVariants_valid, BrandIdentity_valid, ColorPalette_valid,
    Typography_valid, OptStrOk, LenOk, Stripped.
  cbn -[trim strip lower len split_dot matches_HEX_COLOR_PATTERN ALLOWED_FONTS
        ALLOWED_ICONS Z.le In].
  RoundTripFacts.valid_by_computation.
Qed.

(** The document the driver creates after stage 1 is valid. *)
Lemma created_document_valid now project_info render_config :
  ProjectInfo_valid project_info -> RenderConfig_valid render_config ->
  CanonicalData_valid
    (Orchestrator.create_canonical now project_info render_config).
Proof.
  intros Hp Hr.
  destruct (defaults_valid now) as (Hm & Ha & _).
  unfold Orchestrator.create_canonical, CanonicalData.new.
  rewrite PipelineFacts.validate_variant_id_bounds_id.
  unfold CanonicalData_valid, CanonicalData.add_step.
  cbn [CanonicalData.meta CanonicalData.project CanonicalData.brand
       CanonicalData.content CanonicalData.assets CanonicalData.render
       opt_valid].
  split; [exact Hm|]. split; [exact Hp|]. split; [exact I|].
  split; [exact I|]. split; [exact Ha|exact Hr].
Qed.

End ConstructionFacts.

(** ** Rendering: what does not change the page *)

Module RenderExtras.

Import Schemas Errors Renderer.

Lemma resolve_variant_nonpositive default (variants : list string) v :
  v <= 0 -> _resolve_variant default variants v = default.
Proof.
  intros Hv. unfold _resolve_variant.
  destruct ((v =? 0) || _) eqn:E; [reflexivity|].
  apply orb_false_elim in E as [E _]. apply Z.eqb_neq in E.
  destruct (Z.leb_spec 0 (v - 1)); [lia|]. reflexivity.
Qed.

Lemma resolve_clamp_outside default (variants : list string) cv v :
  v < 1 \/ Z.of_nat (length (ContentVariants.headlines cv)) < v ->
  _resolve_variant default variants (_clamp_variant_id v cv) = default.
Proof.
  intros Hv. rewrite RendererFacts.clamp_spec.
  destruct (Z.ltb_spec (Z.of_nat (length (ContentVariants.headlines cv))) v).
  - reflexivity.
  - apply resolve_variant_nonpositive. lia.
Qed.

(** The variant id reaches the page only through the two resolved texts. *)
Lemma render_landing_by_texts year self data c template_override v1 v2 :
  CanonicalData.content data = Some c ->
  (forall default variants,
      _resolve_variant default variants
        (_clamp_variant_id (requested_variant data v1) (LandingContent.variants c))
      = _resolve_variant default variants
          (_clamp_variant_id (requested_variant data v2) (LandingContent.variants c))) ->
  TemplateRenderer_render_landing year self data template_override v1
  = TemplateRenderer_render_landing year self data template_override v2.
Proof.
  intros Hc H. unfold TemplateRenderer_render_landing. rewrite Hc.
  destruct (get_template self _); try reflexivity.
  fold (requested_variant data v1) (requested_variant data v2).
  rewrite !H. reflexivity.
Qed.

Lemma render_landing_no_content year self data template_override v1 v2 :
  CanonicalData.content data = None ->
  TemplateRenderer_render_landing year self data template_override v1
  = TemplateRenderer_render_landing year self data template_override v2.
Proof.
  intros Hc. unfold TemplateRenderer_render_landing. rewrite Hc. reflexivity.
Qed.

(** X1. A variant id outside [1 .. len(headlines)], negative ids included,
    gives exactly the page of variant 0: the same markup, or the same
    error when the template is missing. *)
Theorem variant_outside_range_renders_variant_zero
    year self data c template_override v :
  CanonicalData.content data = Some c ->
  v < 1 \/ Z.of_nat (length (ContentVariants.headlines (LandingContent.variants c))) < v ->
  TemplateRenderer_render_landing year self data template_override (Some v)
  = TemplateRenderer_render_landing year self data template_override (Some 0).
Proof.
  intros Hc Hv. apply (render_landing_by_texts _ _ _ c); [exact Hc|].
  intros default variants. cbn [requested_variant].
  rewrite (resolve_clamp_outside _ _ _ v) by exact Hv.
  rewrite (resolve_clamp_outside _ _ _ 0) by lia.
  reflexivity.
Qed.

Lemma variant_outside_range_renders_variant_zero_example :
  TemplateRenderer_render_landing 2024 Fixtures.full_renderer
    Fixtures.example_data (Some "app") (Some (-1))
  = TemplateRenderer_render_landing 2024 Fixtures.full_renderer
      Fixtures.example_data (Some "app") (Some 0)
  /\ TemplateRenderer_render_landing 2024 Fixtures.full_renderer
       Fixtures.example_data (Some "app") (Some 0)
     = ok "Welcome to TestProduct|Get Started".
Proof.
  split.
  - apply (variant_outside_range_renders_variant_zero 2024 Fixtures.full_renderer
             Fixtures.example_data Fixtures.example_content (Some "app") (-1)).
    + reflexivity.
    + left. lia.
  - reflexivity.
Defined.

Lemma effective_variant_id_clamp data c :
  CanonicalData.content data = Some c ->
  CanonicalData.get_effective_variant_id data
  = _clamp_variant_id (RenderConfig.variant_id (CanonicalData.render data))
      (LandingContent.variants c).
Proof.
  intros Hc. unfold CanonicalData.get_effective_variant_id. rewrite Hc.
  rewrite RendererFacts.clamp_spec, RendererFacts.max_variant_id_length.
  reflexivity.
Qed.

Lemma clamp_idem v cv :
  _clamp_variant_id (_clamp_variant_id v cv) cv = _clamp_variant_id v cv.
Proof.
  rewrite !RendererFacts.clamp_spec.
  destruct (Z.ltb_spec (Z.of_nat (length (ContentVariants.headlines cv))) v) as [H|H].
  - destruct (Z.ltb_spec (Z.of_nat (length (ContentVariants.headlines cv))) 0);
      [lia|reflexivity].
  - destruct (Z.ltb_spec (Z.of_nat (length (ContentVariants.headlines cv))) v);
      [lia|reflexivity].
Qed.

(** X2. Rendering a document with no variant override is rendering it with
    the override [data.get_effective_variant_id()]: the schema's clamp and
    the renderer's clamp select the same page, and the same error when
    there is one. *)
Theorem render_landing_at_effective_variant_id year self data template_override :
  TemplateRenderer_render_landing year self data template_override None
  = TemplateRenderer_render_landing year self data template_override
      (Some (CanonicalData.get_effective_variant_id data)).
Proof.
  destruct (CanonicalData.content data) as [c|] eqn:Hc.
  - apply (render_landing_by_texts _ _ _ c); [exact Hc|].
    intros default variants. cbn [requested_variant].
    rewrite (effective_variant_id_clamp data c Hc), clamp_idem. reflexivity.
  - apply render_landing_no_content. exact Hc.
Qed.

Lemma str_or_nonempty t b : t <> "" -> str_or (Some t) b = t.
Proof. intros Ht. destruct t; [congruence|reflexivity]. Qed.

(** X3. Which template is used.  A non-empty [template_override] decides
    alone: [data.render.template_type] is then never read.  With no
    override, or with the empty string as override, the document's own
    [render.template_type] decides. *)
Theorem template_override_precedence year self data variant_override :
  (forall t t', t <> "" ->
     TemplateRenderer_render_landing year self
       (CanonicalData.set_render_template_type data t') (Some t) variant_override
     = TemplateRenderer_render_landing year self data (Some t) variant_override)
  /\ TemplateRenderer_render_landing year self data None variant_override
     = TemplateRenderer_render_landing year self data
         (Some (RenderConfig.template_type (CanonicalData.render data)))
         variant_override
  /\ TemplateRenderer_render_landing year self data (Some "") variant_override
     = TemplateRenderer_render_landing year self data None variant_override.
Proof.
  split; [|split].
  - intros t t' Ht. unfold TemplateRenderer_render_landing.
    cbn [CanonicalData.set_render_template_type CanonicalData.content
         CanonicalData.render CanonicalData.brand CanonicalData.project
         CanonicalData.assets RenderConfig.set_template_type
         RenderConfig.template_type RenderConfig.variant_id].
    rewrite !(str_or_nonempty t) by exact Ht. reflexivity.
  - unfold TemplateRenderer_render_landing.
    destruct (CanonicalData.content data); [|reflexivity].
    replace (str_or (Some (RenderConfig.template_type (CanonicalData.render data)))
               (RenderConfig.template_type (CanonicalData.render data)))
      with (str_or None (RenderConfig.template_type (CanonicalData.render data)));
      [reflexivity|].
    cbn [str_or].
    destruct (RenderConfig.template_type (CanonicalData.render data)); reflexivity.
  - reflexivity.
Qed.

Lemma dict_get_not_key {A : Type} (d : list (string * A)) k default :
  ~ In k (keys d) -> dict_get d k default = default.
Proof.
  induction d as [|[k' v] d IH]; [reflexivity|].
  cbn [keys map fst In dict_get]. intros Hk.
  destruct (String.eqb_spec k k') as [->|_]; [tauto|].
  apply IH. unfold keys. tauto.
Qed.

(** X4. A template type that is not a key of [TEMPLATE_FILES] is rendered
    with the "saas" template: no error is raised for an unknown type,
    whether it comes from the override or from the document. *)
Theorem unknown_template_type_renders_saas year self data variant_override t :
  ~ In t (keys TEMPLATE_FILES) ->
  (t <> "" ->
   TemplateRenderer_render_landing year self data (Some t) variant_override
   = TemplateRenderer_render_landing year self data (Some "saas") variant_override)
  /\ (RenderConfig.template_type (CanonicalData.render data) = t ->
      TemplateRenderer_render_landing year self data None variant_override
      = TemplateRenderer_render_landing year self data (Some "saas") variant_override).
Proof.
  intros Hk. split.
  - intros Ht. unfold TemplateRenderer_render_landing.
    rewrite (str_or_nonempty t) by exact Ht.
    rewrite (dict_get_not_key TEMPLATE_FILES t) by exact Hk. reflexivity.
  - intros Ht. unfold TemplateRenderer_render_landing.
    cbn [str_or]. rewrite Ht.
    rewrite (dict_get_not_key TEMPLATE_FILES t) by exact Hk. reflexivity.
Qed.

Lemma unknown_template_type_renders_saas_example :
  TemplateRenderer_render_landing 2024 Fixtures.full_renderer
    Fixtures.example_data (Some "blog") (Some 1)
  = TemplateRenderer_render_landing 2024 Fixtures.full_renderer
      Fixtures.example_data (Some "saas") (Some 1)
  /\ TemplateRenderer_render_landing 2024 Fixtures.full_renderer
       Fixtures.example_data (Some "saas") (Some 1)
     = ok "Alt One|Try It Free".
Proof.
  split.
  - refine (proj1 (unknown_template_type_renders_saas 2024 Fixtures.full_renderer
                     Fixtures.example_data (Some 1) "blog" _) _).
    + cbn. intros [H|[H|[H|[]]]]; discriminate H.
    + discriminate.
  - reflexivity.
Defined.

(** X5. [_resolve_variant] never fails and never indexes from the end of
    the list: a variant id below 1 gives the default, and every result is
    the default or the element at position [variant_id - 1]. *)
Theorem resolve_variant_default_or_indexed default (variants : list string) v :
  (v < 1 -> _resolve_variant default variants v = default)
  /\ (_resolve_variant default variants v = default
      \/ (1 <= v <= Z.of_nat (length variants)
          /\ variants !! Z.to_nat (v - 1)
             = Some (_resolve_variant default variants v))).
Proof.
  split.
  - intros Hv. apply resolve_variant_nonpositive. lia.
  - destruct (Z.le_gt_cases v 0) as [H0|H0].
    + left. apply resolve_variant_nonpositive. exact H0.
    + destruct (Z.le_gt_cases v (Z.of_nat (length variants))) as [H1|H1].
      * right. split; [lia|].
        apply RendererFacts.resolve_variant_in_range. lia.
      * left. apply RendererFacts.resolve_variant_out_of_range. exact H1.
Qed.

End RenderExtras.

(** ** Bulk rendering: when it raises *)

Module BulkExtras.

Import Schemas Errors Renderer.

(** A loop whose body fails or not depending on the element only: it
    returns when no element fails, and raises what the first failing
    element raises. *)
Lemma for_each_cases {E A B : Type} (l : list A) (body : B -> A -> Exc E B)
    (P : A -> Prop) (Q : A -> E -> Prop) :
  (forall acc a, In a l ->
     (exists acc', body acc a = ok acc' /\ P a)
     \/ (exists e, body acc a = raise e /\ Q a e)) ->
  forall acc,
    (exists r, for_each l body acc = ok r /\ forall a, In a l -> P a)
    \/ (exists a e, In a l /\ Q a e /\ for_each l body acc = raise e).
Proof.
  induction l as [|a l IH]; intros Hbody acc.
  - left. exists acc. split; [reflexivity|]. intros a [].
  - cbn [for_each].
    destruct (Hbody acc a (or_introl eq_refl)) as [(acc' & -> & Ha)|(e & -> & Ha)].
    + unfold ok at 1 3. cbn [exc_bind].
      destruct (IH (fun acc0 a0 H0 => Hbody acc0 a0 (or_intror H0)) acc')
        as [(r & Hr & Hall)|(a' & e & Hin & Hq & Hr)].
      * left. exists r. split; [exact Hr|].
        intros a0 [<-|H0]; [exact Ha|exact (Hall a0 H0)].
      * right. exists a', e. split; [right; exact Hin|]. split; assumption.
    + right. exists a, e. split; [left; reflexivity|]. split; [exact Ha|reflexivity].
Qed.

Section Failure.

Variables (year : Z) (renderer : TemplateRenderer) (data : CanonicalData.t).

(** The loops of [render_all_variants] return when every single
    rendering returns, and raise what the first failing one raises. *)
Lemma loops_cases (k : nat) (acc : gmap string string) :
  (exists m,
      for_each (keys TEMPLATE_FILES)
        (fun results template_type =>
           do html <- TemplateRenderer_render_landing year renderer data
                        (Some template_type) (Some 0);
           let results := <[variant_key template_type 0 := html]> results in
           for_each (range_from_1 k)
             (fun results i =>
                do html <- TemplateRenderer_render_landing year renderer data
                             (Some template_type) (Some i);
                ok (<[variant_key template_type i := html]> results))
             results)
        acc = ok m
      /\ forall t i, In t (keys TEMPLATE_FILES) -> In i (variant_ids k) ->
           exists html,
             TemplateRenderer_render_landing year renderer data (Some t) (Some i)
             = ok html)
  \/ (exists t i e,
         In t (keys TEMPLATE_FILES) /\ In i (variant_ids k)
         /\ TemplateRenderer_render_landing year renderer data (Some t) (Some i)
            = raise e
         /\ for_each (keys TEMPLATE_FILES)
              (fun results template_type =>
                 do html <- TemplateRenderer_render_landing year renderer data
                              (Some template_type) (Some 0);
                 let results := <[variant_key template_type 0 := html]> results in
                 for_each (range_from_1 k)
                   (fun results i =>
                      do html <- TemplateRenderer_render_landing year renderer data
                                   (Some template_type) (Some i);
                      ok (<[variant_key template_type i := html]> results))
                   results)
              acc = raise e).
Proof.
  destruct (for_each_cases (keys TEMPLATE_FILES)
              (fun (results : gmap string string) template_type =>
                 do html <- TemplateRenderer_render_landing year renderer data
                              (Some template_type) (Some 0);
                 let results := <[variant_key template_type 0 := html]> results in
                 for_each (range_from_1 k)
                   (fun results i =>
                      do html <- TemplateRenderer_render_landing year renderer data
                                   (Some template_type) (Some i);
                      ok (<[variant_key template_type i := html]> results))
                   results)
              (fun t => forall i, In i (variant_ids k) ->
                 exists html,
                   TemplateRenderer_render_landing year renderer data
                     (Some t) (Some i) = ok html)
              (fun t e => exists i,
                 In i (variant_ids k)
                 /\ TemplateRenderer_render_landing year renderer data
                      (Some t) (Some i) = raise e)) with (acc := acc)
    as [(m & Hm & Hall)|(t & e & Hin & (i & Hi & He) & Hr)].
  - intros results t _.
    destruct (TemplateRenderer_render_landing year renderer data (Some t) (Some 0))
      as [e|html] eqn:E0.
    + right. exists e. split; [reflexivity|].
      exists 0. split; [left; reflexivity|exact E0].
    + cbn [exc_bind].
      destruct (for_each_cases (range_from_1 k)
                  (fun (results : gmap string string) i =>
                     do html <- TemplateRenderer_render_landing year renderer data
                                  (Some t) (Some i);
                     ok (<[variant_key t i := html]> results))
                  (fun i => exists html,
                     TemplateRenderer_render_landing year renderer data
                       (Some t) (Some i) = ok html)
                  (fun i e =>
                     TemplateRenderer_render_landing year renderer data
                       (Some t) (Some i) = raise e))
        with (acc := <[variant_key t 0 := html]> results)
        as [(m & Hm & Hall)|(i & e & Hi & He & Hr)].
      * intros acc0 i _.
        destruct (TemplateRenderer_render_landing year renderer data
                    (Some t) (Some i)) as [e|h] eqn:Ei.
        -- right. exists e. split; reflexivity.
        -- left. eexists. split; [reflexivity|]. exists h. reflexivity.
      * left. exists m. split; [exact Hm|].
        intros i [<-|Hi]; [exists html; exact E0|exact (Hall i Hi)].
      * right. exists e. split; [exact Hr|].
        exists i. split; [right; exact Hi|exact He].
  - left. exists m. split; [exact Hm|]. intros t i Ht Hi. exact (Hall t Ht i Hi).
  - right. exists t, i, e. repeat split; assumption.
Qed.

End Failure.

Lemma file_of_template_type data f :
  In f (map snd TEMPLATE_FILES) ->
  exists t, In t (keys TEMPLATE_FILES) /\ selected_file data (Some t) = f.
Proof.
  cbn [map snd TEMPLATE_FILES In].
  intros [<-|[<-|[<-|[]]]];
    [exists "saas"|exists "app"|exists "agency"];
    (split; [cbn; tauto|reflexivity]).
Qed.

(** What one rendering with content raises: the error of a template file
    that is not found, or an exception of the engine. *)
Lemma single_render_raises year renderer data c t i e :
  CanonicalData.content data = Some c ->
  TemplateRenderer_render_landing year renderer data (Some t) (Some i) = raise e ->
  (get_template renderer (selected_file data (Some t)) = TemplateNotFound
   /\ e = Raised (RenderError
                    ("Template '" +:+ selected_file data (Some t) +:+ "' not found")
                    (Some (selected_file data (Some t))) TEMPLATE_NOT_FOUND))
  \/ (exists e', e = Propagated e').
Proof.
  intros Hc. unfold TemplateRenderer_render_landing. rewrite Hc.
  fold (selected_file data (Some t)).
  destruct (get_template renderer (selected_file data (Some t))) as [|e0|tpl].
  - intros [= <-]. left. split; reflexivity.
  - intros [= <-]. right. eexists. reflexivity.
  - match goal with |- from_engine ?r = _ -> _ => destruct r as [e0|h] end;
      cbn [from_engine]; [|discriminate].
    intros [= <-]. right. eexists. reflexivity.
Qed.

Lemma single_render_loaded year renderer data t i html :
  TemplateRenderer_render_landing year renderer data (Some t) (Some i) = ok html ->
  exists tpl, get_template renderer (selected_file data (Some t)) = Loaded tpl.
Proof.
  unfold TemplateRenderer_render_landing.
  destruct (CanonicalData.content data); [|discriminate].
  fold (selected_file data (Some t)).
  destruct (get_template renderer (selected_file data (Some t))) as [|e0|tpl];
    [discriminate|discriminate|].
  intros _. exists tpl. reflexivity.
Qed.

(** X6. [render_all_variants] returns no partial mapping.  Without content
    it raises the MISSING_CONTENT error of the first rendering.  With
    content and a template file that is not found it raises: the
    TEMPLATE_NOT_FOUND error of one of the three files, or an exception of
    the engine that an earlier rendering let through.  Whatever it raises
    is what one of its single renderings raises.  It returns a mapping
    only when the content is there, all three templates load and every
    single rendering returns. *)
Theorem render_all_variants_failure year renderer data :
  (CanonicalData.content data = None ->
   render_all_variants year renderer data
   = raise (Raised (RenderError "CanonicalData.content is required for rendering"
                      None MISSING_CONTENT)))
  /\ (forall c,
        CanonicalData.content data = Some c ->
        (exists f, In f (map snd TEMPLATE_FILES)
                   /\ get_template renderer f = TemplateNotFound) ->
        exists e,
          render_all_variants year renderer data = raise e
          /\ ((exists f,
                  In f (map snd TEMPLATE_FILES)
                  /\ get_template renderer f = TemplateNotFound
                  /\ e = Raised (RenderError ("Template '" +:+ f +:+ "' not found")
                                   (Some f) TEMPLATE_NOT_FOUND))
              \/ (exists e', e = Propagated e')))
  /\ (forall e,
        render_all_variants year renderer data = raise e ->
        exists t i,
          In t (keys TEMPLATE_FILES)
          /\ TemplateRenderer_render_landing year renderer data (Some t) (Some i)
             = raise e)
  /\ (forall m,
        render_all_variants year renderer data = ok m ->
        exists c,
          CanonicalData.content data = Some c
          /\ (forall f, In f (map snd TEMPLATE_FILES) ->
                exists tpl, get_template renderer f = Loaded tpl)
          /\ (forall t i,
                In t (keys TEMPLATE_FILES) ->
                0 <= i <= Z.of_nat (length (ContentVariants.headlines
                                              (LandingContent.variants c))) ->
                exists html,
                  TemplateRenderer_render_landing year renderer data
                    (Some t) (Some i) = ok html)).
Proof.
  assert (H1 : CanonicalData.content data = None ->
               render_all_variants year renderer data
               = raise (Raised (RenderError
                                  "CanonicalData.content is required for rendering"
                                  None MISSING_CONTENT))).
  { intros Hc. unfold render_all_variants.
    cbn [keys TEMPLATE_FILES map fst for_each].
    unfold TemplateRenderer_render_landing. rewrite Hc. reflexivity. }
  split; [exact H1|]. split; [|split].
  - intros c Hc (f & Hf & Hnone).
    destruct (file_of_template_type data f Hf) as (t & Ht & Hsel).
    unfold render_all_variants.
    match goal with |- context [range_from_1 ?k] => set (n := k) end.
    destruct (loops_cases year renderer data n ∅)
      as [(m & _ & Hall)|(t' & i & e & Ht' & _ & He & Hr)].
    + destruct (Hall t 0 Ht (or_introl eq_refl)) as (html & Hhtml).
      apply single_render_loaded in Hhtml as (tpl & Htpl).
      rewrite Hsel in Htpl. congruence.
    + exists e. split; [exact Hr|].
      destruct (single_render_raises _ _ _ c _ _ _ Hc He) as [(Hnf & ->)|Hp].
      * left. exists (selected_file data (Some t')).
        split; [apply RendererFacts.selected_file_known|].
        split; [exact Hnf|reflexivity].
      * right. exact Hp.
  - intros e He0.
    destruct (loops_cases year renderer data
                match CanonicalData.content data with
                | Some c =>
                    match ContentVariants.headlines (LandingContent.variants c) with
                    | [] => 0%nat
                    | hs => length hs
                    end
                | None => 0%nat
                end ∅)
      as [(m & Hm & _)|(t' & i & e' & Ht' & _ & He & Hr)].
    + pose proof (eq_trans (eq_sym He0) Hm) as Hx. discriminate Hx.
    + pose proof (eq_trans (eq_sym He0) Hr) as Hx. injection Hx as ->.
      exists t', i. split; assumption.
  - intros m Hm.
    destruct (CanonicalData.content data) as [c|] eqn:Hc;
      [|rewrite (H1 eq_refl) in Hm; discriminate Hm].
    exists c. split; [reflexivity|].
    pose proof Hm as Hm'. unfold render_all_variants in Hm'. rewrite Hc in Hm'.
    assert (Hk : match ContentVariants.headlines (LandingContent.variants c) with
                 | [] => 0%nat
                 | hs => length hs
                 end
                 = length (ContentVariants.headlines (LandingContent.variants c)))
      by (destruct (ContentVariants.headlines (LandingContent.variants c));
          reflexivity).
    destruct (loops_cases year renderer data
                match ContentVariants.headlines (LandingContent.variants c) with
                | [] => 0%nat
                | hs => length hs
                end ∅)
      as [(m' & _ & Hall)|(t' & i & e' & _ & _ & _ & Hr)];
      [|pose proof (eq_trans (eq_sym Hm') Hr) as Hx; discriminate Hx].
    rewrite Hk in Hall.
    split.
    + intros f Hf.
      destruct (file_of_template_type data f Hf) as (t & Ht & <-).
      destruct (Hall t 0 Ht (or_introl eq_refl)) as (html & Hhtml).
      exact (single_render_loaded _ _ _ _ _ _ Hhtml).
    + intros t i Ht Hi. apply (Hall t i Ht).
      apply list_elem_of_In, BulkFacts.variant_ids_elem. exact Hi.
Qed.

End BulkExtras.

(** ** The lookup tables and the validated values *)

Module TableFacts.

Import Schemas Errors Renderer Invariants.

Lemma allowed_icon_cases (i : string) :
  i ∈ ALLOWED_ICONS -> In i (keys ICON_MAP).
Proof.
  unfold ALLOWED_ICONS. rewrite elem_of_list_to_set.
  intros H.
  repeat (apply elem_of_cons in H as [->|H]; [cbn; tauto|]).
  apply elem_of_nil in H. destruct H.
Qed.

Lemma dict_lookup_get {A : Type} (d : list (string * A)) k default :
  In k (keys d) -> dict_lookup d k = Some (dict_get d k default).
Proof.
  induction d as [|[k' v] d IH]; [intros []|].
  cbn [keys map fst In dict_lookup dict_get]. intros Hk.
  destruct (String.eqb_spec k k') as [->|Hne]; [reflexivity|].
  apply IH. destruct Hk as [Hk|Hk]; [congruence|exact Hk].
Qed.

(** X7. The lookups with a fallback never take it on a valid document: the
    template file is the one of [render.template_type], the tone style is
    the entry of [project.tone] in [TONE_STYLES], the tone has a preset, on
    which [get_tone_preset] and the content stage's [_get_tone_preset]
    agree, and every feature's icon has a glyph in [ICON_MAP]. *)
Theorem valid_document_takes_no_lookup_fallback data :
  CanonicalData_valid data ->
  let template_type := RenderConfig.template_type (CanonicalData.render data) in
  let tone := ProjectInfo.tone (CanonicalData.project data) in
  dict_lookup TEMPLATE_FILES template_type = Some (selected_file data None)
  /\ selected_file data None = template_type +:+ ".html.j2"
  /\ dict_lookup TONE_STYLES tone
     = Some (dict_get TONE_STYLES tone TONE_STYLES_professional)
  /\ (exists preset,
         get_tone_preset tone = ok preset
         /\ LandingAgent._get_tone_preset tone = ok preset)
  /\ (forall c f,
         CanonicalData.content data = Some c ->
         In f (LandingContent.features c) ->
         exists glyph, dict_lookup ICON_MAP (Feature.icon f) = Some glyph).
Proof.
  intros (_ & Hp & _ & Hcontent & _ & Hr) template_type tone.
  destruct Hp as (_ & _ & _ & _ & _ & Htone & _).
  destruct Hr as (Htt & _).
  fold tone in Htone. fold template_type in Htt.
  split; [|split; [|split; [|split]]].
  - unfold selected_file. cbn [str_or]. fold template_type.
    apply dict_lookup_get.
    cbn in Htt |- *. tauto.
  - unfold selected_file. cbn [str_or]. fold template_type.
    cbn in Htt. destruct Htt as [<-|[<-|[<-|[]]]]; reflexivity.
  - apply dict_lookup_get. cbn in Htone |- *. tauto.
  - cbn in Htone.
    destruct Htone as [<-|[<-|[<-|[<-|[]]]]]; eexists; split; reflexivity.
  - intros c f Hc Hf. rewrite Hc in Hcontent. cbn [opt_valid] in Hcontent.
    destruct Hcontent as (_ & _ & Hfs & _).
    rewrite Forall_forall in Hfs.
    destruct (Hfs f) as (_ & _ & Hicon).
    { apply list_elem_of_In. exact Hf. }
    exists (dict_get ICON_MAP (Feature.icon f) DEFAULT_ICON).
    apply dict_lookup_get, allowed_icon_cases, Hicon.
Qed.

Lemma valid_document_takes_no_lookup_fallback_example :
  selected_file Fixtures.valid_canonical_data None = "saas.html.j2"
  /\ dict_lookup TONE_STYLES "professional" = Some TONE_STYLES_professional.
Proof.
  destruct (valid_document_takes_no_lookup_fallback Fixtures.valid_canonical_data
              RoundTripFacts.valid_canonical_data_valid)
    as (_ & Hfile & Hstyle & _).
  split; [exact Hfile|exact Hstyle].
Defined.

End TableFacts.

(** ** Schema validators: normal forms *)

Module SchemaExtras.

Import Schemas Invariants PyStr.

Lemma filter_map_trim (l : list string) :
  map (fun kw => lower (strip kw)) (List.filter nonblank (map trim l))
  = map (fun kw => lower (strip kw)) (List.filter nonblank l).
Proof.
  induction l as [|a l IH]; [reflexivity|].
  cbn [map List.filter].
  assert (H : nonblank (trim a) = nonblank a)
    by (unfold nonblank; rewrite PyStrFacts.strip_trim; reflexivity).
  rewrite H.
  destruct (nonblank a); cbn [map]; rewrite ?PyStrFacts.strip_trim, IH;
    reflexivity.
Qed.

Lemma filter_nonblank_length_trim (l : list string) :
  length (List.filter nonblank (map trim l)) = length (List.filter nonblank l).
Proof.
  rewrite <- (length_map (fun kw => lower (strip kw))), filter_map_trim.
  apply length_map.
Qed.

(** X8. [ProjectInfo.keywords]: for a list of 3 to 7 entries the stored
    keywords are the non-blank entries, stripped and lowercased, in their
    order; the stored list validates to itself; and with fewer than 3
    non-blank entries construction fails with the validator's message,
    which counts them. *)
Theorem keywords_normal_form (keywords : list string) :
  (3 <= length keywords <= 7)%nat ->
  let kept := List.filter nonblank keywords in
  let normalized := map (fun kw => lower (strip kw)) kept in
  ((3 <= length kept)%nat ->
   ProjectInfo.keywords_field keywords = ok normalized
   /\ ProjectInfo.keywords_field normalized = ok normalized)
  /\ ((length kept < 3)%nat ->
      ProjectInfo.keywords_field keywords
      = fail (value_error ("At least 3 keywords required, got "
                           +:+ pretty (Z.of_nat (length kept))))).
Proof.
  intros Hlen kept normalized.
  assert (Hfield :
            ProjectInfo.keywords_field keywords
            = ProjectInfo.validate_keywords (map trim keywords)).
  { unfold ProjectInfo.keywords_field, list_len_field.
    rewrite length_map.
    destruct (Z.ltb_spec (Z.of_nat (length keywords)) 3); [lia|].
    destruct (Z.ltb_spec 7 (Z.of_nat (length keywords))); [lia|].
    reflexivity. }
  assert (Hnorm :
            ProjectInfo.validate_keywords (map trim keywords)
            = if Z.of_nat (length kept) <? 3
              then fail (value_error ("At least 3 keywords required, got "
                                      +:+ pretty (Z.of_nat (length kept))))
              else ok normalized).
  { unfold ProjectInfo.validate_keywords.
    fold nonblank. rewrite filter_map_trim, length_map. reflexivity. }
  rewrite Hfield, Hnorm. split.
  - intros Hkept.
    destruct (Z.ltb_spec (Z.of_nat (length kept)) 3); [lia|].
    split; [reflexivity|].
    assert (Hok : ProjectInfo.keywords_field keywords = inr normalized).
    { rewrite Hfield, Hnorm.
      destruct (Z.ltb_spec (Z.of_nat (length kept)) 3); [lia|reflexivity]. }
    destruct (ConstructionFacts.keywords_field_valid _ _ Hok) as (Hl & Hf).
    apply RoundTripFacts.keywords_field_ok; assumption.
  - intros Hkept.
    destruct (Z.ltb_spec (Z.of_nat (length kept)) 3); [reflexivity|lia].
Qed.

Lemma keywords_normal_form_example :
  ProjectInfo.keywords_field ["TEST"; " Keyword "; "UPPER"]
  = ok ["test"; "keyword"; "upper"]
  /\ ProjectInfo.keywords_field ["one"; "  "; "two"]
     = fail (value_error "At least 3 keywords required, got 2").
Proof.
  split.
  - refine (proj1 (proj1 (keywords_normal_form ["TEST"; " Keyword "; "UPPER"] _) _)).
    + vm_compute. lia.
    + vm_compute. lia.
  - refine (proj2 (keywords_normal_form ["one"; "  "; "two"] _) _).
    + vm_compute. lia.
    + vm_compute. lia.
Defined.

(** X9. [ContentVariants]: for lists of at most 3 entries, construction
    keeps the non-blank entries, stripped, in their order; so
    [max_variant_id()] counts the non-blank headlines only, lies between 0
    and 3, and is 0 when every headline is blank; the result validates to
    itself. *)
Theorem variants_blank_entries_dropped (headlines ctas : list string) :
  (length headlines <= 3)%nat -> (length ctas <= 3)%nat ->
  let x := ContentVariants.mk
             (map strip (List.filter nonblank headlines))
             (map strip (List.filter nonblank ctas)) in
  ContentVariants.new headlines ctas = ok x
  /\ ContentVariants.max_variant_id x
     = Z.of_nat (length (List.filter nonblank headlines))
  /\ 0 <= ContentVariants.max_variant_id x <= 3
  /\ (Forall (fun h => strip h = "") headlines ->
      ContentVariants.max_variant_id x = 0)
  /\ ContentVariants.new (ContentVariants.headlines x) (ContentVariants.ctas x)
     = ok x.
Proof.
  intros Hh Hc x.
  assert (Hfield : forall l : list string,
             (length l <= 3)%nat ->
             ContentVariants.variants_field l
             = ok (map strip (List.filter nonblank l))).
  { intros l Hl. unfold ContentVariants.variants_field, list_len_field.
    destruct (Z.ltb_spec 3 (Z.of_nat (length l))); [lia|]. reflexivity. }
  assert (Hnew : ContentVariants.new headlines ctas = ok x).
  { unfold ContentVariants.new. rewrite (Hfield _ Hh), (Hfield _ Hc). reflexivity. }
  assert (Hmax : ContentVariants.max_variant_id x
                 = Z.of_nat (length (List.filter nonblank headlines))).
  { rewrite RendererFacts.max_variant_id_length. subst x.
    cbn [ContentVariants.headlines]. rewrite length_map. reflexivity. }
  pose proof (ConstructionFacts.filter_length_le nonblank headlines) as Hle.
  split; [exact Hnew|]. split; [exact Hmax|]. split; [lia|]. split.
  - intros Hblank. rewrite Hmax.
    replace (List.filter nonblank headlines) with (@nil string); [reflexivity|].
    clear -Hblank. induction Hblank as [|h l Hh _ IH]; [reflexivity|].
    cbn [List.filter]. unfold nonblank at 1. rewrite Hh. exact IH.
  - destruct (ConstructionFacts.ContentVariants_new_valid _ _ _ Hnew)
      as (Hl1 & Hs1 & Hl2 & Hs2).
    assert (Hfix : forall l : list string,
               LenOk None (Some 3) l -> Forall Stripped l ->
               ContentVariants.variants_field l = ok l).
    { intros l Hl Hs. unfold ContentVariants.variants_field.
      rewrite (RoundTripFacts.list_len_field_ok _ _ _ Hl).
      unfold exc_bind, ok.
      unfold ContentVariants.validate_variants_not_empty_strings.
      rewrite (RoundTripFacts.strip_filter_fixed _ Hs). reflexivity. }
    unfold ContentVariants.new.
    rewrite (Hfix _ Hl1 Hs1), (Hfix _ Hl2 Hs2). reflexivity.
Qed.

Lemma variants_blank_entries_dropped_example :
  ContentVariants.new ["H1"; "  "; "H2"] ["C1"]
  = ok (ContentVariants.mk ["H1"; "H2"] ["C1"])
  /\ ContentVariants.max_variant_id (ContentVariants.mk ["H1"; "H2"] ["C1"]) = 2.
Proof.
  destruct (variants_blank_entries_dropped ["H1"; "  "; "H2"] ["C1"])
    as (Hnew & Hmax & _).
  - vm_compute. lia.
  - vm_compute. lia.
  - split; [exact Hnew|exact Hmax].
Defined.

End SchemaExtras.

(** ** Loading documents: defaults and what they skip *)

Module LoadExtras.

Import Schemas Invariants ValidationFacts.

Lemma required_inv {A : Type} o k (f : Json.t -> V A) a :
  Decode.required o k f = inr a ->
  exists j, Json.field o k = Some j /\ f j = inr a.
Proof.
  unfold Decode.required. destruct (Json.field o k) as [j|]; intros H.
  - exists j. split; [reflexivity|]. apply at_loc_inr_inv in H. exact H.
  - discriminate H.
Qed.

Lemma defaulted_inv {A : Type} o k (f : Json.t -> V A) default a :
  Decode.defaulted o k f default = inr a ->
  (Json.field o k = None /\ a = default)
  \/ (exists j, Json.field o k = Some j /\ f j = inr a).
Proof.
  unfold Decode.defaulted. destruct (Json.field o k) as [j|]; intros H.
  - right. exists j. split; [reflexivity|]. apply at_loc_inr_inv in H. exact H.
  - left. split; [reflexivity|]. unfold ok in H. congruence.
Qed.

Lemma bind_inv {E A B : Type} (m : Exc E A) (k : A -> Exc E B) b :
  exc_bind m k = inr b -> exists a, m = inr a /\ k a = inr b.
Proof. destruct m as [e|a]; [discriminate|]. intros H. exists a. auto. Qed.

Lemma required_str_valid o k strip_whitespace min_length max_length s :
  Decode.required o k (Decode.str_json strip_whitespace min_length max_length)
  = inr s ->
  StrOk strip_whitespace min_length max_length s.
Proof.
  intros H. apply required_inv in H as (j & _ & H).
  apply bind_inv in H as (s0 & _ & H).
  exact (ConstructionFacts.str_field_valid _ _ _ _ _ H).
Qed.

Lemma is_raise_vap_last {A B : Type} (f : V (A -> B)) (x : V A) :
  is_raise x = true -> is_raise (f <*> x) = true.
Proof. apply is_raise_vap_r. Qed.

(** A loaded [ProjectInfo]: either the "keywords" key was absent and the
    default was taken, or every constraint holds. *)
Lemma ProjectInfo_from_json_cases o x :
  ProjectInfo.from_json (JObj o) = inr x ->
  (Json.field o "keywords" = None /\ ProjectInfo.keywords x = [])
  \/ (Json.field o "keywords" <> None /\ ProjectInfo_valid x).
Proof.
  intros H. cbn [ProjectInfo.from_json] in H.
  ConstructionFacts.vap_inv H.
  cbn [ProjectInfo.keywords].
  pose proof (required_str_valid _ _ _ _ _ _ Ha5) as H5.
  pose proof (required_str_valid _ _ _ _ _ _ Ha4) as H4.
  pose proof (required_str_valid _ _ _ _ _ _ Ha3) as H3.
  pose proof (required_str_valid _ _ _ _ _ _ Ha2) as H2.
  pose proof (required_str_valid _ _ _ _ _ _ Ha1) as H1.
  apply required_inv in Ha0 as (jt & _ & Ht).
  apply bind_inv in Ht as (s0 & _ & Ht).
  apply ConstructionFacts.tone_field_valid in Ht.
  apply defaulted_inv in Ha as [(Hnone & ->)|(jk & Hsome & Hk)].
  - left. split; [exact Hnone|reflexivity].
  - right. split; [congruence|].
    apply bind_inv in Hk as (l & _ & Hk).
    destruct (ConstructionFacts.keywords_field_valid _ _ Hk) as (Hl & Hf).
    repeat split; try assumption; try apply H5; try apply H4; try apply H3;
      try apply H2; try apply H1; try apply Hl.
Qed.

(** X10. What loading a [ProjectInfo] establishes.  When the object has a
    "keywords" key the loaded instance satisfies every constraint of the
    schema.  When the key is absent the load still succeeds, with the
    default [keywords = []] that no validator has seen; that instance
    breaks the 3-keyword minimum, and the document written from it is
    refused when it is read back. *)
Theorem ProjectInfo_load_and_keywords o x :
  ProjectInfo.from_json (JObj o) = ok x ->
  (Json.field o "keywords" <> None -> ProjectInfo_valid x)
  /\ (Json.field o "keywords" = None ->
      ProjectInfo.keywords x = []
      /\ ~ ProjectInfo_valid x
      /\ is_raise (ProjectInfo.from_json (ProjectInfo.to_json x)) = true).
Proof.
  intros H.
  destruct (ProjectInfo_from_json_cases o x H) as [(Hnone & Hk)|(Hsome & Hv)].
  - split; [congruence|]. intros _. split; [exact Hk|]. split.
    + intros (_ & _ & _ & _ & _ & _ & (Hmin & _) & _).
      rewrite Hk in Hmin. cbn in Hmin. lia.
    + cbn [ProjectInfo.to_json ProjectInfo.from_json]. rewrite Hk.
      apply is_raise_vap_last.
      unfold Decode.defaulted. cbn [Json.field].
      repeat match goal with
             | |- context [String.eqb ?a ?b] =>
                 let r := eval vm_compute in (String.eqb a b) in
                 change (String.eqb a b) with r; cbv beta iota
             end.
      reflexivity.
  - split; [intros _; exact Hv|congruence].
Qed.

Lemma ProjectInfo_load_and_keywords_example :
  ProjectInfo.from_json (JObj Fixtures.project_without_keywords)
  = ok (ProjectInfo.mk "MinimalTest" "A tagline" "A description long enough."
          "Testers" "Testing" "minimal" [])
  /\ is_raise
       (ProjectInfo.from_json
          (ProjectInfo.to_json
             (ProjectInfo.mk "MinimalTest" "A tagline" "A description long enough."
                "Testers" "Testing" "minimal" []))) = true.
Proof.
  split; [reflexivity|].
  refine (proj2 (proj2 (proj2 (ProjectInfo_load_and_keywords
                                 Fixtures.project_without_keywords _ _) _))).
  - reflexivity.
  - reflexivity.
Defined.

End LoadExtras.

(** ** The aggregate root: defaults, sections, effective variant *)

Module DocumentExtras.

Import Schemas Invariants ValidationFacts.

Lemma vap_keeps_error_l {A B : Type} (f : V (A -> B)) (x : V A) d :
  (exists e, f = inl e /\ In d e) -> exists e, f <*> x = inl e /\ In d e.
Proof.
  intros (e & -> & Hd). destruct x as [e2|a]; cbn [vap].
  - exists (e ++ e2). split; [reflexivity|]. apply in_or_app. left. exact Hd.
  - exists e. split; [reflexivity|exact Hd].
Qed.

Lemma vap_keeps_error_r {A B : Type} (f : V (A -> B)) (x : V A) d :
  (exists e, x = inl e /\ In d e) -> exists e, f <*> x = inl e /\ In d e.
Proof.
  intros (e & -> & Hd). destruct f as [e1|f]; cbn [vap].
  - exists (e1 ++ e). split; [reflexivity|]. apply in_or_app. right. exact Hd.
  - exists e. split; [reflexivity|exact Hd].
Qed.

(** X11. Loading a document.  A document that holds only a valid
    "project" loads, and every other field takes its default: a fresh
    [meta] at the current schema version, no brand, no content, empty
    asset slots, template "saas" and variant 0.  A document with no
    "project" key is refused, and the error names the missing field. *)
Theorem from_json_absent_keys_take_defaults {lax : Lax} now p :
  ProjectInfo_valid p ->
  CanonicalData.from_json now (JObj [("project", ProjectInfo.to_json p)])
  = ok (CanonicalData.mk (GenerationMeta.default now) p None None
          AssetSlots.default RenderConfig.default)
  /\ (forall o,
        Json.field o "project" = None ->
        exists es,
          CanonicalData.from_json now (JObj o) = raise es
          /\ In (mkErrorDetail ["project"] missing) es).
Proof.
  intros Hp. split.
  - cbn [CanonicalData.from_json]. RoundTripFacts.lookup_fields.
    rewrite (RoundTripFacts.ProjectInfo_roundtrip p Hp).
    unfold ok. cbn [vap at_loc exc_bind]. reflexivity.
  - intros o Ho. cbn [CanonicalData.from_json].
    assert (Hproj : Decode.required o "project" ProjectInfo.from_json
                    = inl [mkErrorDetail ["project"] missing]).
    { unfold Decode.required. rewrite Ho. reflexivity. }
    rewrite Hproj.
    match goal with
    | |- exists es, exc_bind ?m _ = _ /\ _ =>
        assert (Hm : exists e, m = inl e /\ In (mkErrorDetail ["project"] missing) e)
    end.
    { do 4 apply vap_keeps_error_l. apply vap_keeps_error_r.
      eexists. split; [reflexivity|]. left. reflexivity. }
    destruct Hm as (e & -> & He). exists e. split; [reflexivity|exact He].
Qed.

Lemma from_json_absent_keys_take_defaults_example :
  CanonicalData.from_json (lax := Fixtures.lax_example) "2030-01-01T00:00:00"
    (JObj [("project", ProjectInfo.to_json Fixtures.valid_project_info)])
  = ok (CanonicalData.mk (GenerationMeta.default "2030-01-01T00:00:00")
          Fixtures.valid_project_info None None
          AssetSlots.default RenderConfig.default).
Proof.
  refine (proj1 (from_json_absent_keys_take_defaults
                   (lax := Fixtures.lax_example) "2030-01-01T00:00:00"
                   Fixtures.valid_project_info _)).
  exact (proj1 (proj2 RoundTripFacts.valid_canonical_data_valid)).
Defined.

Lemma map_filter_sublist {A B : Type} (f : A -> B) (p : A -> bool) (l : list A) :
  sublist (map f (List.filter p l)) (map f l).
Proof.
  induction l as [|a l IH]; [constructor|].
  cbn [map List.filter]. destruct (p a); cbn [map]; constructor; exact IH.
Qed.

(** X12. [SectionsConfig.enabled_sections()] lists exactly the sections
    whose flag is set, each once, in the order pricing, faq, logos,
    screenshots, feature_grid, stats. *)
Theorem enabled_sections_spec (s : SectionsConfig.t) :
  let enabled := SectionsConfig.enabled_sections s in
  in_keys "pricing" enabled = SectionsConfig.pricing s
  /\ in_keys "faq" enabled = SectionsConfig.faq s
  /\ in_keys "logos" enabled = SectionsConfig.logos s
  /\ in_keys "screenshots" enabled = SectionsConfig.screenshots s
  /\ in_keys "feature_grid" enabled = SectionsConfig.feature_grid s
  /\ in_keys "stats" enabled = SectionsConfig.stats s
  /\ sublist enabled
       ["pricing"; "faq"; "logos"; "screenshots"; "feature_grid"; "stats"].
Proof.
  intros enabled.
  assert (Hsub : sublist enabled
                   ["pricing"; "faq"; "logos"; "screenshots"; "feature_grid"; "stats"]).
  { exact (map_filter_sublist fst snd
             [("pricing", SectionsConfig.pricing s); ("faq", SectionsConfig.faq s);
              ("logos", SectionsConfig.logos s);
              ("screenshots", SectionsConfig.screenshots s);
              ("feature_grid", SectionsConfig.feature_grid s);
              ("stats", SectionsConfig.stats s)]). }
  repeat split; try exact Hsub; clear Hsub; subst enabled;
    destruct s as [[] [] [] [] [] []]; reflexivity.
Qed.

(** X13. [get_effective_variant_id()] returns 0 or the stored
    [render.variant_id], never more than the number of alternate
    headlines; it returns 0 when the content is absent; storing its result
    back leaves it unchanged; and on a valid document it lies between 0
    and 3. *)
Theorem effective_variant_id_bounds data :
  let e := CanonicalData.get_effective_variant_id data in
  (e = 0 \/ e = RenderConfig.variant_id (CanonicalData.render data))
  /\ (CanonicalData.content data = None -> e = 0)
  /\ (forall c, CanonicalData.content data = Some c ->
        e <= Z.of_nat (length (ContentVariants.headlines (LandingContent.variants c))))
  /\ CanonicalData.get_effective_variant_id
       (CanonicalData.set_render_variant_id data e) = e
  /\ (CanonicalData_valid data -> 0 <= e <= 3).
Proof.
  intros e. subst e. unfold CanonicalData.get_effective_variant_id.
  cbn [CanonicalData.set_render_variant_id CanonicalData.content
       CanonicalData.render RenderConfig.set_variant_id RenderConfig.variant_id].
  destruct (CanonicalData.content data) as [c|] eqn:Hc.
  - rewrite RendererFacts.max_variant_id_length.
    set (n := Z.of_nat (length (ContentVariants.headlines (LandingContent.variants c)))).
    set (v := RenderConfig.variant_id (CanonicalData.render data)).
    assert (Hn : 0 <= n) by (subst n; lia).
    destruct (Z.ltb_spec n v) as [Hv|Hv].
    + split; [left; reflexivity|]. split; [reflexivity|].
      split; [intros c' [= <-]; fold n; lia|].
      split; [destruct (Z.ltb_spec n 0); [lia|reflexivity]|].
      intros _. lia.
    + split; [right; reflexivity|]. split; [discriminate|].
      split; [intros c' [= <-]; fold n; lia|].
      split; [destruct (Z.ltb_spec n v); [lia|reflexivity]|].
      intros (_ & _ & _ & Hcontent & _ & (_ & Hrange)).
      rewrite Hc in Hcontent. cbn [opt_valid] in Hcontent.
      destruct Hcontent as (_ & _ & _ & _ & _ & ((_ & Hmax) & _) & _).
      fold v in Hrange. fold n in Hmax. lia.
  - split; [left; reflexivity|]. split; [reflexivity|].
    split; [discriminate|]. split; [reflexivity|]. intros _. lia.
Qed.

End DocumentExtras.

(** ** User input and pipeline errors *)

Module InputExtras.

Import Schemas Invariants ValidationFacts PyStr.

Lemma lstrip_with_length ws s :
  (String.length (lstrip_with ws s) <= String.length s)%nat.
Proof.
  induction s as [|a s IH]; [reflexivity|].
  cbn [lstrip_with]. destruct (ws a); cbn [String.length]; lia.
Qed.

Lemma rstrip_with_length ws s :
  (String.length (rstrip_with ws s) <= String.length s)%nat.
Proof.
  induction s as [|a s IH]; [reflexivity|].
  cbn [rstrip_with]. destruct (rstrip_with ws s); [destruct (ws a)|];
    cbn [String.length] in *; lia.
Qed.

Lemma strip_len_le s : len (strip s) <= len s.
Proof.
  unfold len, strip, strip_with.
  pose proof (rstrip_with_length isspace (lstrip_with isspace s)).
  pose proof (lstrip_with_length isspace s). lia.
Qed.

Lemma str_field_result strip_whitespace min_length max_length s s' :
  str_field strip_whitespace min_length max_length s = inr s' ->
  s' = if strip_whitespace then trim s else s.
Proof.
  unfold str_field.
  destruct (match min_length with Some _ => _ | None => _ end); [discriminate|].
  destruct (match max_length with Some _ => _ | None => _ end); [discriminate|].
  unfold ok. congruence.
Qed.

Lemma truthy_nonempty s : truthy s = true <-> s <> "".
Proof. destruct s; cbn; split; congruence. Qed.

(** A required text field of [UserInput]: the field constraints, then
    [validate_not_empty_after_strip]. *)
Lemma required_text_inv max_length s a :
  (do v <- str_field true (Some 1) (Some max_length) s;
   UserInput.validate_not_empty_after_strip v) = inr a ->
  a = strip s /\ a <> "" /\ len a <= max_length.
Proof.
  intros H. apply LoadExtras.bind_inv in H as (v & Hv & H).
  pose proof (str_field_result _ _ _ _ _ Hv) as ->.
  destruct (ConstructionFacts.str_field_valid _ _ _ _ _ Hv) as (_ & _ & Hmax).
  unfold UserInput.validate_not_empty_after_strip in H.
  rewrite PyStrFacts.strip_trim in H.
  destruct (truthy (strip s)) eqn:Et; [|discriminate].
  cbn [negb] in H. unfold ok in H. injection H as <-.
  split; [reflexivity|]. split; [apply truthy_nonempty; exact Et|].
  pose proof (strip_len_le (trim s)) as Hle.
  rewrite PyStrFacts.strip_trim in Hle. lia.
Qed.

Lemma required_text_ok max_length a :
  strip a = a -> a <> "" -> len a <= max_length ->
  (do v <- str_field true (Some 1) (Some max_length) a;
   UserInput.validate_not_empty_after_strip v) = ok a.
Proof.
  intros Hs Hne Hmax.
  rewrite (RoundTripFacts.str_field_ok true (Some 1) (Some max_length) a).
  - unfold ok, exc_bind, UserInput.validate_not_empty_after_strip.
    rewrite Hs. apply truthy_nonempty in Hne. rewrite Hne. reflexivity.
  - split; [|split].
    + unfold Trimmed. rewrite <- Hs. apply PyStrFacts.trim_strip.
    + destruct a; [congruence|]. unfold len. cbn [String.length]. lia.
    + exact Hmax.
Qed.

(** X14. What [UserInput] keeps.  A successful construction stores each
    required text stripped of surrounding whitespace in the sense of
    [str.strip], non-empty and within its length bound; the tone and the
    template type are members of their [Literal]; the optional context is
    stored trimmed; and the stored values construct the same instance
    again. *)
Theorem UserInput_new_normal_form
    product_name target_audience value_proposition tone additional_context
    template_type u :
  UserInput.new product_name target_audience value_proposition tone
    additional_context template_type = ok u ->
  u = UserInput.mk (strip product_name) (strip target_audience)
        (strip value_proposition) tone (trim additional_context) template_type
  /\ (strip product_name <> "" /\ len (strip product_name) <= 100)
  /\ (strip target_audience <> "" /\ len (strip target_audience) <= 500)
  /\ (strip value_proposition <> "" /\ len (strip value_proposition) <= 500)
  /\ len (trim additional_context) <= 1000
  /\ In tone ToneType /\ In template_type TemplateType
  /\ UserInput.new (UserInput.product_name u) (UserInput.target_audience u)
       (UserInput.value_proposition u) (UserInput.tone u)
       (UserInput.additional_context u) (UserInput.template_type u) = ok u.
Proof.
  intros H. unfold UserInput.new in H. ConstructionFacts.vap_inv H.
  destruct (required_text_inv _ _ _ Ha4) as (-> & Hn4 & Hl4).
  destruct (required_text_inv _ _ _ Ha3) as (-> & Hn3 & Hl3).
  destruct (required_text_inv _ _ _ Ha2) as (-> & Hn2 & Hl2).
  destruct (ConstructionFacts.literal_field_valid _ _ _ Ha1) as (-> & Htone).
  destruct (ConstructionFacts.literal_field_valid _ _ _ Ha) as (-> & Htt).
  pose proof (str_field_result _ _ _ _ _ Ha0) as ->.
  destruct (ConstructionFacts.str_field_valid _ _ _ _ _ Ha0) as (Htr & _ & Hl0).
  split; [reflexivity|].
  split; [split; assumption|]. split; [split; assumption|].
  split; [split; assumption|]. split; [exact Hl0|].
  split; [exact Htone|]. split; [exact Htt|].
  unfold UserInput.new.
  cbn [UserInput.product_name UserInput.target_audience
       UserInput.value_proposition UserInput.tone UserInput.additional_context
       UserInput.template_type].
  rewrite !required_text_ok by (first [apply PyStrFacts.strip_idem | assumption]).
  rewrite !(PipelineFacts.literal_field_member _ _ Htone).
  rewrite !(PipelineFacts.literal_field_member _ _ Htt).
  rewrite (RoundTripFacts.str_field_ok true None (Some 1000)
             (trim additional_context)).
  - unfold ok. cbn [vap at_loc]. reflexivity.
  - split; [exact Htr|]. split; [exact I|exact Hl0].
Qed.

Lemma UserInput_new_normal_form_example :
  Fixtures.example_user_input
  = UserInput.mk (strip "  TestProduct ") (strip "Developers and testers")
      (strip "Make testing easier") "professional" (trim "") "saas"
  /\ strip "  TestProduct " <> "".
Proof.
  destruct (UserInput_new_normal_form "  TestProduct " "Developers and testers"
              "Make testing easier" "professional" "" "saas"
              Fixtures.example_user_input eq_refl) as (Hu & (Hne & _) & _).
  split; [exact Hu|exact Hne].
Defined.

End InputExtras.

(** ** Pipeline errors *)

Module ErrorExtras.

Import Errors PyStr.

Lemma slice_to_length n s :
  String.length (slice_to n s) = Nat.min n (String.length s).
Proof.
  revert s. induction n as [|n IH]; intros s; [reflexivity|].
  destruct s as [|a s]; [reflexivity|].
  cbn [slice_to String.length Nat.min]. rewrite IH. reflexivity.
Qed.

Lemma slice_to_prefix n s : String.prefix (slice_to n s) s = true.
Proof.
  revert s. induction n as [|n IH]; intros s; [destruct s; reflexivity|].
  destruct s as [|a s]; [reflexivity|].
  cbn [slice_to String.prefix].
  destruct (ascii_dec a a); [apply IH|congruence].
Qed.

Lemma slice_to_all n s : (String.length s <= n)%nat -> slice_to n s = s.
Proof.
  revert s. induction n as [|n IH]; intros s Hs.
  - destruct s; [reflexivity|cbn in Hs; lia].
  - destruct s as [|a s]; [reflexivity|].
    cbn [slice_to]. rewrite IH; [reflexivity|]. cbn in Hs. lia.
Qed.

(** X15. A [ValidationError] of the pipeline keeps at most the first 100
    characters of the offending value: the stored text is a prefix of
    [str(value)], equal to it when that is short enough; no "value" entry
    is stored for [None]; the step is always "validation", and the message
    of the exception reads "[code] [validation] message". *)
Theorem ValidationError_value_truncated message field value code :
  let e := ValidationError message field value code in
  Errors.code e = code /\ Errors.message e = message
  /\ step e = Some "validation"
  /\ (forall v, value = Some v ->
        Schemas.dict_lookup (details e) "value" = Some (slice_to 100 v)
        /\ (String.length (slice_to 100 v) <= 100)%nat
        /\ String.prefix (slice_to 100 v) v = true
        /\ ((String.length v <= 100)%nat -> slice_to 100 v = v))
  /\ (value = None -> Schemas.dict_lookup (details e) "value" = None)
  /\ _format_message e
     = "[" +:+ ErrorCode_value code +:+ "] [validation] " +:+ message.
Proof.
  intros e. subst e.
  split; [reflexivity|]. split; [reflexivity|]. split; [reflexivity|].
  split; [|split].
  - intros v ->. split.
    + destruct field as [[|a f]|]; reflexivity.
    + split; [rewrite slice_to_length; lia|].
      split; [apply slice_to_prefix|apply slice_to_all].
  - intros ->. destruct field as [[|a f]|]; reflexivity.
  - destruct code; vm_compute; reflexivity.
Qed.

End ErrorExtras.

(** ** The content stage *)

Module AgentExtras.

Import Schemas Invariants Exceptions PyStr.

Lemma len_app (a b : string) : len (a +:+ b) = len a + len b.
Proof.
  unfold len. induction a as [|c a IH];
    [change ("" +:+ b) with b; cbn [String.length]; lia|].
  change (String c a +:+ b) with (String c (a +:+ b)).
  cbn [String.length]. lia.
Qed.

Lemma opt_str_ok max_length s :
  len s <= max_length -> AssetSlots.opt_str max_length (Some s) = ok (Some s).
Proof.
  intros H. unfold AssetSlots.opt_str, opt_field, str_field.
  destruct (Z.ltb_spec max_length (len s)); [lia|]. reflexivity.
Qed.

Lemma opt_str_raise max_length s :
  max_length < len s -> is_raise (AssetSlots.opt_str max_length (Some s)) = true.
Proof.
  intros H. unfold AssetSlots.opt_str, opt_field, str_field.
  destruct (Z.ltb_spec max_length (len s)); [reflexivity|lia].
Qed.

Ltac literal_lengths :=
  rewrite ?len_app; unfold len in *; cbn [String.length]; lia.

Lemma asset_prompts_ok data :
  len (ProjectInfo.product_name (CanonicalData.project data)) <= 170 ->
  exists a,
    LandingAgent._generate_asset_prompts data = ok a
    /\ AssetSlots_valid a
    /\ AssetSlots.hero_image_alt a
       = Some (ProjectInfo.product_name (CanonicalData.project data)
               +:+ " application interface preview")
    /\ AssetSlots.logo_url a = None
    /\ length (AssetSlots.screenshot_prompts a) = 2%nat.
Proof.
  intros Hp. unfold LandingAgent._generate_asset_prompts.
  set (product := ProjectInfo.product_name (CanonicalData.project data)) in *.
  set (tone := ProjectInfo.tone (CanonicalData.project data)).
  unfold Renderer.dict_get.
  repeat match goal with
         | |- context [String.eqb tone ?k] => destruct (String.eqb tone k)
         end;
    (unfold AssetSlots.new;
     rewrite !opt_str_ok by literal_lengths;
     eexists; split; [reflexivity|];
     cbn [AssetSlots.hero_image_alt AssetSlots.logo_url
          AssetSlots.screenshot_prompts length];
     split; [|split; [reflexivity|split; reflexivity]];
     repeat split; cbn; try exact I; try lia; literal_lengths).
Qed.

(** X16. [_generate_asset_prompts] builds the prompts from the product
    name and the tone, for any tone.  It succeeds exactly when the product
    name has at most 170 characters, the limit that the 200-character alt
    text leaves; so it succeeds on every validated project, whose name has
    at most 100.  The slots it returns satisfy the schema: the alt text is
    the product name followed by " application interface preview", there
    are two screenshot prompts and no logo. *)
Theorem generate_asset_prompts_total data :
  let product := ProjectInfo.product_name (CanonicalData.project data) in
  (len product <= 170 ->
   exists a,
     LandingAgent._generate_asset_prompts data = ok a
     /\ AssetSlots_valid a
     /\ AssetSlots.hero_image_alt a
        = Some (product +:+ " application interface preview")
     /\ AssetSlots.logo_url a = None
     /\ length (AssetSlots.screenshot_prompts a) = 2%nat)
  /\ (170 < len product ->
      is_raise (LandingAgent._generate_asset_prompts data) = true)
  /\ (ProjectInfo_valid (CanonicalData.project data) -> len product <= 170).
Proof.
  intros product. split; [|split].
  - apply asset_prompts_ok.
  - intros Hp. unfold LandingAgent._generate_asset_prompts. fold product.
    unfold AssetSlots.new.
    do 3 apply ValidationFacts.is_raise_vap_l.
    apply ValidationFacts.is_raise_vap_r.
    rewrite ValidationFacts.is_raise_at_loc.
    apply opt_str_raise. literal_lengths.
  - intros ((_ & _ & Hmax) & _). fold product in Hmax. lia.
Qed.

End AgentExtras.

(** ** The content stage and the shared document *)

Module LandingRunExtras.

Import Schemas Invariants Exceptions Errors.

Lemma set_content_same (data : CanonicalData.t) content :
  CanonicalData.content data = Some content ->
  CanonicalData.mk (CanonicalData.meta data) (CanonicalData.project data)
    (CanonicalData.brand data) (Some content) (CanonicalData.assets data)
    (CanonicalData.render data) = data.
Proof. destruct data. cbn. intros ->. reflexivity. Qed.

Lemma render_landing_add_step year renderer data step_name template_override
    variant_override :
  Renderer.render_landing year renderer (CanonicalData.add_step data step_name)
    template_override variant_override
  = Renderer.render_landing year renderer data template_override variant_override.
Proof. reflexivity. Qed.

Section Landing.

    Context {lax : Lax}.
Variables (year : Z) (renderer : Renderer.TemplateRenderer)
          (llm : CanonicalData.t -> Exc PyException LandingContent.t).

Lemma landing_run_ok data data' content html :
  LandingAgent.run year renderer llm data = (data', inr (content, html)) ->
  CanonicalData.content data' = Some content
  /\ Renderer.render_landing year renderer data' None None = ok html.
Proof.
  unfold LandingAgent.run.
  destruct (LandingAgent._generate_content llm data) as [e|content0];
    [intros H; inversion H|].
  destruct (LandingAgent._generate_asset_prompts data) as [e|assets];
    [intros H; inversion H|].
  unfold CanonicalData.set_assets, CanonicalData.set_content.
  rewrite !PipelineFacts.assign_instance.
  destruct (Renderer.render_landing _ _ _ _ _) eqn:Er; intros H; inversion H.
  subst. split; [reflexivity|exact Er].
Qed.

(** X17. What [LandingAgent.run] does to the caller's document.  It
    leaves [meta], [project], [brand] and [render] as they were.  When it
    returns [(content, html)], the document holds that content and the
    generated asset prompts, the content's sections are the defaults of
    the document's template type, whatever sections the LLM answered,
    and [html] is the rendering of the document as it now is.  When the
    LLM call raises, the document is untouched; when the LLM answered
    and rendering raises, the document already holds the new content and
    assets, and what is raised is the renderer's TEMPLATE_NOT_FOUND
    error or an exception of the templating engine, unchanged. *)
Theorem landing_run_effects data data' r :
  LandingAgent.run year renderer llm data = (data', r) ->
  (CanonicalData.meta data' = CanonicalData.meta data
   /\ CanonicalData.project data' = CanonicalData.project data
   /\ CanonicalData.brand data' = CanonicalData.brand data
   /\ CanonicalData.render data' = CanonicalData.render data)
  /\ (forall content html,
        r = ok (content, html) ->
        CanonicalData.content data' = Some content
        /\ LandingAgent._generate_asset_prompts data
           = ok (CanonicalData.assets data')
        /\ (exists answered,
               llm data = ok answered
               /\ content
                  = LandingContent.set_sections answered
                      (LandingAgent._get_default_sections
                         (RenderConfig.template_type (CanonicalData.render data))))
        /\ Renderer.render_landing year renderer data' None None = ok html)
  /\ (forall e, llm data = raise e -> data' = data /\ r = raise e)
  /\ (forall answered e,
        llm data = ok answered ->
        r = raise (RenderFailure e) ->
        CanonicalData.content data' <> None
        /\ LandingAgent._generate_asset_prompts data
           = ok (CanonicalData.assets data')
        /\ Renderer.render_landing year renderer data' None None
           = raise (Renderer.Raised e)
        /\ code e = TEMPLATE_NOT_FOUND)
  /\ (forall answered e,
        llm data = ok answered ->
        r = raise (EngineFailure e) ->
        CanonicalData.content data' <> None
        /\ LandingAgent._generate_asset_prompts data
           = ok (CanonicalData.assets data')
        /\ Renderer.render_landing year renderer data' None None
           = raise (Renderer.Propagated e)).
Proof.
  intros Hrun.
  split; [exact (PipelineFacts.landing_run_frame _ _ _ _ _ _ Hrun)|].
  revert Hrun. unfold LandingAgent.run, LandingAgent._generate_content.
  destruct (llm data) as [e0|answered] eqn:Ellm; cbn [exc_bind].
  { intros [= <- <-]. split; [discriminate|]. split; [|split].
    - intros e [= <-]. split; reflexivity.
    - intros answered e H. discriminate H.
    - intros answered e H. discriminate H. }
  unfold ok at 1.
  destruct (LandingAgent._generate_asset_prompts data) as [e1|assets] eqn:Ea.
  { intros [= <- <-]. split; [discriminate|]. split; [discriminate|].
    split; discriminate. }
  unfold CanonicalData.set_assets, CanonicalData.set_content.
  rewrite !PipelineFacts.assign_instance.
  cbn [CanonicalData.meta CanonicalData.project CanonicalData.brand
       CanonicalData.content CanonicalData.assets CanonicalData.render].
  destruct (Renderer.render_landing _ _ _ _ _) as [e2|html0] eqn:Er;
    intros [= <- <-].
  - split; [discriminate|]. split; [discriminate|]. split.
    + intros answered' e _ He. destruct e2 as [e2|e2]; cbn [of_render] in He;
        [|discriminate He].
      injection He as <-.
      cbn [CanonicalData.content CanonicalData.assets].
      split; [discriminate|]. split; [reflexivity|]. split; [exact Er|].
      revert Er. unfold Renderer.render_landing,
        Renderer.TemplateRenderer_render_landing.
      cbn [CanonicalData.content].
      destruct (Renderer.get_template renderer _) as [|e3|tpl];
        [|discriminate|].
      * intros [= <-]. reflexivity.
      * match goal with
        | |- Renderer.from_engine ?x = _ -> _ => destruct x; discriminate
        end.
    + intros answered' e _ He. destruct e2 as [e2|e2]; cbn [of_render] in He;
        [discriminate He|].
      injection He as <-.
      cbn [CanonicalData.content CanonicalData.assets].
      split; [discriminate|]. split; [reflexivity|]. exact Er.
  - split; [|split; [|split]; discriminate].
    intros content html [= <- <-].
    cbn [CanonicalData.content CanonicalData.assets].
    split; [reflexivity|]. split; [reflexivity|].
    split; [|exact Er].
    exists answered. split; reflexivity.
Qed.

End Landing.

(** The content stage on the fixtures, with no template to render: the
    call raises and the document has the content. *)
Lemma landing_run_effects_example :
  CanonicalData.content
    (fst (LandingAgent.run (lax := Fixtures.lax_example) 2024
            Fixtures.empty_renderer Fixtures.content_stub
            Fixtures.minimal_data)) <> None
  /\ CanonicalData.content Fixtures.minimal_data = None.
Proof.
  destruct (LandingAgent.run (lax := Fixtures.lax_example) 2024
              Fixtures.empty_renderer Fixtures.content_stub
              Fixtures.minimal_data) as [data' r] eqn:Hrun.
  destruct (landing_run_effects (lax := Fixtures.lax_example) 2024
              Fixtures.empty_renderer Fixtures.content_stub
              Fixtures.minimal_data data' r Hrun) as (_ & _ & _ & Hfail & _).
  vm_compute in Hrun. injection Hrun as <- <-.
  split; [|reflexivity].
  exact (proj1 (Hfail _ _ eq_refl eq_refl)).
Defined.

End LandingRunExtras.

(** ** The driver: every outcome of a run *)

Module RunExtras.

Import Schemas Invariants Exceptions Orchestrator.

Section Driver.

    Context {lax : Lax}.
Variables (str_ValidationError : ValidationError -> string) (now : string)
          (year : Z) (renderer : Renderer.TemplateRenderer)
          (OnboardingAgent_run : UserInput.t -> Exc PyException ProjectInfo.t)
          (BrandAgent_run : ProjectInfo.t -> Exc PyException BrandIdentity.t)
          (llm : CanonicalData.t -> Exc PyException LandingContent.t).

(** Stage 2 never raises: the document it hands on, and the errors. *)
Lemma brand_stage_result project_info template_type :
  brand_stage str_ValidationError BrandAgent_run
    (create_canonical now project_info (RenderConfig.mk template_type 0))
    project_info []
  = ok match BrandAgent_run project_info with
       | inr b =>
           (document_after_brand now project_info template_type b "brand", [])
       | inl e =>
           (document_after_brand now project_info template_type
              DefaultBrand.IDENTITY "brand:fallback",
            ["BrandAgent failed (using defaults): " +:+ Exceptions.str str_ValidationError e])
       end.
Proof.
  unfold brand_stage, CanonicalData.set_brand.
  destruct (BrandAgent_run project_info) as [e|b];
    rewrite !PipelineFacts.assign_instance; reflexivity.
Qed.

Lemma template_type_checked template_type rc :
  RenderConfig.new template_type 0 = inr rc ->
  In template_type TemplateType /\ rc = RenderConfig.mk template_type 0.
Proof.
  intros H. unfold RenderConfig.new in H. ConstructionFacts.vap_inv H.
  destruct (ConstructionFacts.literal_field_valid _ _ _ Ha0) as (-> & Hin).
  split; [exact Hin|]. cbv in Ha. injection Ha as <-. reflexivity.
Qed.

(** The run after a successful stage 1, stage by stage. *)
Lemma run_after_onboarding user_input project_info :
  In (UserInput.template_type user_input) TemplateType ->
  OnboardingAgent_run user_input = ok project_info ->
  run str_ValidationError now year renderer OnboardingAgent_run
    BrandAgent_run llm user_input
  = let stage2 :=
      match BrandAgent_run project_info with
      | inr b =>
          (document_after_brand now project_info
             (UserInput.template_type user_input) b "brand", [])
      | inl e =>
          (document_after_brand now project_info
             (UserInput.template_type user_input)
             DefaultBrand.IDENTITY "brand:fallback",
           ["BrandAgent failed (using defaults): " +:+ Exceptions.str str_ValidationError e])
      end in
    match LandingAgent.run year renderer llm (fst stage2) with
    | (c3, inl e) =>
        ok (mkPipelineResult (Some c3) "" false
              (snd stage2 ++ ["LandingAgent failed: " +:+ Exceptions.str str_ValidationError e]))
    | (c3, inr (content, html)) =>
        ok (mkPipelineResult
              (Some (CanonicalData.add_step
                       (CanonicalData.mk (CanonicalData.meta c3)
                          (CanonicalData.project c3) (CanonicalData.brand c3)
                          (Some content) (CanonicalData.assets c3)
                          (CanonicalData.render c3))
                       "landing"))
              html
              (match snd stage2 with [] => true | _ => false end)
              (snd stage2))
    end.
Proof.
  intros Htt H1. unfold run. rewrite H1.
  rewrite (PipelineFacts.RenderConfig_new_member _ Htt).
  unfold ok. cbn [lift_schema exc_bind]. cbv zeta.
  rewrite brand_stage_result. unfold ok. cbn [exc_bind].
  destruct (LandingAgent.run _ _ _ _) as [c3 [e|[content html]]];
    [reflexivity|].
  unfold CanonicalData.set_content.
  rewrite PipelineFacts.assign_instance. reflexivity.
Qed.

(** X18. [LandingPipeline.run] always returns a result when the template
    type of the input is one of the three: no exception of a stage
    escapes it.  The result has no document exactly when stage 1 raised,
    and then it has no markup and one error; [success] is [True] exactly
    when [errors] is empty, which requires that neither LLM stage 1 nor
    stage 2 raised; and there are never more than two errors. *)
Theorem run_always_returns user_input :
  In (UserInput.template_type user_input) TemplateType ->
  exists r,
    run str_ValidationError now year renderer OnboardingAgent_run
    BrandAgent_run llm user_input = ok r
    /\ (canonical_data r = None
        <-> is_raise (OnboardingAgent_run user_input) = true)
    /\ (forall e,
          OnboardingAgent_run user_input = raise e ->
          r = mkPipelineResult None "" false
                ["OnboardingAgent failed: " +:+ Exceptions.str str_ValidationError e])
    /\ (success r = true <-> errors r = [])
    /\ (success r = true ->
        exists p b,
          OnboardingAgent_run user_input = ok p /\ BrandAgent_run p = ok b)
    /\ (length (errors r) <= 2)%nat.
Proof.
  intros Htt.
  destruct (OnboardingAgent_run user_input) as [e1|p] eqn:H1.
  - eexists. split; [unfold run; rewrite H1; reflexivity|].
    cbn [canonical_data success errors is_raise app length].
    split; [tauto|]. split; [intros e [= <-]; reflexivity|].
    split; [split; discriminate|]. split; [discriminate|lia].
  - rewrite (run_after_onboarding user_input p Htt H1). cbv zeta.
    destruct (BrandAgent_run p) as [e2|b] eqn:H2; cbn [fst snd];
      destruct (LandingAgent.run _ _ _ _) as [c3 [e3|[content html]]];
      eexists; (split; [reflexivity|]);
      cbn [canonical_data success errors is_raise app length];
      (split; [split; discriminate|]);
      (split; [intros e He; unfold raise in He; discriminate He|]);
      (split; [split; intros He; first [discriminate He | reflexivity]|]);
      (split; [intros He;
               first [discriminate He
                     | exists p, b; split; [reflexivity|exact H2]]
              |lia]).
Qed.

(** X19. The document of a result.  Whenever [run] returns a document,
    stage 1 succeeded and the document holds its project, the render
    configuration of the requested template type with variant 0, and a
    brand: the one stage 2 returned, logged as "brand", or
    [DefaultBrand.IDENTITY], logged as "brand:fallback".  The log then
    ends with "landing" exactly when stage 3 succeeded; in that case the
    document holds the content and rendering the returned document gives
    the returned markup again.  Otherwise the markup is empty, [success]
    is [False] and the last error is the one of stage 3. *)
Theorem run_document_invariants user_input r d :
  run str_ValidationError now year renderer OnboardingAgent_run
    BrandAgent_run llm user_input = ok r ->
  canonical_data r = Some d ->
  exists p,
    OnboardingAgent_run user_input = ok p
    /\ CanonicalData.project d = p
    /\ In (UserInput.template_type user_input) TemplateType
    /\ CanonicalData.render d
       = RenderConfig.mk (UserInput.template_type user_input) 0
    /\ CanonicalData.brand d
       = Some match BrandAgent_run p with
              | inr b => b
              | inl _ => DefaultBrand.IDENTITY
              end
    /\ exists rest,
        GenerationMeta.pipeline_steps (CanonicalData.meta d)
        = "onboarding"
          :: match BrandAgent_run p with
             | inr _ => "brand"
             | inl _ => "brand:fallback"
             end
          :: rest
        /\ ((rest = ["landing"]
             /\ CanonicalData.content d <> None
             /\ Renderer.render_landing year renderer d None None = ok (html r))
            \/ (rest = [] /\ html r = "" /\ success r = false
                /\ exists e,
                    last (errors r)
                    = Some ("LandingAgent failed: " +:+ Exceptions.str str_ValidationError e))).
Proof.
  intros Hrun Hd.
  destruct (OnboardingAgent_run user_input) as [e1|p] eqn:H1.
  { unfold run in Hrun. rewrite H1 in Hrun.
    injection Hrun as <-. discriminate Hd. }
  assert (Htt : In (UserInput.template_type user_input) TemplateType).
  { unfold run in Hrun. rewrite H1 in Hrun.
    destruct (RenderConfig.new (UserInput.template_type user_input) 0)
      as [e|rc] eqn:Erc; [discriminate Hrun|].
    exact (proj1 (template_type_checked _ _ Erc)). }
  rewrite (run_after_onboarding user_input p Htt H1) in Hrun. cbv zeta in Hrun.
  exists p. split; [reflexivity|].
  destruct (LandingAgent.run year renderer llm _) as [c3 res] eqn:H3.
  pose proof (PipelineFacts.landing_run_frame _ _ _ _ _ _ H3)
    as (Hmeta & Hproj & Hbrand & Hrender).
  assert (Hfields :
            CanonicalData.project c3 = p
            /\ CanonicalData.render c3
               = RenderConfig.mk (UserInput.template_type user_input) 0
            /\ CanonicalData.brand c3
               = Some match BrandAgent_run p with
                      | inr b => b
                      | inl _ => DefaultBrand.IDENTITY
                      end
            /\ GenerationMeta.pipeline_steps (CanonicalData.meta c3)
               = ["onboarding";
                  match BrandAgent_run p with
                  | inr _ => "brand"
                  | inl _ => "brand:fallback"
                  end]).
  { rewrite Hproj, Hrender, Hbrand, Hmeta.
    destruct (BrandAgent_run p); cbn; auto. }
  destruct Hfields as (Fp & Fr & Fb & Fs).
  destruct res as [e3|[content markup]]; injection Hrun as <-;
    cbn [canonical_data] in Hd; injection Hd as <-.
  - split; [exact Fp|]. split; [exact Htt|]. split; [exact Fr|].
    split; [exact Fb|]. exists []. split; [exact Fs|]. right.
    cbn [html success errors]. split; [reflexivity|].
    split; [reflexivity|]. split; [reflexivity|].
    exists e3. rewrite last_snoc. reflexivity.
  - destruct (LandingRunExtras.landing_run_ok _ _ _ _ _ _ _ H3) as (Hc & Hr).
    rewrite (LandingRunExtras.set_content_same c3 content Hc).
    cbn [CanonicalData.add_step CanonicalData.project CanonicalData.render
         CanonicalData.brand CanonicalData.meta CanonicalData.content
         GenerationMeta.pipeline_steps].
    split; [exact Fp|]. split; [exact Htt|]. split; [exact Fr|].
    split; [exact Fb|]. exists ["landing"]. split; [rewrite Fs; reflexivity|].
    left. split; [reflexivity|]. split; [rewrite Hc; discriminate|].
    cbn [html]. exact Hr.
Qed.

(** X20. A template file that is not found makes the run fail in
    stage 3, after the content was generated.  The result then has no
    markup and [success = False], its last error reads "LandingAgent
    failed: [E301] [render] Template '<file>' not found", and the
    returned document, whose log has no "landing" entry, already holds
    the generated content, with the sections of the template type, and
    the asset prompts: stage 3 wrote them into the shared document before
    rendering. *)
Theorem run_with_missing_template user_input p answered :
  In (UserInput.template_type user_input) TemplateType ->
  OnboardingAgent_run user_input = ok p ->
  PyStr.len (ProjectInfo.product_name p) <= 170 ->
  (forall d, llm d = ok answered) ->
  Renderer.get_template renderer
    (UserInput.template_type user_input +:+ ".html.j2")
  = Renderer.TemplateNotFound ->
  exists d brand_errors,
    run str_ValidationError now year renderer OnboardingAgent_run
      BrandAgent_run llm user_input
    = ok (mkPipelineResult (Some d) "" false
            (brand_errors
             ++ ["LandingAgent failed: [E301] [render] Template '"
                 +:+ UserInput.template_type user_input
                 +:+ ".html.j2' not found"]))
    /\ CanonicalData.content d
       = Some (LandingContent.set_sections answered
                 (LandingAgent._get_default_sections
                    (UserInput.template_type user_input)))
    /\ LandingAgent._generate_asset_prompts d = ok (CanonicalData.assets d)
    /\ ~ In "landing" (GenerationMeta.pipeline_steps (CanonicalData.meta d))
    /\ CanonicalData.project d = p.
Proof.
  intros Htt H1 Hlen Hllm Hnone.
  rewrite (run_after_onboarding user_input p Htt H1). cbv zeta.
  match goal with
  | |- context [LandingAgent.run _ _ _ (fst ?s)] => set (stage2 := s)
  end.
  assert (Hdoc : exists b step,
             fst stage2
             = document_after_brand now p (UserInput.template_type user_input)
                 b step
             /\ (step = "brand" \/ step = "brand:fallback")).
  { subst stage2. destruct (BrandAgent_run p) as [e|b];
      eexists; eexists; (split; [reflexivity|]); auto. }
  destruct Hdoc as (b & step & Hdoc & Hstep).
  rewrite Hdoc.
  destruct (AgentExtras.asset_prompts_ok
              (document_after_brand now p (UserInput.template_type user_input)
                 b step) Hlen) as (a & Ha & _).
  unfold LandingAgent.run, LandingAgent._generate_content.
  rewrite Hllm, Ha. unfold ok, exc_bind.
  unfold CanonicalData.set_assets, CanonicalData.set_content.
  rewrite !PipelineFacts.assign_instance.
  unfold Renderer.render_landing, Renderer.TemplateRenderer_render_landing.
  cbn [CanonicalData.content CanonicalData.render CanonicalData.meta
       CanonicalData.project CanonicalData.brand CanonicalData.assets
       document_after_brand RenderConfig.template_type Renderer.str_or].
  assert (Hfile : Renderer.dict_get Renderer.TEMPLATE_FILES
                    (UserInput.template_type user_input) "saas.html.j2"
                  = UserInput.template_type user_input +:+ ".html.j2").
  { cbn in Htt. destruct Htt as [<-|[<-|[<-|[]]]]; reflexivity. }
  rewrite Hfile, Hnone.
  eexists. exists (snd stage2). split.
  - unfold raise. do 3 f_equal.
    cbn in Htt. destruct Htt as [<-|[<-|[<-|[]]]]; reflexivity.
  - cbn [CanonicalData.content CanonicalData.assets CanonicalData.meta
         CanonicalData.project GenerationMeta.pipeline_steps].
    split; [reflexivity|]. split.
    + exact Ha.
    + split; [|reflexivity].
      cbn [In]. destruct Hstep as [-> | ->];
        intros [H|[H|[]]]; discriminate H.
Qed.

End Driver.

(** A full run on the fixtures: three stages, no error. *)
Lemma run_always_returns_example :
  exists r,
    run (lax := Fixtures.lax_example) Fixtures.str_stub "2024-01-01T00:00:00" 2024 Fixtures.full_renderer
      Fixtures.onboarding_stub Fixtures.brand_stub Fixtures.content_stub
      Fixtures.example_user_input = ok r
    /\ (success r = true <-> errors r = [])
    /\ html r = "Welcome to TestProduct|Get Started".
Proof.
  destruct (run_always_returns (lax := Fixtures.lax_example) Fixtures.str_stub "2024-01-01T00:00:00" 2024
              Fixtures.full_renderer Fixtures.onboarding_stub Fixtures.brand_stub
              Fixtures.content_stub Fixtures.example_user_input
              (or_introl eq_refl))
    as (r & Hrun & _ & _ & Hs & _).
  exists r. split; [exact Hrun|]. split; [exact Hs|].
  vm_compute in Hrun. injection Hrun as <-. reflexivity.
Defined.

Lemma run_with_missing_template_example :
  exists d brand_errors,
    run (lax := Fixtures.lax_example) Fixtures.str_stub "2024-01-01T00:00:00" 2024 Fixtures.empty_renderer
      Fixtures.onboarding_stub Fixtures.brand_stub Fixtures.content_stub
      Fixtures.example_user_input
    = ok (mkPipelineResult (Some d) "" false
            (brand_errors
             ++ ["LandingAgent failed: [E301] [render] Template 'saas.html.j2' not found"]))
    /\ CanonicalData.content d <> None.
Proof.
  destruct (run_with_missing_template (lax := Fixtures.lax_example) Fixtures.str_stub "2024-01-01T00:00:00" 2024
              Fixtures.empty_renderer Fixtures.onboarding_stub Fixtures.brand_stub
              Fixtures.content_stub Fixtures.example_user_input
              Fixtures.valid_project_info Fixtures.valid_landing_content)
    as (d & brand_errors & Hrun & Hc & _).
  - left. reflexivity.
  - reflexivity.
  - vm_compute. discriminate.
  - intros d. reflexivity.
  - reflexivity.
  - exists d, brand_errors. split; [exact Hrun|rewrite Hc; discriminate].
Defined.

Lemma run_document_invariants_example :
  exists r d,
    run (lax := Fixtures.lax_example) Fixtures.str_stub "2024-01-01T00:00:00" 2024 Fixtures.full_renderer
      Fixtures.onboarding_stub Fixtures.brand_stub Fixtures.content_stub
      Fixtures.example_user_input = ok r
    /\ canonical_data r = Some d
    /\ Renderer.render_landing 2024 Fixtures.full_renderer d None None
       = ok (html r)
    /\ html r = "Welcome to TestProduct|Get Started".
Proof.
  eexists. eexists.
  split; [vm_compute; reflexivity|].
  split; [reflexivity|].
  split; [|reflexivity].
  edestruct (run_document_invariants (lax := Fixtures.lax_example) Fixtures.str_stub "2024-01-01T00:00:00" 2024
               Fixtures.full_renderer Fixtures.onboarding_stub Fixtures.brand_stub
               Fixtures.content_stub Fixtures.example_user_input)
    as (p & _ & _ & _ & _ & _ & rest & Hsteps & [(_ & _ & Hr)|(-> & _)]).
  - vm_compute. reflexivity.
  - reflexivity.
  - exact Hr.
  - vm_compute in Hsteps. discriminate Hsteps.
Defined.

End RunExtras.

(** ** Files written by the command line and by [save] *)

Module FileFacts.

Import Schemas Renderer FileSystem.

Lemma length_app_string (a b : string) :
  String.length (a +:+ b) = (String.length a + String.length b)%nat.
Proof.
  induction a as [|c a IH]; [reflexivity|].
  change (String c a +:+ b) with (String c (a +:+ b)).
  cbn [String.length]. rewrite IH. reflexivity.
Qed.

Lemma append_inj_r (a b s : string) : a +:+ s = b +:+ s -> a = b.
Proof.
  revert b. induction a as [|c a IH]; intros [|c' b] H.
  - reflexivity.
  - apply (f_equal String.length) in H.
    rewrite !length_app_string in H. cbn [String.length] in H. lia.
  - apply (f_equal String.length) in H.
    rewrite !length_app_string in H. cbn [String.length] in H. lia.
  - change (String c (a +:+ s) = String c' (b +:+ s)) in H.
    injection H as -> H. f_equal. apply IH. exact H.
Qed.

Lemma variant_path_inj (dir : Path) k1 k2 :
  path_div dir (k1 +:+ ".html") = path_div dir (k2 +:+ ".html") -> k1 = k2.
Proof.
  unfold path_div. intros H. apply app_inv_head in H.
  injection H as H. exact (append_inj_r _ _ _ H).
Qed.

Lemma path_div_deeper (dir : Path) a b c :
  path_div dir a <> path_div (path_div dir b) c.
Proof.
  unfold path_div. intros H. apply (f_equal (@length string)) in H.
  rewrite !length_app in H. cbn [length] in H. lia.
Qed.

Lemma path_div_inj (dir : Path) a b : path_div dir a = path_div dir b -> a = b.
Proof. unfold path_div. intros H. apply app_inv_head in H. congruence. Qed.

(** The files after the loop over the rendered variants: one file per
    key, nothing else touched. *)
Lemma write_variants_spec (dir : Path) (results : gmap string string)
    (fs : gmap Path string) :
  (forall key html,
      results !! key = Some html ->
      write_variants dir results fs !! path_div dir (key +:+ ".html") = Some html)
  /\ (forall path,
        (forall key, is_Some (results !! key) ->
                     path <> path_div dir (key +:+ ".html")) ->
        write_variants dir results fs !! path = fs !! path).
Proof.
  unfold write_variants.
  apply (map_fold_weak_ind
           (fun (fs' : gmap Path string) (m : gmap string string) =>
              (forall key html,
                  m !! key = Some html ->
                  fs' !! path_div dir (key +:+ ".html") = Some html)
              /\ (forall path,
                    (forall key, is_Some (m !! key) ->
                                 path <> path_div dir (key +:+ ".html")) ->
                    fs' !! path = fs !! path))).
  - split.
    + intros key html H. rewrite lookup_empty in H. discriminate H.
    + intros path _. reflexivity.
  - intros i x m r Hi (IH1 & IH2). cbv beta. unfold write_text. split.
    + intros key html H.
      destruct (decide (key = i)) as [->|Hne].
      * rewrite lookup_insert_eq in H. injection H as ->.
        apply lookup_insert_eq.
      * rewrite lookup_insert_ne in H by congruence.
        rewrite lookup_insert_ne; [apply IH1; exact H|].
        intros Heq. apply variant_path_inj in Heq. congruence.
    + intros path Hpath.
      rewrite lookup_insert_ne.
      * apply IH2. intros key Hkey. apply Hpath.
        destruct (decide (key = i)) as [->|Hne].
        -- rewrite lookup_insert_eq. eauto.
        -- rewrite lookup_insert_ne by congruence. exact Hkey.
      * intros Heq. apply (Hpath i); [|symmetry; exact Heq].
        rewrite lookup_insert_eq. eauto.
Qed.

Section Results.

Variables (year : Z) (renderer : TemplateRenderer) (data : CanonicalData.t)
          (c : LandingContent.t).
Hypothesis Hc : CanonicalData.content data = Some c.
(** Each single rendering the loops perform returns. *)
Hypothesis Hok :
  forall t i,
    t ∈ keys TEMPLATE_FILES ->
    0 <= i <= Z.of_nat (length (ContentVariants.headlines
                                  (LandingContent.variants c))) ->
    is_raise (TemplateRenderer_render_landing year renderer data
                (Some t) (Some i)) = false.

(** The mapping of [render_all_variants], key by key. *)
Lemma results_lookup :
  let k := length (ContentVariants.headlines (LandingContent.variants c)) in
  exists m : gmap string string,
    render_all_variants year renderer data = ok m
    /\ (forall t i,
          t ∈ keys TEMPLATE_FILES -> 0 <= i <= Z.of_nat k ->
          m !! variant_key t i
          = Some (rendered year renderer data (Some t) (Some i)))
    /\ (forall t i,
          t ∈ keys TEMPLATE_FILES -> ~ (0 <= i <= Z.of_nat k) ->
          m !! variant_key t i = None).
Proof.
  intros k.
  set (E := all_entries year renderer data k).
  assert (HND : NoDup (reverse E).*1).
  { rewrite fmap_reverse, reverse_Permutation.
    apply BulkFacts.all_entries_keys_NoDup. }
  exists (list_to_map (reverse E)).
  split; [apply (BulkFacts.render_all_variants_entries _ _ _ _ Hc Hok)|].
  split.
  - intros t i Ht Hi.
    apply elem_of_list_to_map; [exact HND|].
    apply elem_of_reverse, BulkFacts.all_entries_elem. exists t, i. auto.
  - intros t i Ht Hi.
    destruct (list_to_map (reverse E) !! variant_key t i) as [html|] eqn:El;
      [|reflexivity].
    apply elem_of_list_to_map in El; [|exact HND].
    apply elem_of_reverse, BulkFacts.all_entries_elem in El
      as (t' & i' & Ht' & Hi' & Hk & _).
    destruct (BulkFacts.variant_key_inj t i t' i' Ht Ht' Hk) as (_ & ->).
    contradiction.
Qed.

End Results.

End FileFacts.

(** ** main.py: what a rendering run writes *)

Module MainFacts.

Import Schemas Invariants Renderer FileSystem Main.

Lemma int_range_field_valid ge le n a :
  int_range_field ge le n = inr a -> a = n /\ ge <= n <= le.
Proof.
  unfold int_range_field.
  destruct (Z.ltb_spec n ge); [discriminate|].
  destruct (Z.ltb_spec le n); [discriminate|].
  unfold ok. intros [= <-]. lia.
Qed.

Lemma RenderConfig_from_json_valid {lax : Lax} j rc :
  RenderConfig.from_json j = inr rc -> RenderConfig_valid rc.
Proof.
  destruct j; cbn [RenderConfig.from_json]; intros H;
    try (unfold fail, raise in H; discriminate H).
  ConstructionFacts.vap_inv H. unfold RenderConfig_valid.
  cbn [RenderConfig.template_type RenderConfig.variant_id]. split.
  - apply LoadExtras.defaulted_inv in Ha0 as [(_ & ->)|(j1 & _ & H1)].
    + cbn. tauto.
    + apply LoadExtras.bind_inv in H1 as (s & _ & H1).
      destruct (ConstructionFacts.literal_field_valid _ _ _ H1) as (-> & Hin).
      exact Hin.
  - apply LoadExtras.defaulted_inv in Ha as [(_ & ->)|(j2 & _ & H2)].
    + lia.
    + apply LoadExtras.bind_inv in H2 as (n & _ & H2).
      destruct (int_range_field_valid _ _ _ _ H2) as (-> & Hn). exact Hn.
Qed.

Lemma from_json_render_valid {lax : Lax} now j d :
  CanonicalData.from_json now j = inr d ->
  RenderConfig_valid (CanonicalData.render d).
Proof.
  destruct j; cbn [CanonicalData.from_json]; intros H;
    try (unfold fail, raise in H; discriminate H).
  apply LoadExtras.bind_inv in H as (d0 & H0 & Hd).
  unfold ok in Hd. injection Hd as <-.
  rewrite PipelineFacts.validate_variant_id_bounds_id.
  ConstructionFacts.vap_inv H0. cbn [CanonicalData.render].
  apply LoadExtras.defaulted_inv in Ha as [(_ & ->)|(j1 & _ & H1)].
  - exact (proj1 (proj2 (proj2 (ConstructionFacts.defaults_valid now)))).
  - exact (RenderConfig_from_json_valid _ _ H1).
Qed.

(** Rendering with the document's own template type and variant id as
    overrides is rendering with no override. *)
Lemma render_own_settings year renderer data :
  TemplateRenderer_render_landing year renderer data
    (Some (RenderConfig.template_type (CanonicalData.render data)))
    (Some (RenderConfig.variant_id (CanonicalData.render data)))
  = TemplateRenderer_render_landing year renderer data None None.
Proof.
  unfold TemplateRenderer_render_landing.
  destruct (CanonicalData.content data); [|reflexivity].
  destruct (RenderConfig.template_type (CanonicalData.render data));
    reflexivity.
Qed.

Lemma render_own_template_variant_zero year renderer data c :
  CanonicalData.content data = Some c ->
  ~ (0 <= RenderConfig.variant_id (CanonicalData.render data)
     <= Z.of_nat (length (ContentVariants.headlines (LandingContent.variants c)))) ->
  TemplateRenderer_render_landing year renderer data
    (Some (RenderConfig.template_type (CanonicalData.render data))) (Some 0)
  = TemplateRenderer_render_landing year renderer data None None.
Proof.
  intros Hc Hv. rewrite <- render_own_settings.
  apply (RenderExtras.render_landing_by_texts _ _ _ c); [exact Hc|].
  intros default variants. cbn [requested_variant].
  rewrite (RenderExtras.resolve_clamp_outside _ _ _ 0) by lia.
  rewrite (RenderExtras.resolve_clamp_outside _ _ _
             (RenderConfig.variant_id (CanonicalData.render data))) by lia.
  reflexivity.
Qed.

Section Cli.

    Context {lax : Lax}.
Variables (now : string) (year : Z) (renderer : TemplateRenderer)
          (read_text : Path -> option string)
          (loads : string -> option Json.t) (dumps : Json.t -> string).

Lemma from_file_render_valid input data :
  from_file now read_text loads input = ok data ->
  RenderConfig_valid (CanonicalData.render data).
Proof.
  unfold from_file.
  destruct (read_text input) as [text|]; [|discriminate].
  destruct (loads text) as [j|]; [|discriminate].
  destruct (CanonicalData.from_json now j) as [e|d] eqn:Ej; [discriminate|].
  intros [= <-]. exact (from_json_render_valid _ _ _ Ej).
Qed.

(** X21. [run_render] with [--all-variants], on a stored document that
    loads and has content, when each single rendering of the three
    templates and the variant ids [0..k] returns: the exit
    code is 0 whatever [--template] and [--variant] say, since this mode
    does not read them; [canonical.json] holds the document as written
    by [to_json]; [variants/<template>_v<i>.html] holds the page of each
    template and variant id [0..k]; and [index.html] holds exactly the
    page that [render_landing(data)] gives for the document's own
    template and variant, also when its [variant_id] is beyond the
    alternates, where the fallback to [<template>_v0] is that page. *)
Theorem run_render_all_variants input output_dir fs data c :
  from_file now read_text loads input = ok data ->
  CanonicalData.content data = Some c ->
  (forall t i,
      t ∈ keys TEMPLATE_FILES ->
      0 <= i <= Z.of_nat (length (ContentVariants.headlines
                                    (LandingContent.variants c))) ->
      is_raise (TemplateRenderer_render_landing year renderer data
                  (Some t) (Some i)) = false) ->
  exists fs' html,
    (forall template_override variant_override,
        run_render now year renderer read_text loads dumps input output_dir
          true template_override variant_override fs = (fs', ok 0))
    /\ render_landing year renderer data None None = ok html
    /\ fs' !! path_div output_dir "index.html" = Some html
    /\ fs' !! path_div output_dir "canonical.json"
       = Some (dumps (CanonicalData.to_json data))
    /\ (forall t i,
          t ∈ keys TEMPLATE_FILES ->
          0 <= i <= Z.of_nat (length (ContentVariants.headlines
                                        (LandingContent.variants c))) ->
          exists page,
            render_landing year renderer data (Some t) (Some i) = ok page
            /\ fs' !! path_div (path_div output_dir "variants")
                        (variant_key t i +:+ ".html") = Some page).
Proof.
  intros Hload Hc Htpl.
  pose proof (from_file_render_valid _ _ Hload) as (Htt & _).
  set (tt := RenderConfig.template_type (CanonicalData.render data)) in *.
  set (vid := RenderConfig.variant_id (CanonicalData.render data)).
  set (k := length (ContentVariants.headlines (LandingContent.variants c))).
  assert (Hkey : tt ∈ keys TEMPLATE_FILES).
  { apply list_elem_of_In. exact Htt. }
  destruct (FileFacts.results_lookup year renderer data c Hc Htpl)
    as (m & Hm & Hin & Hout). fold k in Hin, Hout.
  pose proof (Hin tt 0 Hkey ltac:(lia)) as Hv0.
  set (index :=
         match m !! variant_key tt vid with
         | Some page => page
         | None => rendered year renderer data (Some tt) (Some 0)
         end).
  assert (Hrun : forall template_override variant_override,
             run_render now year renderer read_text loads dumps input output_dir
               true template_override variant_override fs
             = (write_text (path_div output_dir "index.html") index
                  (write_variants (path_div output_dir "variants") m
                     (write_text (path_div output_dir "canonical.json")
                        (dumps (CanonicalData.to_json data)) fs)),
                ok 0)).
  { intros template_override variant_override. unfold run_render.
    rewrite Hload. unfold ok at 1. rewrite Hc. cbv zeta.
    rewrite Hm. unfold ok at 1. fold tt vid. rewrite Hv0. reflexivity. }
  assert (Hindex : render_landing year renderer data None None = ok index).
  { unfold render_landing. subst index.
    destruct (Z_le_dec 0 vid) as [H0|H0];
      [destruct (Z_le_dec vid (Z.of_nat k)) as [H1|H1]|].
    - rewrite (Hin tt vid Hkey (conj H0 H1)).
      rewrite <- render_own_settings. fold tt vid.
      apply (BulkFacts.render_total _ _ _ c Htpl); [exact Hkey|].
      fold k. lia.
    - rewrite (Hout tt vid Hkey) by lia.
      rewrite <- (render_own_template_variant_zero _ _ _ c Hc)
        by (fold vid k; lia).
      fold tt. apply (BulkFacts.render_total _ _ _ c Htpl); [exact Hkey|lia].
    - rewrite (Hout tt vid Hkey) by lia.
      rewrite <- (render_own_template_variant_zero _ _ _ c Hc)
        by (fold vid k; lia).
      fold tt. apply (BulkFacts.render_total _ _ _ c Htpl); [exact Hkey|lia]. }
  destruct (FileFacts.write_variants_spec (path_div output_dir "variants") m
              (write_text (path_div output_dir "canonical.json")
                 (dumps (CanonicalData.to_json data)) fs))
    as (Hfiles & Hother).
  eexists. exists index. split; [exact Hrun|]. split; [exact Hindex|].
  unfold write_text in *. split; [apply lookup_insert_eq|]. split.
  - rewrite lookup_insert_ne.
    + rewrite Hother; [apply lookup_insert_eq|].
      intros key _. apply FileFacts.path_div_deeper.
    + intros H. apply FileFacts.path_div_inj in H. discriminate H.
  - intros t i Ht Hi.
    exists (rendered year renderer data (Some t) (Some i)). split.
    + apply (BulkFacts.render_total _ _ _ c Htpl); assumption.
    + rewrite lookup_insert_ne by apply FileFacts.path_div_deeper.
      apply Hfiles, Hin; assumption.
Qed.

(** X22. [run_render] for a single page exits with 0 or 1, or lets an
    exception of the templating engine through: [except PipelineError]
    catches nothing else.  It exits with 0 exactly when the document
    loads and [render_landing] returns a page, and then [index.html]
    holds that page.  When the input does not load, or loads without
    content, it exits with 1 and nothing is written.  When the document
    has content, [canonical.json] is written before rendering: it is
    there also when rendering raises, in which case [index.html] is not
    written, the exit code is 1 for the renderer's own error, and an
    exception of the engine leaves the function as it is. *)
Theorem run_render_single_page input output_dir template_override
    variant_override fs :
  let result :=
    run_render now year renderer read_text loads dumps input output_dir
      false template_override variant_override fs in
  let canonical_path := path_div output_dir "canonical.json" in
  let index_path := path_div output_dir "index.html" in
  (snd result = ok 0 \/ snd result = ok 1
   \/ exists e, snd result = raise (EngineFailure e))
  /\ (snd result = ok 0 <->
      exists data html,
        from_file now read_text loads input = ok data
        /\ render_landing year renderer data template_override variant_override
           = ok html)
  /\ (forall data html,
        from_file now read_text loads input = ok data ->
        render_landing year renderer data template_override variant_override
        = ok html ->
        result
        = (<[index_path := html]>
             (<[canonical_path := dumps (CanonicalData.to_json data)]> fs),
           ok 0))
  /\ (forall data e,
        from_file now read_text loads input = ok data ->
        CanonicalData.content data <> None ->
        render_landing year renderer data template_override variant_override
        = raise (Raised e) ->
        result
        = (<[canonical_path := dumps (CanonicalData.to_json data)]> fs, ok 1))
  /\ (forall data e,
        from_file now read_text loads input = ok data ->
        render_landing year renderer data template_override variant_override
        = raise (Propagated e) ->
        result
        = (<[canonical_path := dumps (CanonicalData.to_json data)]> fs,
           raise (EngineFailure e)))
  /\ (forall data,
        from_file now read_text loads input = ok data ->
        CanonicalData.content data = None -> result = (fs, ok 1))
  /\ (is_raise (from_file now read_text loads input) = true ->
      result = (fs, ok 1))
  /\ (forall u,
        snd result = raise u ->
        exists data e,
          u = EngineFailure e
          /\ from_file now read_text loads input = ok data
          /\ render_landing year renderer data template_override
               variant_override = raise (Propagated e)).
Proof.
  intros result canonical_path index_path. subst result.
  unfold run_render. fold canonical_path index_path.
  destruct (from_file now read_text loads input) as [e0|data] eqn:Hload.
  { cbn [fst snd is_raise].
    split; [right; left; reflexivity|]. split.
    - split; [discriminate|]. intros (d & h & H & _). discriminate H.
    - split; [intros d h H; discriminate H|].
      split; [intros d e H; discriminate H|].
      split; [intros d e H; discriminate H|].
      split; [intros d H; discriminate H|].
      split; [reflexivity|discriminate]. }
  destruct (CanonicalData.content data) as [c|] eqn:Hc.
  - cbv zeta. unfold write_text.
    destruct (render_landing year renderer data template_override
                variant_override) as [[e|e]|html] eqn:Hr; cbn [fst snd is_raise].
    + split; [right; left; reflexivity|]. split.
      * split; [discriminate|].
        intros (d & h & [= <-] & H). rewrite Hr in H. discriminate H.
      * split; [intros d h [= <-] H; rewrite Hr in H; discriminate H|].
        split; [intros d e' [= <-] _ _; reflexivity|].
        split; [intros d e' [= <-] H; rewrite Hr in H; discriminate H|].
        split; [intros d [= <-] H; rewrite Hc in H; discriminate H|].
        split; discriminate.
    + split; [right; right; exists e; reflexivity|]. split.
      * split; [discriminate|].
        intros (d & h & [= <-] & H). rewrite Hr in H. discriminate H.
      * split; [intros d h [= <-] H; rewrite Hr in H; discriminate H|].
        split; [intros d e' [= <-] _ H; rewrite Hr in H; discriminate H|].
        split; [intros d e' [= <-] H; rewrite Hr in H; injection H as <-;
                reflexivity|].
        split; [intros d [= <-] H; rewrite Hc in H; discriminate H|].
        split; [discriminate|].
        intros u [= <-]. exists data, e. repeat split. exact Hr.
    + split; [left; reflexivity|]. split.
      * split; [|reflexivity]. intros _. exists data, html. auto.
      * split; [intros d h [= <-] H; rewrite Hr in H; injection H as <-;
                reflexivity|].
        split; [intros d e' [= <-] _ H; rewrite Hr in H; discriminate H|].
        split; [intros d e' [= <-] H; rewrite Hr in H; discriminate H|].
        split; [intros d [= <-] H; rewrite Hc in H; discriminate H|].
        split; discriminate.
  - cbn [fst snd is_raise].
    split; [right; left; reflexivity|]. split.
    + split; [discriminate|].
      intros (d & h & [= <-] & H). revert H.
      unfold render_landing, TemplateRenderer_render_landing.
      rewrite Hc. discriminate.
    + split.
      * intros d h [= <-]. unfold render_landing,
          TemplateRenderer_render_landing. rewrite Hc. discriminate.
      * split; [intros d e [= <-] H; congruence|].
        split.
        { intros d e [= <-]. unfold render_landing,
            TemplateRenderer_render_landing. rewrite Hc. discriminate. }
        split; [reflexivity|]. split; discriminate.
Qed.

End Cli.

(** The stored example rendered in all variants into [site/]. *)
Lemma run_render_all_variants_example :
  exists fs',
    run_render (lax := Fixtures.lax_example) "2030-01-01T00:00:00" 2024
      Fixtures.full_renderer
      Fixtures.read_stub Fixtures.loads_stub Fixtures.dumps_stub
      Fixtures.stored_input ["site"] true (Some "agency") (Some 1) ∅
    = (fs', ok 0)
    /\ fs' !! ["site"; "index.html"] = Some "Welcome to TestProduct|Get Started"
    /\ fs' !! ["site"; "canonical.json"] = Some "{example}".
Proof.
  destruct (run_render_all_variants (lax := Fixtures.lax_example)
              "2030-01-01T00:00:00" 2024 Fixtures.full_renderer Fixtures.read_stub Fixtures.loads_stub
              Fixtures.dumps_stub Fixtures.stored_input ["site"] ∅
              Fixtures.example_data Fixtures.example_content)
    as (fs' & html & Hrun & Hr & Hindex & Hcanon & _).
  - vm_compute. reflexivity.
  - reflexivity.
  - intros t i Ht _.
    apply BulkFacts.full_renderer_renders; [discriminate|exact Ht].
  - exists fs'. split; [apply Hrun|].
    vm_compute in Hr. injection Hr as <-.
    split; [exact Hindex|exact Hcanon].
Defined.

End MainFacts.

(** ** Saving the outputs of a run *)

Module SaveFacts.

Import Schemas Invariants Exceptions Orchestrator FileSystem.

Section Saving.

    Context {lax : Lax}.
Variables (dumps : Json.t -> string) (year : Z)
          (renderer : Renderer.TemplateRenderer)
          (str_ValidationError : ValidationError -> string) (now : string)
          (OnboardingAgent_run : UserInput.t -> Exc PyException ProjectInfo.t)
          (BrandAgent_run : ProjectInfo.t -> Exc PyException BrandIdentity.t)
          (llm : CanonicalData.t -> Exc PyException LandingContent.t)
          (to_path : string -> Path).

(** [save] without the variants: at most two files, and no exception. *)
Lemma save_without_variants self output_dir fs :
  exists paths,
    save dumps year renderer self output_dir false fs
    = ((if PyStr.truthy (html self)
        then <[path_div output_dir "index.html" := html self]>
        else id)
         (match canonical_data self with
          | Some d =>
              <[path_div output_dir "canonical.json"
                := dumps (CanonicalData.to_json d)]> fs
          | None => fs
          end),
       ok paths).
Proof.
  unfold save, write_text.
  destruct (canonical_data self) as [d|]; destruct (PyStr.truthy (html self));
    eexists; reflexivity.
Qed.

Lemma run_with_output_dir_after_onboarding user_input project_info
    output_dir fs :
  In (UserInput.template_type user_input) TemplateType ->
  OnboardingAgent_run user_input = ok project_info ->
  run_with_output_dir dumps year renderer str_ValidationError now
    OnboardingAgent_run BrandAgent_run llm to_path user_input output_dir fs
  = let stage2 :=
      match BrandAgent_run project_info with
      | inr b =>
          (document_after_brand now project_info
             (UserInput.template_type user_input) b "brand", [])
      | inl e =>
          (document_after_brand now project_info
             (UserInput.template_type user_input)
             DefaultBrand.IDENTITY "brand:fallback",
           ["BrandAgent failed (using defaults): "
            +:+ Exceptions.str str_ValidationError e])
      end in
    match LandingAgent.run year renderer llm (fst stage2) with
    | (c3, inl e) =>
        (fs,
         ok (mkPipelineResult (Some c3) "" false
               (snd stage2 ++ ["LandingAgent failed: "
                               +:+ Exceptions.str str_ValidationError e])))
    | (c3, inr (content, markup)) =>
        let result :=
          mkPipelineResult
            (Some (CanonicalData.add_step
                     (CanonicalData.mk (CanonicalData.meta c3)
                        (CanonicalData.project c3) (CanonicalData.brand c3)
                        (Some content) (CanonicalData.assets c3)
                        (CanonicalData.render c3))
                     "landing"))
            markup
            (match snd stage2 with [] => true | _ => false end)
            (snd stage2) in
        (match output_dir with
         | Some dir =>
             if PyStr.truthy dir
             then fst (save dumps year renderer result (to_path dir) false fs)
             else fs
         | None => fs
         end,
         ok result)
    end.
Proof.
  intros Htt H1. unfold run_with_output_dir. rewrite H1.
  rewrite (PipelineFacts.RenderConfig_new_member _ Htt).
  unfold ok. cbv zeta.
  pose proof (RunExtras.brand_stage_result str_ValidationError now
                BrandAgent_run project_info
                (UserInput.template_type user_input)) as Hb.
  unfold ok in Hb. rewrite Hb. clear Hb.
  destruct (BrandAgent_run project_info) as [e2|b]; cbn [fst snd];
    destruct (LandingAgent.run _ _ _ _) as [c3 [e|[content markup]]];
    try reflexivity;
    unfold CanonicalData.set_content;
    rewrite PipelineFacts.assign_instance;
    (destruct output_dir as [dir|]; [|reflexivity]);
    (destruct (PyStr.truthy dir); [|reflexivity]);
    match goal with
    | |- context [save dumps year renderer ?r ?d false fs] =>
        destruct (save_without_variants r d fs) as (paths & ->)
    end;
    reflexivity.
Qed.

(** X23. [LandingPipeline.run] with an output directory.  The directory
    never changes the result that is returned.  Files are written in
    one case only: the directory is given and is not the empty string,
    and stage 3 succeeded, which the log of the returned document shows
    by its last entry "landing".  Then [canonical.json] holds the
    document and, when the markup is not empty, [index.html] holds the
    markup; this also happens when [success] is [False] because the
    default brand was used.  A run that stops at stage 1 or stage 3
    writes nothing. *)
Theorem run_saves_after_stage_three user_input output_dir fs :
  let result :=
    run_with_output_dir dumps year renderer str_ValidationError now
      OnboardingAgent_run BrandAgent_run llm to_path user_input output_dir fs in
  let plain :=
    run str_ValidationError now year renderer OnboardingAgent_run
      BrandAgent_run llm user_input in
  let saved (dir : string) (r : PipelineResult) (d : CanonicalData.t) :=
    (if PyStr.truthy (html r)
     then <[path_div (to_path dir) "index.html" := html r]>
     else id)
      (<[path_div (to_path dir) "canonical.json"
         := dumps (CanonicalData.to_json d)]> fs) in
  snd result = plain
  /\ (fst result = fs
      \/ exists dir r d,
           output_dir = Some dir /\ dir <> ""
           /\ plain = ok r /\ canonical_data r = Some d
           /\ last (GenerationMeta.pipeline_steps (CanonicalData.meta d))
              = Some "landing"
           /\ fst result = saved dir r d)
  /\ (forall dir r d,
        output_dir = Some dir -> dir <> "" ->
        plain = ok r -> canonical_data r = Some d ->
        In "landing" (GenerationMeta.pipeline_steps (CanonicalData.meta d)) ->
        fst result = saved dir r d).
Proof.
  intros result plain saved. subst result plain.
  destruct (OnboardingAgent_run user_input) as [e1|p] eqn:H1.
  { unfold run_with_output_dir, run. rewrite H1. cbn [fst snd].
    split; [reflexivity|]. split; [left; reflexivity|].
    intros dir r d _ _ [= <-] Hd. discriminate Hd. }
  destruct (RenderConfig.new (UserInput.template_type user_input) 0)
    as [e|rc] eqn:Erc.
  { unfold run_with_output_dir, run. rewrite H1, Erc. cbn [fst snd].
    split; [reflexivity|]. split; [left; reflexivity|].
    intros dir r d _ _ H. discriminate H. }
  destruct (RunExtras.template_type_checked _ _ Erc) as (Htt & _).
  rewrite (run_with_output_dir_after_onboarding _ p _ _ Htt H1).
  rewrite (RunExtras.run_after_onboarding str_ValidationError now year renderer
             OnboardingAgent_run BrandAgent_run llm user_input p Htt H1).
  cbv zeta.
  match goal with
  | |- context [LandingAgent.run year renderer llm (fst ?s)] => set (stage2 := s)
  end.
  assert (Hsteps : exists step,
             GenerationMeta.pipeline_steps (CanonicalData.meta (fst stage2))
             = ["onboarding"; step]
             /\ step <> "landing").
  { subst stage2. destruct (BrandAgent_run p); eexists;
      (split; [reflexivity|discriminate]). }
  destruct Hsteps as (step & Hsteps & Hstep).
  destruct (LandingAgent.run year renderer llm (fst stage2))
    as [c3 [e3|[content markup]]] eqn:H3; cbn [fst snd].
  - split; [reflexivity|]. split; [left; reflexivity|].
    intros dir r d _ _ [= <-] [= <-] Hin.
    destruct (PipelineFacts.landing_run_frame _ _ _ _ _ _ H3) as (Hmeta & _).
    rewrite Hmeta, Hsteps in Hin. cbn [In] in Hin.
    destruct Hin as [H|[H|[]]]; [discriminate H|congruence].
  - split; [reflexivity|].
    match goal with
    | |- context [save dumps year renderer ?r _ false fs] => set (res := r)
    end.
    assert (Hsave : forall dir,
               fst (save dumps year renderer res (to_path dir) false fs)
               = saved dir res
                   (CanonicalData.add_step
                      (CanonicalData.mk (CanonicalData.meta c3)
                         (CanonicalData.project c3) (CanonicalData.brand c3)
                         (Some content) (CanonicalData.assets c3)
                         (CanonicalData.render c3)) "landing")).
    { intros dir.
      destruct (save_without_variants res (to_path dir) fs) as (paths & ->).
      reflexivity. }
    split.
    + destruct output_dir as [dir|]; [|left; reflexivity].
      destruct (PyStr.truthy dir) eqn:Hdir; [|left; reflexivity].
      right. exists dir, res. eexists.
      split; [reflexivity|].
      split; [apply InputExtras.truthy_nonempty; exact Hdir|].
      split; [reflexivity|]. split; [reflexivity|].
      split; [|apply Hsave].
      cbn [CanonicalData.add_step CanonicalData.meta
           GenerationMeta.pipeline_steps].
      apply last_snoc.
    + intros dir r d -> Hne [= <-] [= <-] _.
      apply InputExtras.truthy_nonempty in Hne. rewrite Hne. apply Hsave.
Qed.

End Saving.

(** A run with the default brand, saved into [site]: [success] is
    [False], and both files are written. *)
Lemma run_saves_after_stage_three_example :
  exists fs' r,
    run_with_output_dir (lax := Fixtures.lax_example) Fixtures.dumps_stub 2024
      Fixtures.full_renderer
      Fixtures.str_stub "2024-01-01T00:00:00" Fixtures.onboarding_stub
      Fixtures.failing_brand_stub Fixtures.content_stub (fun dir => [dir])
      Fixtures.example_user_input (Some "site") ∅ = (fs', ok r)
    /\ success r = false
    /\ fs' !! ["site"; "canonical.json"] = Some "{example}"
    /\ fs' !! ["site"; "index.html"] = Some "Welcome to TestProduct|Get Started".
Proof.
  pose proof (run_saves_after_stage_three (lax := Fixtures.lax_example)
                Fixtures.dumps_stub 2024 Fixtures.full_renderer Fixtures.str_stub "2024-01-01T00:00:00"
                Fixtures.onboarding_stub Fixtures.failing_brand_stub
                Fixtures.content_stub (fun dir => [dir])
                Fixtures.example_user_input (Some "site") ∅)
    as (Hres & _ & Hsaved).
  cbv zeta in Hres, Hsaved.
  destruct (run_with_output_dir _ _ _ _ _ _ _ _ _ _ _ _) as [fs' res].
  cbn [fst snd] in Hres, Hsaved. subst res.
  eexists. eexists. split; [vm_compute; reflexivity|].
  split; [reflexivity|].
  rewrite (Hsaved "site" _ _ eq_refl ltac:(discriminate)
             ltac:(vm_compute; reflexivity) eq_refl
             ltac:(cbn; tauto)).
  split; reflexivity.
Defined.

End SaveFacts.

(** ** Loading establishes the invariants *)

Module LoadValidFacts.

Import Schemas Invariants ValidationFacts LoadExtras.

Ltac not_object H := try (unfold fail, raise in H; discriminate H).

Lemma required_as_str {A : Type} o k (f : string -> V A) a :
  Decode.required o k (fun j => do s <- Decode.as_str j; f s) = inr a ->
  exists s, f s = inr a.
Proof.
  intros H. apply required_inv in H as (j & _ & H).
  apply bind_inv in H as (s & _ & H). eauto.
Qed.

Lemma items_valid {A : Type} (P : A -> Prop) (f : Json.t -> V A) :
  (forall j x, f j = inr x -> P x) ->
  forall l i xs, Decode.items f l i = inr xs -> Forall P xs.
Proof.
  intros Hf. induction l as [|j l IH]; intros i xs H.
  - cbn in H. unfold ok in H. injection H as <-. constructor.
  - cbn [Decode.items] in H. ConstructionFacts.vap_inv H.
    constructor; [exact (Hf _ _ Ha0)|exact (IH _ _ Ha)].
Qed.

Lemma as_list_valid {A : Type} (P : A -> Prop) (f : Json.t -> V A) j xs :
  (forall j x, f j = inr x -> P x) ->
  Decode.as_list f j = inr xs -> Forall P xs.
Proof.
  intros Hf. destruct j; cbn [Decode.as_list]; intros H; not_object H.
  exact (items_valid P f Hf _ _ _ H).
Qed.

Lemma as_list_max_valid {A : Type} (P : A -> Prop) (f : Json.t -> V A)
    max_length j xs :
  (forall j x, f j = inr x -> P x) ->
  Decode.as_list_max max_length f j = inr xs -> Forall P xs.
Proof.
  intros Hf. destruct j; cbn [Decode.as_list_max]; intros H; not_object H.
  destruct (max_length <? Z.of_nat (length l)); not_object H.
  exact (items_valid P f Hf _ _ _ H).
Qed.

Lemma nullable_valid {A : Type} (P : A -> Prop) (f : Json.t -> V A) j o :
  (forall j x, f j = inr x -> P x) ->
  Decode.nullable f j = inr o -> opt_valid P o.
Proof.
  intros Hf. destruct j; cbn [Decode.nullable]; intros H;
    try (unfold ok in H; injection H as <-; exact I);
    apply bind_inv in H as (a & Ha & H); unfold ok in H; injection H as <-;
    exact (Hf _ _ Ha).
Qed.

Lemma HeroSection_from_json_valid j x :
  HeroSection.from_json j = inr x -> HeroSection_valid x.
Proof.
  destruct j; cbn [HeroSection.from_json]; intros H; not_object H.
  ConstructionFacts.vap_inv H. unfold HeroSection_valid.
  split; [|split]; eapply required_str_valid; eassumption.
Qed.

Lemma Testimonial_from_json_valid j x :
  Testimonial.from_json j = inr x -> Testimonial_valid x.
Proof.
  destruct j; cbn [Testimonial.from_json]; intros H; not_object H.
  ConstructionFacts.vap_inv H. unfold Testimonial_valid.
  split; [|split]; eapply required_str_valid; eassumption.
Qed.

Lemma Feature_from_json_valid j x :
  Feature.from_json j = inr x -> Feature_valid x.
Proof.
  destruct j; cbn [Feature.from_json]; intros H; not_object H.
  ConstructionFacts.vap_inv H. unfold Feature_valid.
  cbn [Feature.title Feature.description Feature.icon].
  split; [eapply required_str_valid; eassumption|].
  split; [eapply required_str_valid; eassumption|].
  apply required_as_str in Ha as (s & Hs).
  rewrite AllowListFacts.icon_field_validate_icon,
    AllowListFacts.validate_icon_result in Hs.
  destruct (bool_decide _) eqn:Hb in Hs; [|discriminate Hs].
  injection Hs as <-. apply bool_decide_eq_true_1 in Hb. exact Hb.
Qed.

Lemma required_color_valid o k a :
  Decode.required o k ColorPalette.color_json = inr a ->
  matches_HEX_COLOR_PATTERN a = true.
Proof.
  intros H. apply required_as_str in H as (s & Hs).
  unfold pattern_field in Hs.
  destruct (matches_HEX_COLOR_PATTERN s) eqn:E; [|discriminate Hs].
  unfold ok in Hs. injection Hs as <-. exact E.
Qed.

Lemma ColorPalette_from_json_valid j x :
  ColorPalette.from_json j = inr x -> ColorPalette_valid x.
Proof.
  destruct j; cbn [ColorPalette.from_json]; intros H; not_object H.
  ConstructionFacts.vap_inv H. unfold ColorPalette_valid.
  repeat split; eapply required_color_valid; eassumption.
Qed.

Lemma required_font_valid o k a :
  Decode.required o k Typography.font_json = inr a -> a ∈ ALLOWED_FONTS.
Proof.
  intros H. apply required_as_str in H as (s & Hs).
  unfold Typography.validate_font in Hs.
  destruct (bool_decide (s ∈ ALLOWED_FONTS)) eqn:Hb; [|discriminate Hs].
  unfold ok in Hs. injection Hs as <-.
  apply bool_decide_eq_true_1 in Hb. exact Hb.
Qed.

Lemma Typography_from_json_valid j x :
  Typography.from_json j = inr x -> Typography_valid x.
Proof.
  destruct j; cbn [Typography.from_json]; intros H; not_object H.
  ConstructionFacts.vap_inv H. unfold Typography_valid.
  split; eapply required_font_valid; eassumption.
Qed.

Lemma BrandIdentity_from_json_valid j x :
  BrandIdentity.from_json j = inr x -> BrandIdentity_valid x.
Proof.
  destruct j; cbn [BrandIdentity.from_json]; intros H; not_object H.
  ConstructionFacts.vap_inv H. unfold BrandIdentity_valid.
  cbn [BrandIdentity.colors BrandIdentity.fonts BrandIdentity.tone_rules].
  apply required_inv in Ha1 as (j1 & _ & H1).
  apply required_inv in Ha0 as (j0 & _ & H0).
  apply required_inv in Ha as (j2 & _ & H2).
  apply bind_inv in H2 as (l & _ & H2).
  destruct (ConstructionFacts.tone_rules_field_valid _ _ H2) as (Hl & Hs).
  split; [exact (ColorPalette_from_json_valid _ _ H1)|].
  split; [exact (Typography_from_json_valid _ _ H0)|].
  split; assumption.
Qed.

Lemma defaulted_valid {A : Type} (P : A -> Prop) o k (f : Json.t -> V A)
    default a :
  P default -> (forall j x, f j = inr x -> P x) ->
  Decode.defaulted o k f default = inr a -> P a.
Proof.
  intros Hd Hf H. apply defaulted_inv in H as [(_ & ->)|(j & _ & H)];
    [exact Hd|exact (Hf _ _ H)].
Qed.

Lemma variants_json_valid j l :
  ContentVariants.variants_json j = inr l ->
  LenOk None (Some 3) l /\ Forall Stripped l.
Proof.
  intros H. apply bind_inv in H as (l0 & _ & H).
  exact (ConstructionFacts.variants_field_valid _ _ H).
Qed.

Lemma ContentVariants_from_json_valid j x :
  ContentVariants.from_json j = inr x -> ContentVariants_valid x.
Proof.
  destruct j; cbn [ContentVariants.from_json]; intros H; not_object H.
  ConstructionFacts.vap_inv H. unfold ContentVariants_valid.
  cbn [ContentVariants.headlines ContentVariants.ctas].
  assert (Hnil : LenOk None (Some 3) (@nil string) /\ Forall Stripped (@nil string)).
  { split; [split; [exact I|cbn; lia]|constructor]. }
  pose proof (defaulted_valid
                (fun l => LenOk None (Some 3) l /\ Forall Stripped l)
                _ _ _ _ _ Hnil variants_json_valid Ha0) as (H1 & H2).
  pose proof (defaulted_valid
                (fun l => LenOk None (Some 3) l /\ Forall Stripped l)
                _ _ _ _ _ Hnil variants_json_valid Ha) as (H3 & H4).
  auto.
Qed.

Lemma list_len_valid {A : Type} (f : Json.t -> V (list A)) min_length max_length
    j (l : list A) :
  (do l <- f j; list_len_field min_length max_length l) = inr l ->
  LenOk min_length max_length l /\ f j = inr l.
Proof.
  intros H. apply bind_inv in H as (l0 & Hl0 & H).
  destruct (ConstructionFacts.list_len_field_valid _ _ _ _ H) as (-> & Hlen).
  auto.
Qed.

Lemma LandingContent_from_json_valid {lax : Lax} j x :
  LandingContent.from_json j = inr x -> LandingContent_valid x.
Proof.
  destruct j; cbn [LandingContent.from_json]; intros H; not_object H.
  ConstructionFacts.vap_inv H. unfold LandingContent_valid.
  cbn [LandingContent.hero LandingContent.features LandingContent.testimonial
       LandingContent.footer_cta LandingContent.variants
       LandingContent.faq_items LandingContent.pricing_plans].
  apply required_inv in Ha6 as (j6 & _ & H6).
  apply required_inv in Ha5 as (j5 & _ & H5).
  apply list_len_valid in H5 as (Hlen5 & H5).
  apply required_inv in Ha4 as (j4 & _ & H4).
  pose proof (required_str_valid _ _ _ _ _ _ Ha3) as H3.
  split; [exact (HeroSection_from_json_valid _ _ H6)|].
  split; [exact Hlen5|].
  split; [exact (as_list_max_valid _ _ _ _ _ Feature_from_json_valid H5)|].
  split; [exact (Testimonial_from_json_valid _ _ H4)|].
  split; [exact H3|].
  split.
  { apply (defaulted_valid ContentVariants_valid _ _ _ _ _
             (proj1 (proj2 (proj2 (proj2 (ConstructionFacts.defaults_valid "")))))
             ContentVariants_from_json_valid Ha2). }
  split.
  - apply defaulted_inv in Ha0 as [(_ & ->)|(j0 & _ & H0)].
    + split; [exact I|cbn; lia].
    + exact (proj1 (list_len_valid _ _ _ _ _ H0)).
  - apply defaulted_inv in Ha as [(_ & ->)|(j0 & _ & H0)].
    + split; [exact I|cbn; lia].
    + exact (proj1 (list_len_valid _ _ _ _ _ H0)).
Qed.

Lemma opt_str_json_valid max_length j o :
  AssetSlots.opt_str_json max_length j = inr o -> OptStrOk max_length o.
Proof.
  intros H.
  apply (nullable_valid (StrOk false None (Some max_length)) _ _ _
           (fun j x Hx =>
              match bind_inv _ _ _ Hx with
              | ex_intro _ s (conj _ Hs) =>
                  ConstructionFacts.str_field_valid _ _ _ _ _ Hs
              end)) in H.
  destruct o; exact H.
Qed.

Lemma AssetSlots_from_json_valid j x :
  AssetSlots.from_json j = inr x -> AssetSlots_valid x.
Proof.
  destruct j; cbn [AssetSlots.from_json]; intros H; not_object H.
  ConstructionFacts.vap_inv H. unfold AssetSlots_valid.
  cbn [AssetSlots.hero_image_prompt AssetSlots.hero_image_alt
       AssetSlots.og_image_prompt AssetSlots.logo_url
       AssetSlots.screenshot_prompts].
  split; [exact (defaulted_valid (OptStrOk 500) _ _ _ None _ I
                   (opt_str_json_valid 500) Ha3)|].
  split; [exact (defaulted_valid (OptStrOk 200) _ _ _ None _ I
                   (opt_str_json_valid 200) Ha2)|].
  split; [exact (defaulted_valid (OptStrOk 500) _ _ _ None _ I
                   (opt_str_json_valid 500) Ha1)|].
  split; [exact (defaulted_valid (OptStrOk 500) _ _ _ None _ I
                   (opt_str_json_valid 500) Ha0)|].
  apply defaulted_inv in Ha as [(_ & ->)|(j0 & _ & H0)].
  - split; [exact I|cbn; lia].
  - exact (proj1 (list_len_valid _ _ _ _ _ H0)).
Qed.

Lemma GenerationMeta_from_json_valid now j x :
  GenerationMeta.from_json now j = inr x -> GenerationMeta_valid x.
Proof.
  destruct j; cbn [GenerationMeta.from_json]; intros H; not_object H.
  ConstructionFacts.vap_inv H.
  apply defaulted_inv in Ha1 as [(_ & ->)|(j1 & _ & H1)].
  - exact (proj1 (ConstructionFacts.defaults_valid now)).
  - apply bind_inv in H1 as (v & _ & H1).
    apply (ConstructionFacts.GenerationMeta_new_valid v a0 a).
    unfold GenerationMeta.new. rewrite H1. reflexivity.
Qed.

Lemma ProjectInfo_from_json_object j x :
  ProjectInfo.from_json j = inr x -> exists po, j = JObj po.
Proof.
  destruct j; cbn [ProjectInfo.from_json]; intros H; not_object H. eauto.
Qed.

(** X24. What loading a stored document establishes.  When [from_json]
    accepts a document, its "project" entry is an object and the loaded
    meta, brand, content, assets and render settings meet every constraint
    of their schemas.  The project meets them as well when its "keywords"
    key is present; when the key is absent the loaded project has no
    keywords and the loaded document is not a valid one. *)
Theorem loaded_document_valid {lax : Lax} now o d :
  CanonicalData.from_json now (JObj o) = ok d ->
  (GenerationMeta_valid (CanonicalData.meta d)
   /\ opt_valid BrandIdentity_valid (CanonicalData.brand d)
   /\ opt_valid LandingContent_valid (CanonicalData.content d)
   /\ AssetSlots_valid (CanonicalData.assets d)
   /\ RenderConfig_valid (CanonicalData.render d))
  /\ exists po,
       Json.field o "project" = Some (JObj po)
       /\ (Json.field po "keywords" <> None -> CanonicalData_valid d)
       /\ (Json.field po "keywords" = None ->
           ProjectInfo.keywords (CanonicalData.project d) = []
           /\ ~ CanonicalData_valid d).
Proof.
  cbn [CanonicalData.from_json]. intros H.
  apply bind_inv in H as (d0 & H0 & Hd).
  rewrite PipelineFacts.validate_variant_id_bounds_id in Hd.
  unfold ok in Hd. injection Hd as <-.
  ConstructionFacts.vap_inv H0.
  cbn [CanonicalData.meta CanonicalData.project CanonicalData.brand
       CanonicalData.content CanonicalData.assets CanonicalData.render].
  assert (Hmeta : GenerationMeta_valid a4).
  { exact (defaulted_valid GenerationMeta_valid _ _ _ _ _
             (proj1 (ConstructionFacts.defaults_valid now))
             (GenerationMeta_from_json_valid now) Ha4). }
  assert (Hbrand : opt_valid BrandIdentity_valid a2).
  { exact (defaulted_valid (opt_valid BrandIdentity_valid) _ _ _ None _ I
             (fun j x => nullable_valid BrandIdentity_valid _ j x
                             BrandIdentity_from_json_valid) Ha2). }
  assert (Hcontent : opt_valid LandingContent_valid a1).
  { exact (defaulted_valid (opt_valid LandingContent_valid) _ _ _ None _ I
             (fun j x => nullable_valid LandingContent_valid _ j x
                             LandingContent_from_json_valid) Ha1). }
  assert (Hassets : AssetSlots_valid a0).
  { exact (defaulted_valid AssetSlots_valid _ _ _ _ _
             (proj1 (proj2 (ConstructionFacts.defaults_valid now)))
             AssetSlots_from_json_valid Ha0). }
  assert (Hrender : RenderConfig_valid a).
  { exact (defaulted_valid RenderConfig_valid _ _ _ _ _
             (proj1 (proj2 (proj2 (ConstructionFacts.defaults_valid now))))
             MainFacts.RenderConfig_from_json_valid Ha). }
  split; [tauto|].
  apply required_inv in Ha3 as (j & Hj & Hp).
  destruct (ProjectInfo_from_json_object _ _ Hp) as (po & ->).
  exists po. split; [exact Hj|].
  destruct (ProjectInfo_from_json_cases _ _ Hp) as [(Hnone & Hk)|(Hsome & Hv)].
  - split; [congruence|]. intros _. split; [exact Hk|].
    intros (_ & (_ & _ & _ & _ & _ & _ & (Hmin & _) & _) & _).
    cbn [CanonicalData.project] in Hmin.
    rewrite Hk in Hmin. cbn in Hmin. lia.
  - split; [|congruence]. intros _.
    unfold CanonicalData_valid.
    cbn [CanonicalData.meta CanonicalData.project CanonicalData.brand
         CanonicalData.content CanonicalData.assets CanonicalData.render].
    tauto.
Qed.

(** The fixture document, written and read back, is a valid one. *)
Lemma loaded_document_valid_example :
  CanonicalData_valid Fixtures.valid_canonical_data.
Proof.
  destruct (loaded_document_valid (lax := Fixtures.lax_example)
              "2024-01-01T00:00:00"
              [("meta", GenerationMeta.to_json
                          (CanonicalData.meta Fixtures.valid_canonical_data));
               ("project", ProjectInfo.to_json Fixtures.valid_project_info);
               ("brand", Encode.opt BrandIdentity.to_json
                           (Some Fixtures.valid_brand_identity));
               ("content", Encode.opt LandingContent.to_json
                             (Some Fixtures.valid_landing_content));
               ("assets", AssetSlots.to_json
                            (CanonicalData.assets Fixtures.valid_canonical_data));
               ("render", RenderConfig.to_json (RenderConfig.mk "saas" 0))]
              Fixtures.valid_canonical_data eq_refl)
    as (_ & po & Hpo & Hyes & _).
  vm_compute in Hpo. injection Hpo as <-.
  apply Hyes. vm_compute. discriminate.
Defined.

End LoadValidFacts.

(** ** Cleaning the answer of the LLM *)

Module ExtractFacts.

Import PyStr LLM.

Lemma app_cons a s t : String a s +:+ t = String a (s +:+ t).
Proof. reflexivity. Qed.

Lemma app_empty t : "" +:+ t = t.
Proof. reflexivity. Qed.

Lemma app_assoc' (a b c : string) : (a +:+ b) +:+ c = a +:+ (b +:+ c).
Proof.
  induction a as [|x a IH]; [reflexivity|].
  rewrite !app_cons, IH. reflexivity.
Qed.

Lemma len_cons a s : len (String a s) = len s + 1.
Proof. unfold len. cbn [String.length]. lia. Qed.

Lemma len_nonneg s : 0 <= len s.
Proof. unfold len. lia. Qed.

  (** *** [find] and [rfind] *)

Lemma find_range c s : find c s = -1 \/ 0 <= find c s < len s.
Proof.
  induction s as [|a s IH]; [left; reflexivity|].
  cbn [find]. rewrite len_cons. pose proof (len_nonneg s).
  destruct (Ascii.eqb a c); [right; lia|].
  destruct (find c s =? -1) eqn:E; [left; reflexivity|].
  apply Z.eqb_neq in E. right. lia.
Qed.

Lemma rfind_range c s : rfind c s = -1 \/ 0 <= rfind c s < len s.
Proof.
  induction s as [|a s IH]; [left; reflexivity|].
  cbn [rfind]. rewrite len_cons. pose proof (len_nonneg s).
  destruct (rfind c s =? -1) eqn:E.
  - destruct (Ascii.eqb a c); [right; lia|left; reflexivity].
  - apply Z.eqb_neq in E. right. lia.
Qed.

Lemma find_absent_cons c a s :
  find c (String a s) = -1 <-> Ascii.eqb a c = false /\ find c s = -1.
Proof.
  cbn [find]. destruct (Ascii.eqb a c); [split; [discriminate|intros (? & _); discriminate]|].
  destruct (find_range c s) as [E|E].
  - rewrite E. cbn. tauto.
  - destruct (find c s =? -1) eqn:E'.
    + apply Z.eqb_eq in E'. lia.
    + split; [lia|]. intros (_ & ?). lia.
Qed.

Lemma rfind_absent_cons c a s :
  rfind c (String a s) = -1 <-> Ascii.eqb a c = false /\ rfind c s = -1.
Proof.
  cbn [rfind]. destruct (rfind_range c s) as [E|E].
  - rewrite E. cbn. destruct (Ascii.eqb a c); split; try tauto; try discriminate.
    intros (? & _); discriminate.
  - destruct (rfind c s =? -1) eqn:E'.
    + apply Z.eqb_eq in E'. lia.
    + split; [lia|]. intros (_ & ?). lia.
Qed.

Lemma rfind_absent_find c s : rfind c s = -1 <-> find c s = -1.
Proof.
  induction s as [|a s IH]; [tauto|].
  rewrite find_absent_cons, rfind_absent_cons, IH. tauto.
Qed.

Lemma find_absent_app c s t :
  find c (s +:+ t) = -1 <-> find c s = -1 /\ find c t = -1.
Proof.
  induction s as [|a s IH].
  - rewrite app_empty. cbn [find]. tauto.
  - rewrite app_cons, !find_absent_cons, IH. tauto.
Qed.

(** The first occurrence is at or before any occurrence, and it is the
    one after a prefix that has none. *)
Lemma find_app_le c s t :
  0 <= find c (s +:+ String c t) <= len s.
Proof.
  induction s as [|a s IH].
  - rewrite app_empty. cbn [find]. rewrite Ascii.eqb_refl.
    unfold len. cbn [String.length]. lia.
  - rewrite app_cons. cbn [find]. rewrite len_cons.
    destruct (Ascii.eqb a c); [pose proof (len_nonneg s); lia|].
    destruct (find c (s +:+ String c t) =? -1) eqn:E.
    + apply Z.eqb_eq in E. lia.
    + lia.
Qed.

Lemma find_app_absent c s t :
  find c s = -1 -> find c (s +:+ String c t) = len s.
Proof.
  induction s as [|a s IH]; intros H.
  - rewrite app_empty. cbn [find]. rewrite Ascii.eqb_refl. reflexivity.
  - apply find_absent_cons in H as (Ha & Hs).
    rewrite app_cons. cbn [find]. rewrite Ha, (IH Hs), len_cons.
    pose proof (len_nonneg s).
    destruct (len s =? -1) eqn:E; [apply Z.eqb_eq in E; lia|reflexivity].
Qed.

Lemma rfind_app_ge c s t :
  len s <= rfind c (s +:+ String c t) < len s + 1 + len t.
Proof.
  induction s as [|a s IH].
  - rewrite app_empty. destruct (rfind_range c (String c t)) as [E|E].
    + apply rfind_absent_cons in E as (E & _).
      rewrite Ascii.eqb_refl in E. discriminate.
    + rewrite len_cons in E. change (len "") with 0. lia.
  - rewrite app_cons. cbn [rfind]. rewrite len_cons.
    pose proof (len_nonneg s).
    destruct (rfind c (s +:+ String c t) =? -1) eqn:E.
    + apply Z.eqb_eq in E. lia.
    + lia.
Qed.

Lemma rfind_app_absent c s t :
  rfind c t = -1 -> rfind c (s +:+ String c t) = len s.
Proof.
  intros H. induction s as [|a s IH].
  - rewrite app_empty. cbn [rfind]. rewrite H. cbn.
    rewrite Ascii.eqb_refl. reflexivity.
  - rewrite app_cons. cbn [rfind]. rewrite IH, len_cons.
    pose proof (len_nonneg s).
    destruct (len s =? -1) eqn:E; [apply Z.eqb_eq in E; lia|reflexivity].
Qed.

(** A position that [find] returns splits the text. *)
Lemma find_split c s :
  find c s <> -1 ->
  exists pre rest,
    s = pre +:+ String c rest /\ find c pre = -1 /\ len pre = find c s.
Proof.
  induction s as [|a s IH]; [intros H; exfalso; apply H; reflexivity|].
  intros H. cbn [find] in *. destruct (Ascii.eqb a c) eqn:Ea.
  - apply Ascii.eqb_eq in Ea as ->. exists "", s.
    split; [reflexivity|]. split; reflexivity.
  - destruct (find c s =? -1) eqn:E; [exfalso; apply H; reflexivity|].
    apply Z.eqb_neq in E. destruct (IH E) as (pre & rest & -> & Hp & Hl).
    exists (String a pre), rest. split; [reflexivity|]. split.
    + apply find_absent_cons. auto.
    + rewrite len_cons. lia.
Qed.

Lemma rfind_split c s :
  rfind c s <> -1 ->
  exists pre post,
    s = pre +:+ String c post /\ rfind c post = -1 /\ len pre = rfind c s.
Proof.
  induction s as [|a s IH]; [intros H; exfalso; apply H; reflexivity|].
  intros H. cbn [rfind] in *. destruct (rfind c s =? -1) eqn:E.
  - apply Z.eqb_eq in E. destruct (Ascii.eqb a c) eqn:Ea;
      [|exfalso; apply H; reflexivity].
    apply Ascii.eqb_eq in Ea as ->. exists "", s.
    split; [reflexivity|]. split; [exact E|reflexivity].
  - apply Z.eqb_neq in E. destruct (IH E) as (pre & post & Hs & Hp & Hl).
    exists (String a pre), post. split; [rewrite app_cons, <- Hs; reflexivity|].
    split; [exact Hp|]. rewrite len_cons. lia.
Qed.

  (** *** Slices *)

Lemma substring_app_exact (pre mid post : string) :
  String.substring (String.length pre) (String.length mid)
    (pre +:+ mid +:+ post) = mid.
Proof.
  induction pre as [|a pre IH].
  - rewrite app_empty. cbn [String.length].
    induction mid as [|b mid IHm].
    + rewrite app_empty. destruct post; reflexivity.
    + rewrite app_cons. cbn [String.length String.substring].
      rewrite IHm. reflexivity.
  - rewrite app_cons. cbn [String.length String.substring]. exact IH.
Qed.

Lemma slice_app pre mid post :
  slice (len pre) (len pre + len mid) (pre +:+ mid +:+ post) = mid.
Proof.
  unfold slice, len.
  replace (Z.to_nat (Z.of_nat (String.length pre))) with (String.length pre) by lia.
  replace (Z.to_nat _) with (String.length mid) by lia.
  apply substring_app_exact.
Qed.

(** Two ways of cutting one text, the second cut further right. *)
Lemma app_split_lt (a b c d : string) :
  a +:+ b = c +:+ d -> len a <= len c ->
  exists m, c = a +:+ m /\ b = m +:+ d.
Proof.
  revert c. induction a as [|x a IH]; intros c H Hl.
  - exists c. rewrite !app_empty in *. auto.
  - destruct c as [|y c].
    + rewrite len_cons in Hl. unfold len in Hl. cbn in Hl. lia.
    + rewrite !app_cons in H. injection H as -> H.
      rewrite !len_cons in Hl.
      destruct (IH c H ltac:(lia)) as (m & -> & ->).
      exists m. split; reflexivity.
Qed.

  (** *** The test and the slice of the object and the array case *)

Lemma pair_found c1 c2 a m b :
  negb (find c1 (a +:+ String c1 (m +:+ String c2 b)) =? -1)
  && negb (rfind c2 (a +:+ String c1 (m +:+ String c2 b)) =? -1)
  && (rfind c2 (a +:+ String c1 (m +:+ String c2 b))
      >? find c1 (a +:+ String c1 (m +:+ String c2 b))) = true.
Proof.
  pose proof (find_app_le c1 a (m +:+ String c2 b)) as Hf.
  pose proof (rfind_app_ge c2 (a +:+ String c1 m) b) as Hr.
  rewrite app_assoc', app_cons in Hr.
  rewrite AgentExtras.len_app, len_cons in Hr.
  pose proof (len_nonneg m). pose proof (len_nonneg a).
  apply andb_true_iff. split; [apply andb_true_iff; split|].
  - apply negb_true_iff, Z.eqb_neq. lia.
  - apply negb_true_iff, Z.eqb_neq. lia.
  - apply Z.gtb_lt. lia.
Qed.

Lemma pair_slice c1 c2 pre m post :
  find c1 pre = -1 -> rfind c2 post = -1 ->
  slice (find c1 (pre +:+ String c1 (m +:+ String c2 post)))
    (rfind c2 (pre +:+ String c1 (m +:+ String c2 post)) + 1)
    (pre +:+ String c1 (m +:+ String c2 post))
  = String c1 (m +:+ String c2 "").
Proof.
  intros Hpre Hpost.
  rewrite (find_app_absent c1 pre _ Hpre).
  pose proof (rfind_app_absent c2 (pre +:+ String c1 m) post Hpost) as Hr.
  rewrite app_assoc', app_cons in Hr. rewrite Hr.
  rewrite AgentExtras.len_app, len_cons.
  pose proof (slice_app pre (String c1 (m +:+ String c2 "")) post) as Hs.
  rewrite app_cons, app_assoc', app_cons, app_empty in Hs.
  rewrite len_cons, AgentExtras.len_app, len_cons in Hs.
  change (len "") with 0 in Hs.
  replace (len pre + (len m + 1) + 1) with (len pre + (len m + (0 + 1) + 1))
    by lia.
  exact Hs.
Qed.

Lemma pair_decompose c1 c2 s :
  negb (find c1 s =? -1) && negb (rfind c2 s =? -1)
  && (rfind c2 s >? find c1 s) = true ->
  exists pre m post,
    s = pre +:+ String c1 (m +:+ String c2 post)
    /\ find c1 pre = -1 /\ rfind c2 post = -1.
Proof.
  intros H. apply andb_true_iff in H as (H & Hgt).
  apply andb_true_iff in H as (Hf & Hr).
  apply negb_true_iff, Z.eqb_neq in Hf. apply negb_true_iff, Z.eqb_neq in Hr.
  apply Z.gtb_lt in Hgt.
  destruct (find_split c1 s Hf) as (pre & rest & Hs & Hpre & Hlen).
  destruct (rfind_split c2 s Hr) as (pre2 & post & Hs2 & Hpost & Hlen2).
  assert (Heq : pre +:+ String c1 rest = pre2 +:+ String c2 post) by congruence.
  destruct (app_split_lt _ _ _ _ Heq ltac:(lia)) as (m & Hpre2 & Hrest).
  destruct m as [|x m].
  - rewrite Hpre2 in Hlen2. rewrite AgentExtras.len_app in Hlen2.
    change (len "") with 0 in Hlen2. lia.
  - rewrite app_cons in Hrest. injection Hrest as <- ->.
    exists pre, m, post. auto.
Qed.

  (** *** Stripping a delimited text *)

Lemma rstrip_last ws s c :
  ws c = false ->
  rstrip_with ws (s +:+ String c "") = s +:+ String c "".
Proof.
  intros Hc. induction s as [|a s IH].
  - rewrite app_empty. cbn [rstrip_with]. rewrite Hc. reflexivity.
  - rewrite app_cons. cbn [rstrip_with]. rewrite IH.
    destruct s; reflexivity.
Qed.

Lemma strip_delimited c1 c2 m :
  isspace c1 = false -> isspace c2 = false ->
  strip (String c1 (m +:+ String c2 "")) = String c1 (m +:+ String c2 "").
Proof.
  intros H1 H2. unfold strip, strip_with. cbn [lstrip_with]. rewrite H1.
  rewrite <- app_cons. apply rstrip_last. exact H2.
Qed.

Lemma lstrip_absent c ws s : find c s = -1 -> find c (lstrip_with ws s) = -1.
Proof.
  induction s as [|a s IH]; [auto|]. intros H. cbn [lstrip_with].
  destruct (ws a); [|exact H].
  apply find_absent_cons in H as (_ & H). exact (IH H).
Qed.

Lemma rstrip_absent c ws s : find c s = -1 -> find c (rstrip_with ws s) = -1.
Proof.
  induction s as [|a s IH]; [auto|]. intros H.
  apply find_absent_cons in H as (Ha & H). cbn [rstrip_with].
  specialize (IH H). destruct (rstrip_with ws s) as [|b r].
  - destruct (ws a); [reflexivity|]. apply find_absent_cons. auto.
  - apply find_absent_cons. auto.
Qed.

Lemma strip_absent c s : find c s = -1 -> find c (strip s) = -1.
Proof.
  intros H. unfold strip, strip_with.
  apply rstrip_absent, lstrip_absent, H.
Qed.

  (** *** Code fences *)

Lemma prefix_fence_other a s :
  Ascii.eqb a "`" = false -> String.prefix FENCE (String a s) = false.
Proof.
  intros H. unfold FENCE. cbn [String.prefix].
  destruct (ascii_dec "`" a) as [<-|_]; [discriminate H|reflexivity].
Qed.

Lemma prefix_fence_here s : String.prefix FENCE (FENCE +:+ s) = true.
Proof.
  change (FENCE +:+ s) with (String "`" (String "`" (String "`" s))).
  unfold FENCE. cbn [String.prefix].
  destruct (ascii_dec "`" "`") as [_|H]; [|congruence].
  destruct s; reflexivity.
Qed.

Lemma no_tick_no_fence s : find "`" s = -1 -> in_str FENCE s = false.
Proof.
  induction s as [|a s IH]; [reflexivity|]. intros H.
  apply find_absent_cons in H as (Ha & H). cbn [in_str].
  rewrite (prefix_fence_other _ _ Ha), (IH H). reflexivity.
Qed.

Lemma in_str_fence pre s :
  in_str FENCE (pre +:+ FENCE +:+ s) = true.
Proof.
  induction pre as [|a pre IH].
  - rewrite app_empty. destruct (FENCE +:+ s) eqn:E; cbn [in_str];
      rewrite <- E, prefix_fence_here; reflexivity.
  - rewrite app_cons. cbn [in_str]. rewrite IH. apply orb_true_r.
Qed.

Lemma group_no_tick b post :
  find "`" b = -1 -> group_then_fence (b +:+ FENCE +:+ post) = Some b.
Proof.
  induction b as [|a b IH]; intros H.
  - rewrite app_empty.
    destruct (FENCE +:+ post) eqn:E; cbn [group_then_fence];
      rewrite <- E, prefix_fence_here; reflexivity.
  - apply find_absent_cons in H as (Ha & H). rewrite app_cons.
    cbn [group_then_fence]. rewrite (prefix_fence_other _ _ Ha), (IH H).
    reflexivity.
Qed.

Lemma spaces_no_tick b post :
  find "`" b = -1 ->
  spaces_then_group (b +:+ FENCE +:+ post) = Some (lstrip_with isspace b).
Proof.
  induction b as [|a b IH]; intros H.
  - rewrite app_empty.
    change (FENCE +:+ post) with (String "`" (String "`" (String "`" post))).
    cbn [spaces_then_group]. change (isspace "`") with false. cbv iota.
    exact (group_no_tick "" post eq_refl).
  - pose proof H as H'. apply find_absent_cons in H as (Ha & H).
    rewrite app_cons. cbn [spaces_then_group lstrip_with].
    destruct (isspace a).
    + rewrite (IH H). reflexivity.
    + rewrite <- app_cons. exact (group_no_tick _ post H').
Qed.

Lemma search_skip pre s : find "`" pre = -1 -> search (pre +:+ s) = search s.
Proof.
  induction pre as [|a pre IH]; intros H; [reflexivity|].
  apply find_absent_cons in H as (Ha & H). rewrite app_cons.
  cbn [search]. rewrite (prefix_fence_other _ _ Ha). exact (IH H).
Qed.

Lemma search_here rest g :
  json_then_group rest = Some g -> search (FENCE +:+ rest) = Some g.
Proof.
  intros H.
  change (FENCE +:+ rest) with (String "`" (String "`" (String "`" rest))).
  cbn [search].
  change (String "`" (String "`" (String "`" rest))) with (FENCE +:+ rest).
  rewrite prefix_fence_here.
  change (drop 3 (FENCE +:+ rest)) with rest. rewrite H. reflexivity.
Qed.

Lemma json_then_tagged body post :
  find "`" body = -1 ->
  json_then_group (("json" +:+ body) +:+ FENCE +:+ post)
  = Some (lstrip_with isspace body).
Proof.
  intros H. unfold json_then_group.
  change (("json" +:+ body) +:+ FENCE +:+ post)
    with (String "j" (String "s" (String "o" (String "n"
            (body +:+ FENCE +:+ post))))).
  cbn [String.prefix drop].
  repeat match goal with
         | |- context [ascii_dec ?a ?a] =>
             destruct (ascii_dec a a) as [_|Hne]; [|congruence]
         end.
  replace (String.prefix "" (body +:+ FENCE +:+ post)) with true
    by (destruct (body +:+ FENCE +:+ post); reflexivity).
  rewrite (spaces_no_tick _ _ H). reflexivity.
Qed.

Lemma prefix_json_app mid post :
  find "`" mid = -1 -> String.prefix "json" mid = false ->
  String.prefix "json" (mid +:+ FENCE +:+ post) = false.
Proof.
  intros Ht H.
  destruct mid as [|a [|b [|c [|d m]]]];
    repeat rewrite ?app_cons, ?app_empty;
    change (FENCE +:+ post) with (String "`" (String "`" (String "`" post)));
    cbn [String.prefix] in *;
    repeat match goal with
           | |- context [ascii_dec ?x ?y] =>
               destruct (ascii_dec x y); try reflexivity; try discriminate
           end.
  destruct m; discriminate H.
Qed.

Lemma json_then_untagged mid post :
  find "`" mid = -1 -> String.prefix "json" mid = false ->
  json_then_group (mid +:+ FENCE +:+ post)
  = Some (lstrip_with isspace mid).
Proof.
  intros Ht H. unfold json_then_group.
  rewrite (prefix_json_app _ _ Ht H). apply spaces_no_tick, Ht.
Qed.

Lemma strip_lstrip s : strip (lstrip_with isspace s) = strip s.
Proof.
  unfold strip, strip_with.
  rewrite (PyStrFacts.lstrip'_lstrip isspace isspace (fun a H => H)).
  reflexivity.
Qed.

(** The answer with a closed code block, by what the search returns. *)
Lemma extract_code_block text pre rest g :
  strip text = pre +:+ FENCE +:+ rest ->
  find "`" pre = -1 -> json_then_group rest = Some g ->
  _extract_json text = strip g.
Proof.
  intros HT Hpre Hg. unfold _extract_json. cbv zeta.
  rewrite HT, in_str_fence, (search_skip _ _ Hpre), (search_here _ _ Hg).
  reflexivity.
Qed.

(** The answer without a code fence, with an object in it. *)
Lemma extract_object text pre mid post :
  strip text = pre +:+ String "{" (mid +:+ String "}" post) ->
  in_str FENCE (strip text) = false ->
  find "{" pre = -1 -> rfind "}" post = -1 ->
  _extract_json text = String "{" (mid +:+ String "}" "").
Proof.
  intros HT Hfence Hpre Hpost. unfold _extract_json. cbv zeta.
  rewrite Hfence, HT, pair_found. apply pair_slice; assumption.
Qed.

(** The answer without a code fence and without a pair of braces, with
    an array in it. *)
Lemma extract_array text pre mid post :
  strip text = pre +:+ String "[" (mid +:+ String "]" post) ->
  in_str FENCE (strip text) = false ->
  negb (find "{" (strip text) =? -1) && negb (rfind "}" (strip text) =? -1)
  && (rfind "}" (strip text) >? find "{" (strip text)) = false ->
  find "[" pre = -1 -> rfind "]" post = -1 ->
  _extract_json text = String "[" (mid +:+ String "]" "").
Proof.
  intros HT Hfence Hobj Hpre Hpost. unfold _extract_json. cbv zeta.
  rewrite Hfence, Hobj. rewrite HT, pair_found. apply pair_slice; assumption.
Qed.

Lemma no_pair_test c1 c2 s :
  find c1 s = -1 \/ rfind c2 s <= find c1 s ->
  negb (find c1 s =? -1) && negb (rfind c2 s =? -1)
  && (rfind c2 s >? find c1 s) = false.
Proof.
  intros [H|H].
  - rewrite H. reflexivity.
  - destruct (negb (find c1 s =? -1) && negb (rfind c2 s =? -1)); [|reflexivity].
    cbn [andb]. apply not_true_iff_false. intros Hgt.
    apply Z.gtb_lt in Hgt. lia.
Qed.

(** X25. An answer with a code block.  When the stripped answer holds a
    fence after text without backticks, then a body without backticks and
    a closing fence, [_extract_json] returns the body stripped: without
    the word json when the body starts with it, and the whole body
    otherwise.  What precedes the block and what follows it are dropped. *)
Theorem extract_json_code_block text pre mid post :
  strip text = pre +:+ FENCE +:+ mid +:+ FENCE +:+ post ->
  find "`" pre = -1 -> find "`" mid = -1 ->
  (forall body, mid = "json" +:+ body -> _extract_json text = strip body)
  /\ (String.prefix "json" mid = false -> _extract_json text = strip mid).
Proof.
  intros HT Hpre Hmid. split.
  - intros body ->. apply find_absent_app in Hmid as (_ & Hbody).
    rewrite <- (strip_lstrip body).
    apply (extract_code_block text pre _ _ HT Hpre).
    apply json_then_tagged, Hbody.
  - intros Hno. rewrite <- (strip_lstrip mid).
    apply (extract_code_block text pre _ _ HT Hpre).
    apply json_then_untagged; assumption.
Qed.

Lemma extract_json_code_block_example :
  _extract_json "Here you go: ```json {k: [1, 2]} ``` Anything else?"
  = "{k: [1, 2]}".
Proof.
  exact (proj1 (extract_json_code_block
                  "Here you go: ```json {k: [1, 2]} ``` Anything else?"
                  "Here you go: " "json {k: [1, 2]} " " Anything else?"
                  eq_refl eq_refl eq_refl)
           " {k: [1, 2]} " eq_refl).
Defined.

(** X26. An answer with an object and no code fence.  When the stripped
    answer holds no fence, [_extract_json] returns the text from the first
    opening brace to the last closing brace, both included, whatever
    surrounds them: an array of objects loses its brackets. *)
Theorem extract_json_object text pre mid post :
  strip text = pre +:+ "{" +:+ mid +:+ "}" +:+ post ->
  in_str FENCE (strip text) = false ->
  find "{" pre = -1 -> rfind "}" post = -1 ->
  _extract_json text = "{" +:+ mid +:+ "}".
Proof.
  intros HT Hfence Hpre Hpost.
  change (strip text = pre +:+ String "{" (mid +:+ String "}" post)) in HT.
  change (_extract_json text = String "{" (mid +:+ String "}" "")).
  unfold _extract_json. cbv zeta.
  rewrite Hfence, HT, pair_found. apply pair_slice; assumption.
Qed.

Lemma extract_json_object_example :
  _extract_json "[{a: 1}, {b: 2}]" = "{a: 1}, {b: 2}".
Proof.
  exact (extract_json_object "[{a: 1}, {b: 2}]" "[" "a: 1}, {b: 2" "]"
           eq_refl eq_refl eq_refl eq_refl).
Defined.

(** X27. An answer with an array, no code fence and no object.  When the
    stripped answer holds no fence and either no opening brace or no
    closing brace after the first opening one, [_extract_json] returns the
    text from the first opening bracket to the last closing bracket. *)
Theorem extract_json_array text pre mid post :
  strip text = pre +:+ "[" +:+ mid +:+ "]" +:+ post ->
  in_str FENCE (strip text) = false ->
  find "{" (strip text) = -1
  \/ rfind "}" (strip text) <= find "{" (strip text) ->
  find "[" pre = -1 -> rfind "]" post = -1 ->
  _extract_json text = "[" +:+ mid +:+ "]".
Proof.
  intros HT Hfence Hobj. apply (extract_array text pre mid post HT Hfence).
  apply no_pair_test, Hobj.
Qed.

Lemma extract_json_array_example :
  _extract_json " The list } is [1, 2, 3]. " = "[1, 2, 3]".
Proof.
  exact (extract_json_array " The list } is [1, 2, 3]. " "The list } is "
           "1, 2, 3" "." eq_refl eq_refl (or_introl eq_refl) eq_refl eq_refl).
Defined.

(** X28. On an answer without backticks [_extract_json] is idempotent:
    cleaning a cleaned answer changes nothing. *)
Theorem extract_json_idempotent text :
  find "`" text = -1 ->
  _extract_json (_extract_json text) = _extract_json text.
Proof.
  intros Htick. pose proof (strip_absent _ _ Htick) as HT.
  pose proof (no_tick_no_fence _ HT) as Hfence.
  destruct (negb (find "{" (strip text) =? -1)
            && negb (rfind "}" (strip text) =? -1)
            && (rfind "}" (strip text) >? find "{" (strip text))) eqn:Eobj.
  - destruct (pair_decompose _ _ _ Eobj) as (pre & m & post & Hs & Hpre & Hpost).
    rewrite (extract_object text pre m post Hs Hfence Hpre Hpost).
    rewrite Hs in HT. apply find_absent_app in HT as (_ & HT).
    apply find_absent_cons in HT as (_ & HT).
    apply find_absent_app in HT as (Hm & _).
    apply (extract_object _ "" m "").
    + apply strip_delimited; reflexivity.
    + rewrite strip_delimited by reflexivity. apply no_tick_no_fence.
      apply find_absent_cons. split; [reflexivity|].
      apply find_absent_app. split; [exact Hm|reflexivity].
    + reflexivity.
    + reflexivity.
  - destruct (negb (find "[" (strip text) =? -1)
              && negb (rfind "]" (strip text) =? -1)
              && (rfind "]" (strip text) >? find "[" (strip text))) eqn:Earr.
    + destruct (pair_decompose _ _ _ Earr)
        as (pre & m & post & Hs & Hpre & Hpost).
      rewrite (extract_array text pre m post Hs Hfence Eobj Hpre Hpost).
      pose proof HT as HT'.
      rewrite Hs in HT. apply find_absent_app in HT as (_ & HT).
      apply find_absent_cons in HT as (_ & HT).
      apply find_absent_app in HT as (Hm & _).
      apply (extract_array _ "" m "").
      * apply strip_delimited; reflexivity.
      * rewrite strip_delimited by reflexivity. apply no_tick_no_fence.
        apply find_absent_cons. split; [reflexivity|].
        apply find_absent_app. split; [exact Hm|reflexivity].
      * rewrite strip_delimited by reflexivity.
        apply not_true_iff_false. intros Hin.
        destruct (pair_decompose _ _ _ Hin) as (a & x & b & Hm' & _ & _).
        rewrite <- app_cons in Hm'.
        assert (Hs' : strip text
                      = (pre +:+ a) +:+ String "{" (x +:+ String "}" (b +:+ post))).
        { rewrite Hs.
          replace (String "[" (m +:+ String "]" post))
            with ((String "[" (m +:+ String "]" "")) +:+ post)
            by (rewrite app_cons, app_assoc'; reflexivity).
          rewrite <- app_cons, Hm'.
          rewrite !app_assoc', !app_cons, !app_assoc', !app_cons.
          reflexivity. }
        rewrite Hs', pair_found in Eobj. discriminate Eobj.
      * reflexivity.
      * reflexivity.
    + assert (Hres : _extract_json text = strip text).
      { unfold _extract_json. cbv zeta. rewrite Hfence, Eobj, Earr.
        reflexivity. }
      rewrite Hres. unfold _extract_json. cbv zeta.
      rewrite PyStrFacts.strip_idem, Hfence, Eobj, Earr. reflexivity.
Qed.

Lemma extract_json_idempotent_example :
  _extract_json (_extract_json "  Result: {a: [1]} as asked. ")
  = _extract_json "  Result: {a: [1]} as asked. ".
Proof.
  exact (extract_json_idempotent "  Result: {a: [1]} as asked. " eq_refl).
Defined.

End ExtractFacts.

(** ** The paths that [save] returns *)

Module SavePathFacts.

Import Schemas Orchestrator FileSystem.

Lemma variant_name_not (k : string) :
  "variant_" +:+ k <> "json" /\ "variant_" +:+ k <> "html".
Proof. split; intros H; discriminate H. Qed.

(** The dictionary after the loop over the rendered variants. *)
Lemma variant_paths_spec (dir : Path) (results : gmap string string)
    (paths : gmap string Path) :
  let paths' :=
    map_fold
      (fun variant_key (_ : string) (paths : gmap string Path) =>
         <["variant_" +:+ variant_key
           := path_div dir (variant_key +:+ ".html")]> paths)
      paths results in
  (forall key p,
      paths' !! key = Some p ->
      paths !! key = Some p
      \/ exists k, is_Some (results !! k) /\ p = path_div dir (k +:+ ".html"))
  /\ (forall key, (forall k, key <> "variant_" +:+ k) ->
                  paths' !! key = paths !! key)
  /\ (forall k, is_Some (results !! k) ->
                paths' !! ("variant_" +:+ k)
                = Some (path_div dir (k +:+ ".html"))).
Proof.
  cbv zeta.
  apply (map_fold_weak_ind
           (fun (paths' : gmap string Path) (m : gmap string string) =>
              (forall key p,
                  paths' !! key = Some p ->
                  paths !! key = Some p
                  \/ exists k, is_Some (m !! k)
                               /\ p = path_div dir (k +:+ ".html"))
              /\ (forall key, (forall k, key <> "variant_" +:+ k) ->
                              paths' !! key = paths !! key)
              /\ (forall k, is_Some (m !! k) ->
                            paths' !! ("variant_" +:+ k)
                            = Some (path_div dir (k +:+ ".html"))))).
  - split; [auto|]. split; [auto|].
    intros k (x & Hx). rewrite lookup_empty in Hx. discriminate Hx.
  - intros i x m r Hi (IH1 & IH2 & IH3). cbv beta. split; [|split].
    + intros key p H.
      destruct (decide (key = "variant_" +:+ i)) as [->|Hne].
      * rewrite lookup_insert_eq in H. injection H as <-.
        right. exists i. rewrite lookup_insert_eq. eauto.
      * rewrite lookup_insert_ne in H by congruence.
        destruct (IH1 _ _ H) as [Hp|(k & Hk & ->)]; [left; exact Hp|].
        right. exists k. split; [|reflexivity].
        destruct (decide (k = i)) as [->|Hki].
        -- rewrite lookup_insert_eq. eauto.
        -- rewrite lookup_insert_ne by congruence. exact Hk.
    + intros key Hkey. rewrite lookup_insert_ne; [apply IH2, Hkey|].
      intros Heq. exact (Hkey i (eq_sym Heq)).
    + intros k Hk. destruct (decide (k = i)) as [->|Hki].
      * apply lookup_insert_eq.
      * rewrite lookup_insert_ne in Hk by congruence.
        rewrite lookup_insert_ne; [exact (IH3 _ Hk)|].
        intros Heq.
        cbv [String.append] in Heq. congruence.
Qed.

Section Saving.

Variables (dumps : Json.t -> string) (year : Z)
          (renderer : Renderer.TemplateRenderer).

(** X29. What [PipelineResult.save] returns.  When it returns, every
    path of the dictionary is a file that exists after the call; the
    entry "json" is [canonical.json] exactly when the result has a
    document, the entry "html" is [index.html] exactly when the markup
    is not empty, those two files hold the document and the markup, and
    with [save_all_variants] each key of [render_all_variants] has its
    entry "variant_<key>" and its file.  The call raises only with
    [save_all_variants] and a document for which [render_all_variants]
    raises, and then [canonical.json] and [index.html] have already
    been written as in a call without the variants. *)
Theorem save_returns_written_paths self output_dir save_all_variants fs :
  let result := save dumps year renderer self output_dir save_all_variants fs in
  let json_path := path_div output_dir "canonical.json" in
  let html_path := path_div output_dir "index.html" in
  (forall paths,
      snd result = ok paths ->
      (forall key p, paths !! key = Some p -> is_Some (fst result !! p))
      /\ paths !! "json"
         = match canonical_data self with
           | Some _ => Some json_path
           | None => None
           end
      /\ paths !! "html"
         = (if PyStr.truthy (html self) then Some html_path else None)
      /\ (forall d, canonical_data self = Some d ->
            fst result !! json_path = Some (dumps (CanonicalData.to_json d)))
      /\ (PyStr.truthy (html self) = true ->
          fst result !! html_path = Some (html self))
      /\ (forall d m key page,
            save_all_variants = true -> canonical_data self = Some d ->
            Renderer.render_all_variants year renderer d = ok m ->
            m !! key = Some page ->
            paths !! ("variant_" +:+ key)
            = Some (path_div (path_div output_dir "variants") (key +:+ ".html"))
            /\ fst result
               !! path_div (path_div output_dir "variants") (key +:+ ".html")
               = Some page))
  /\ (forall e,
        snd result = raise e ->
        save_all_variants = true
        /\ (exists d, canonical_data self = Some d
                      /\ Renderer.render_all_variants year renderer d = raise e)
        /\ fst result
           = fst (save dumps year renderer self output_dir false fs)).
Proof.
  cbv zeta.
  set (json_path := path_div output_dir "canonical.json").
  set (html_path := path_div output_dir "index.html").
  set (variants_dir := path_div output_dir "variants").
  (* the files and the dictionary after the first two steps *)
  set (fs2 := (if PyStr.truthy (html self)
               then <[html_path := html self]>
               else id)
                (match canonical_data self with
                 | Some d => <[json_path := dumps (CanonicalData.to_json d)]> fs
                 | None => fs
                 end)).
  set (paths2 := (if PyStr.truthy (html self)
                  then <["html" := html_path]>
                  else id)
                   (match canonical_data self with
                    | Some d => <["json" := json_path]> (∅ : gmap string Path)
                    | None => ∅
                    end)).
  assert (Hneq : json_path <> html_path).
  { intros H. apply FileFacts.path_div_inj in H. discriminate H. }
  assert (Hjson : paths2 !! "json"
                  = match canonical_data self with
                    | Some _ => Some json_path
                    | None => None
                    end).
  { subst paths2. destruct (PyStr.truthy (html self));
      destruct (canonical_data self); cbn [id];
      rewrite ?lookup_insert_ne by discriminate;
      rewrite ?lookup_insert_eq, ?lookup_empty; reflexivity. }
  assert (Hhtml : paths2 !! "html"
                  = if PyStr.truthy (html self) then Some html_path else None).
  { subst paths2. destruct (PyStr.truthy (html self));
      destruct (canonical_data self); cbn [id];
      rewrite ?lookup_insert_eq; rewrite ?lookup_insert_ne by discriminate;
      rewrite ?lookup_empty; reflexivity. }
  assert (Hfs_json : forall d, canonical_data self = Some d ->
            fs2 !! json_path = Some (dumps (CanonicalData.to_json d))).
  { intros d Hd. subst fs2. rewrite Hd.
    destruct (PyStr.truthy (html self)); cbn [id];
      rewrite ?lookup_insert_ne by congruence; apply lookup_insert_eq. }
  assert (Hfs_html : PyStr.truthy (html self) = true ->
            fs2 !! html_path = Some (html self)).
  { intros Ht. subst fs2. rewrite Ht. apply lookup_insert_eq. }
  assert (Hexist : forall key p, paths2 !! key = Some p -> is_Some (fs2 !! p)).
  { intros key p H.
    destruct (decide (key = "json")) as [->|Hk1].
    - rewrite Hjson in H. destruct (canonical_data self) as [d|] eqn:Hd;
        [|discriminate H].
      injection H as <-. rewrite (Hfs_json d eq_refl). eauto.
    - destruct (decide (key = "html")) as [->|Hk2].
      + rewrite Hhtml in H. destruct (PyStr.truthy (html self)) eqn:Ht;
          [|discriminate H].
        injection H as <-. rewrite (Hfs_html eq_refl). eauto.
      + exfalso. subst paths2.
        destruct (PyStr.truthy (html self));
          destruct (canonical_data self); cbn [id] in H;
          rewrite ?lookup_insert_ne in H by congruence;
          rewrite lookup_empty in H; discriminate H. }
  assert (Hplain : save dumps year renderer self output_dir false fs
                   = (fs2, ok paths2)).
  { unfold save, write_text. subst fs2 paths2 json_path html_path.
    destruct (canonical_data self); destruct (PyStr.truthy (html self));
      reflexivity. }
  assert (Hsave : save dumps year renderer self output_dir save_all_variants fs
                  = match save_all_variants, canonical_data self with
                    | true, Some d =>
                        match Renderer.render_all_variants year renderer d with
                        | inl e => (fs2, raise e)
                        | inr all_variants =>
                            (write_variants variants_dir all_variants fs2,
                             ok (map_fold
                                   (fun variant_key (_ : string)
                                        (paths : gmap string Path) =>
                                      <["variant_" +:+ variant_key
                                        := path_div variants_dir
                                             (variant_key +:+ ".html")]> paths)
                                   paths2 all_variants))
                        end
                    | _, _ => (fs2, ok paths2)
                    end).
  { unfold save, write_text.
    subst fs2 paths2 json_path html_path variants_dir.
    destruct (canonical_data self); destruct (PyStr.truthy (html self));
      reflexivity. }
  rewrite Hsave, Hplain. clear Hsave Hplain.
  destruct save_all_variants;
    [destruct (canonical_data self) as [d|] eqn:Hd|].
  - destruct (Renderer.render_all_variants year renderer d) as [e|m] eqn:Hm.
    + cbn [fst snd]. split; [intros paths H; discriminate H|].
      intros e' [= <-]. split; [reflexivity|]. split; [eauto|reflexivity].
    + cbn [fst snd]. split; [|intros e H; discriminate H].
      intros paths [= <-].
      destruct (variant_paths_spec variants_dir m paths2) as (V1 & V2 & V3).
      destruct (FileFacts.write_variants_spec variants_dir m fs2) as (W1 & W2).
      assert (Hkeep : forall name,
                write_variants variants_dir m fs2 !! path_div output_dir name
                = fs2 !! path_div output_dir name).
      { intros name. apply W2. intros key _.
        apply FileFacts.path_div_deeper. }
      split; [|split; [|split; [|split; [|split]]]].
      * intros key p H. destruct (V1 _ _ H) as [Hp|(k & (page & Hk) & ->)].
        -- destruct (Hexist _ _ Hp) as (x & Hx).
           destruct (decide (key = "json")) as [->|Hk1].
           ++ rewrite Hjson in Hp. injection Hp as <-.
              unfold json_path. rewrite Hkeep. eauto.
           ++ destruct (decide (key = "html")) as [->|Hk2].
              ** rewrite Hhtml in Hp.
                 destruct (PyStr.truthy (html self)); [|discriminate Hp].
                 injection Hp as <-. unfold html_path. rewrite Hkeep. eauto.
              ** exfalso. subst paths2.
                 destruct (PyStr.truthy (html self)); cbn [id] in Hp;
                   rewrite ?lookup_insert_ne in Hp by congruence;
                   rewrite lookup_empty in Hp; discriminate Hp.
        -- rewrite (W1 _ _ Hk). eauto.
      * rewrite V2; [exact Hjson|]. intros k H. symmetry in H.
        exact (proj1 (variant_name_not k) H).
      * rewrite V2; [exact Hhtml|]. intros k H. symmetry in H.
        exact (proj2 (variant_name_not k) H).
      * intros d' [= <-]. unfold json_path. rewrite Hkeep.
        exact (Hfs_json d eq_refl).
      * intros Ht. unfold html_path. rewrite Hkeep. exact (Hfs_html Ht).
      * intros d' m' key page _ [= <-] Hm' Hkey.
        rewrite Hm in Hm'. injection Hm' as <-. split.
        -- apply V3. eauto.
        -- exact (W1 _ _ Hkey).
  - cbn [fst snd]. split; [|intros e H; discriminate H].
    intros paths [= <-].
    split; [exact Hexist|]. split; [exact Hjson|]. split; [exact Hhtml|].
    split; [intros d H; discriminate H|]. split; [exact Hfs_html|].
    intros d m key page _ H. discriminate H.
  - cbn [fst snd]. split; [|intros e H; discriminate H].
    intros paths [= <-].
    split; [exact Hexist|]. split; [exact Hjson|]. split; [exact Hhtml|].
    split; [exact Hfs_json|]. split; [exact Hfs_html|].
    intros d m key page H. discriminate H.
Qed.

End Saving.

End SavePathFacts.

(** ** Error codes and error texts *)

Module ErrorCodeFacts.

Import Errors.

Lemma bracket_join s msg :
  ("[" +:+ s +:+ "]") +:+ " " +:+ msg = "[" +:+ s +:+ "] " +:+ msg.
Proof.
  rewrite ExtractFacts.app_assoc'. f_equal.
  rewrite ExtractFacts.app_assoc'. reflexivity.
Qed.

(** The text of an error: the code, the step when it is a non-empty
    string, the message. *)
Lemma format_message_shape e :
  _format_message e
  = "[" +:+ ErrorCode_value (code e) +:+ "] "
    +:+ match step e with
        | Some s =>
            if PyStr.truthy s then "[" +:+ s +:+ "] " +:+ message e
            else message e
        | None => message e
        end.
Proof.
  unfold _format_message. cbv zeta.
  destruct (step e) as [s|]; [destruct (PyStr.truthy s)|];
    cbn [app PyStr.join]; rewrite ?bracket_join;
    destruct (code e); reflexivity.
Qed.

Lemma code_of_head c1 c2 r1 r2 :
  "[" +:+ ErrorCode_value c1 +:+ "] " +:+ r1
  = "[" +:+ ErrorCode_value c2 +:+ "] " +:+ r2 ->
  c1 = c2.
Proof.
  destruct c1, c2; intros H; try reflexivity;
    cbv [ErrorCode_value String.append] in H; discriminate H.
Qed.

(** X30. The text of a pipeline error determines its code: two errors
    with the same [str] have the same code, whatever their steps,
    messages and details.  The text of an [AgentError] carries the agent
    name as its step, "[code] [agent] message", and no step when the name
    is empty; its details hold the agent name and, when a cause is given,
    the text of the cause. *)
Theorem error_text_determines_code :
  (forall e1 e2, _format_message e1 = _format_message e2 -> code e1 = code e2)
  /\ (forall agent_name message c cause,
        let e := AgentError agent_name message c cause in
        code e = c
        /\ _format_message e
           = (if PyStr.truthy agent_name
              then "[" +:+ ErrorCode_value c +:+ "] [" +:+ agent_name +:+ "] "
                   +:+ message
              else "[" +:+ ErrorCode_value c +:+ "] " +:+ message)
        /\ Schemas.dict_lookup (details e) "agent" = Some agent_name
        /\ Schemas.dict_lookup (details e) "cause" = cause).
Proof.
  split.
  - intros e1 e2 H. rewrite !format_message_shape in H.
    exact (code_of_head _ _ _ _ H).
  - intros agent_name message c cause e. subst e.
    split; [reflexivity|]. split; [|split].
    + rewrite format_message_shape. unfold AgentError.
      cbn [step code Errors.message].
      destruct (PyStr.truthy agent_name); [|reflexivity].
      destruct c; reflexivity.
    + destruct cause; reflexivity.
    + destruct cause; reflexivity.
Qed.

End ErrorCodeFacts.

(** ** Validation on assignment *)

Module AssignmentFacts.

Import Validation ValidationFacts Schemas Invariants PipelineFacts.









End AssignmentFacts.
